(** * Deribit websocket engine: a shallow embedding

    The development follows [exchanges/deribit/deribit_websocket.go] and the
    request correlator exercised by [exchanges/stream/stream_match_test.go].

    Conventions of the embedding:
    - a Go [error] is the list of the atomic errors it aggregates; [nil] is
      the empty list and [common.AppendError] is concatenation;
    - a [float64] is a [spec_float] and [==] on floats is [SFeqb];
    - a method with receiver [e *Exchange] is a function from the exchange
      state to the new state and an [Outcome] (a returned error or a panic);
    - every effect that leaves the function (a frame sent, a value pushed on
      [DataHandler], a call on the order-book buffer or on the subscription
      store) is appended to the [trace] of the exchange state;
    - collaborators whose code lives outside this file (the JSON decoder, the
      transport, the instrument lookup, the typed payload handlers) are the
      fields of an [Env] record. *)

From Stdlib Require Import ZArith String Ascii List Bool Lia.
From Stdlib Require Import Floats.SpecFloat.
From stdpp Require Import base gmap strings list.

Open Scope string_scope.
Open Scope Z_scope.
Open Scope list_scope.

(** ** package common *)

Module common.

(** The atomic errors the engine produces or passes on. *)
Inductive Err : Type :=
| ErrWebsocketNotEnabled
| ErrSubscriptionFailure
| ErrDuplicateIdentifier
| errMalformedData (detail : string)
| ErrCouldNotParse (name : string) (cause : Err) (raw : string)
| ErrMatchedChannel (requestID : Z)
| ErrFailedTo (sub : string) (method : string)
| ErrUnexpectedChannel (key : string)
| ErrAuthNotEnabled (name : string)
| ErrLoginResponse (name : string) (code : Z) (message : string)
| ErrWrapped (name : string) (cause : Err)
| ErrExternal (message : string).

(** A Go [error] value: [nil] or an aggregate of atomic errors. *)
Definition error : Type := list Err.

Definition nil_error : error := [].

Definition is_nil (err : error) : bool :=
  match err with [] => true | _ :: _ => false end.

(** Modelled from the spec: [common.AppendError] is not part of the files
    at hand; the aggregate error combines all the failures appended to it
    and is empty exactly when nothing failed. *)
Definition AppendError (original incoming : error) : error :=
  original ++ incoming.

End common.

Export common.

(** ** package stream: the request correlator *)

Module stream.

(** An identifier is an integer or a string (Go [any] used as a key). *)
Definition signature : Type := (Z + string)%type.

(** The state of a waiter's single-slot delivery container. *)
Inductive Slot : Type :=
| SlotEmpty
| SlotFull (payload : option string)
| SlotReleased.

(** The handle given to the caller that registered: [m.sig] and [m.C]. *)
Record Incoming : Type := mkIncoming { sig : signature; C : nat }.

(** Modelled from the spec: the [Match] type is not part of the files at
    hand, only its test is.  The outstanding-request table maps an
    identifier to the slot of its waiter; slots are numbered in the order
    of their creation. *)
Record Match : Type := mkMatch {
  m : gmap signature nat;
  chans : list Slot
}.

(** [&Match{}] and [NewMatch()] both start with no registration. *)
Definition NewMatch : Match := {| m := ∅; chans := [] |}.

(** Modelled from the spec: [Register(identifier) -> waiter] fails with
    DuplicateIdentifier if one is already outstanding for that identifier;
    otherwise creates a single-slot delivery container and returns a
    handle. *)
Definition Set_ (id : signature) (mt : Match) : Match * (error + Incoming) :=
  match m mt !! id with
  | Some _ => (mt, inl [ErrDuplicateIdentifier])
  | None =>
      let c := length (chans mt) in
      ({| m := <[id := c]> (m mt); chans := chans mt ++ [SlotEmpty] |},
       inr {| sig := id; C := c |})
  end.

(** Modelled from the spec: [Deliver(identifier, payload) -> bool] looks up
    the outstanding waiter; if found, hands the payload to its slot and
    removes the entry, returns true; if not found, returns false. *)
Definition IncomingWithData (id : signature) (data : option string)
    (mt : Match) : Match * bool :=
  match m mt !! id with
  | Some c =>
      ({| m := delete id (m mt); chans := <[c := SlotFull data]> (chans mt) |},
       true)
  | None => (mt, false)
  end.

(** [Incoming(signature)] delivers without a payload. *)
Definition Incoming_ (id : signature) (mt : Match) : Match * bool :=
  IncomingWithData id None mt.

(** Modelled from the spec: [Cleanup(waiter)] removes a registration and
    releases its slot; always safe to call, idempotent. *)
Definition Cleanup (w : Incoming) (mt : Match) : Match :=
  {| m := delete (sig w) (m mt); chans := <[C w := SlotReleased]> (chans mt) |}.

(** [<-m.C]: what the waiter finds in its slot. *)
Definition receive (w : Incoming) (mt : Match) : option Slot :=
  chans mt !! C w.

(** The identifiers with an outstanding registration. *)
Definition outstanding (id : signature) (mt : Match) : bool :=
  bool_decide (is_Some (m mt !! id)).

(** The pending requests held for an identifier. *)
Definition pending (id : signature) (mt : Match) : list (signature * nat) :=
  List.filter (fun kv => bool_decide (kv.1 = id)) (map_to_list (m mt)).

(** Delivering a sequence of payloads to one identifier, collecting the
    answers in order. *)
Fixpoint deliverAll (id : signature) (ps : list (option string))
    (mt : Match) : Match * list bool :=
  match ps with
  | [] => (mt, [])
  | p :: ps' =>
      let '(mt1, b) := IncomingWithData id p mt in
      let '(mt2, bs) := deliverAll id ps' mt1 in
      (mt2, b :: bs)
  end.

End stream.

(** ** package orderbook: the values handed to the order-book buffer *)

Module orderbook.

Record Level : Type := mkLevel { Price : spec_float; Amount : spec_float }.

Definition Levels : Type := list Level.

Module Book.
Record t : Type := mk {
  Exchange : string;
  ValidateOrderbook : bool;
  LastUpdated : Z;
  Pair : string;
  Asks : Levels;
  Bids : Levels;
  Asset : string;
  LastUpdateID : Z
}.
End Book.

Module Update.
Record t : Type := mk {
  Asks : Levels;
  Bids : Levels;
  Pair : string;
  Asset : string;
  UpdateID : Z;
  UpdateTime : Z
}.
End Update.

End orderbook.

(** ** package subscription *)

Module subscription.

(** The fields of [subscription.Subscription] the engine reads. *)
Record Subscription : Type := mkSubscription {
  Enabled : bool;
  Channel : string;
  Authenticated : bool;
  QualifiedChannel : string
}.

Definition List : Type := list Subscription.

(** [s.String()] names the subscription in an error message. *)
Definition String_ (s : Subscription) : string :=
  Channel s +:+ " " +:+ QualifiedChannel s.

(** [l.QualifiedChannels()] *)
Definition QualifiedChannels (l : List) : list string :=
  map QualifiedChannel l.

(** Modelled from the spec: [Public] and [Private] are not part of the
    files at hand; they partition the list into public and private
    (authenticated) subsets. *)
Definition Public (l : List) : List :=
  List.filter (fun s => negb (Authenticated s)) l.

Definition Private (l : List) : List :=
  List.filter (fun s => Authenticated s) l.

End subscription.

(** ** package strings *)

Module strings.

(** [strings.Split(s, sep)] for a separator of one character: the pieces
    of [s] between separators; never empty, [Split("", sep)] is the one
    empty piece. *)
Fixpoint Split (s : string) (sep : ascii) : list string :=
  match s with
  | EmptyString => [""]
  | String c s' =>
      if Ascii.eqb c sep then "" :: Split s' sep
      else match Split s' sep with
           | [] => [String c ""]
           | h :: t => String c h :: t
           end
  end.

(** [strings.Contains(s, substr)] *)
Fixpoint Contains (s substr : string) : bool :=
  String.prefix substr s ||
  match s with
  | EmptyString => false
  | String _ s' => Contains s' substr
  end.

End strings.

(** ** package deribit *)

Module deribit.

Import stream.

(** A raw frame, as read from or written to the connection. *)
Definition bytes : Type := string.

(** A decoded JSON value held in a Go [any]. *)
Inductive any : Type :=
| AnyNil
| AnyBool (b : bool)
| AnyInt (z : Z)
| AnyFloat64 (f : spec_float)
| AnyString (s : string)
| AnyComposite (raw : string).

(** [v.(float64)] *)
Definition asFloat64 (v : any) : option spec_float :=
  match v with AnyFloat64 f => Some f | _ => None end.

(** [0.0] and the comparison [price == 0]. *)
Definition zero : spec_float := S754_zero false.

Definition isZero (price : spec_float) : bool := SFeqb price zero.

(** [WsResponse] is declared with the package's types, outside the files at
    hand; these are the fields [wsHandleData] reads. *)
Module WsResponse.
Record t : Type := mk {
  ID : Z;
  Method : string;
  Result : any;
  Params_Channel : string
}.
End WsResponse.

(** The payload of a book channel, with the fields [processOrderbook]
    reads; a row of a side is a list of JSON values. *)
Module wsOrderbook.
Record t : Type := mk {
  Type_ : string;
  Timestamp : Z;
  InstrumentName : string;
  ChangeID : Z;
  Bids : list (list any);
  Asks : list (list any)
}.
End wsOrderbook.

(** The error object of a login response, when there is one: its code and
    its message, as [wsLogin] reads them. *)
Module wsLoginResponse.
Record t : Type := mk {
  Error : option (Z * string)
}.
End wsLoginResponse.

(** Outgoing requests: [wsInput] and [WsSubscriptionInput]. *)
Inductive Request : Type :=
| wsInput (ID : Z) (JSONRPCVersion : string) (Method : string)
    (Params : gmap string any)
| WsSubscriptionInput (ID : Z) (JSONRPCVersion : string) (Method : string)
    (Params : gmap string (list string)).

Definition rpcVersion : string := "2.0".

Definition pingMessage : Request :=
  WsSubscriptionInput 2 rpcVersion "public/test" ∅.

Definition setHeartBeatMessage : Request :=
  wsInput 1 rpcVersion "public/set_heartbeat" {[ "interval" := AnyInt 15 ]}.

Definition platformStateChannel : string := "platform_state".

(** The typed payload handlers whose bodies are left to [Env]: each decodes
    its payload, pushes what it decoded on [DataHandler] and returns.  None
    of them touches the correlator, the connection or the order-book
    buffer, so [Env] gives, for a frame, the values pushed and the way the
    call ends. *)
Inductive Handler : Type :=
| processCandleChart
| processIncrementalTicker
| processQuoteTicker
| processInstrumentTicker
| processTrades
| processUserOrderChanges
| processUserOrders.

(** What is pushed on [e.Websocket.DataHandler]. *)
Inductive Data : Type :=
| DataError (err : error)
| UnhandledMessageWarning (Message : string)
| DataDecoded (target : string) (raw : bytes)
| DataTyped (h : Handler) (payload : string).

(** The effects that leave the engine, in the order they happen. *)
Inductive Event : Type :=
| EvDial
| EvGoReadData
| EvLogError (message : string)
| EvSendJSONMessage (r : Request)
| EvSendMessageReturnResponse (id : Z) (r : Request)
| EvMatchIncoming (id : Z) (delivered : bool)
| EvDataHandler (d : Data)
| EvLoadSnapshot (b : orderbook.Book.t)
| EvUpdate (u : orderbook.Update.t)
| EvAddSuccessfulSubscriptions (s : subscription.Subscription)
| EvRemoveSubscriptions (s : subscription.Subscription).

(** The exchange state the websocket methods read and write. *)
Record Exchange : Type := mkExchange {
  Name : string;
  IsEnabled : bool;
  Websocket_IsEnabled : bool;
  ValidateOrderbook : bool;
  IsWebsocketAuthenticationSupported : bool;
  CanUseAuthenticatedEndpoints : bool;
  Match : stream.Match;
  Wg : Z;
  trace : list Event
}.

Definition emit (ev : Event) (e : Exchange) : Exchange :=
  {| Name := Name e; IsEnabled := IsEnabled e;
     Websocket_IsEnabled := Websocket_IsEnabled e;
     ValidateOrderbook := ValidateOrderbook e;
     IsWebsocketAuthenticationSupported := IsWebsocketAuthenticationSupported e;
     CanUseAuthenticatedEndpoints := CanUseAuthenticatedEndpoints e;
     Match := Match e; Wg := Wg e; trace := trace e ++ [ev] |}.

Definition SetCanUseAuthenticatedEndpoints (b : bool) (e : Exchange) : Exchange :=
  {| Name := Name e; IsEnabled := IsEnabled e;
     Websocket_IsEnabled := Websocket_IsEnabled e;
     ValidateOrderbook := ValidateOrderbook e;
     IsWebsocketAuthenticationSupported := IsWebsocketAuthenticationSupported e;
     CanUseAuthenticatedEndpoints := b;
     Match := Match e; Wg := Wg e; trace := trace e |}.

Definition setMatch (mt : stream.Match) (e : Exchange) : Exchange :=
  {| Name := Name e; IsEnabled := IsEnabled e;
     Websocket_IsEnabled := Websocket_IsEnabled e;
     ValidateOrderbook := ValidateOrderbook e;
     IsWebsocketAuthenticationSupported := IsWebsocketAuthenticationSupported e;
     CanUseAuthenticatedEndpoints := CanUseAuthenticatedEndpoints e;
     Match := mt; Wg := Wg e; trace := trace e |}.

Definition Wg_Add (n : Z) (e : Exchange) : Exchange :=
  {| Name := Name e; IsEnabled := IsEnabled e;
     Websocket_IsEnabled := Websocket_IsEnabled e;
     ValidateOrderbook := ValidateOrderbook e;
     IsWebsocketAuthenticationSupported := IsWebsocketAuthenticationSupported e;
     CanUseAuthenticatedEndpoints := CanUseAuthenticatedEndpoints e;
     Match := Match e; Wg := Wg e + n; trace := trace e |}.

(** How a method call ends: it returns an error value or it panics. *)
Inductive Outcome : Type :=
| Return (err : error)
| Panic (message : string).

(** The collaborators outside this file.  A call that gives a value or an
    error answers with one of the two; a call that only reports gives an
    [error], empty on success; a collaborator whose answer depends on what
    happened before takes the trace so far. *)
Record Env : Type := mkEnv {
  json_Unmarshal_WsResponse : bytes -> Err + WsResponse.t;
  json_Unmarshal_wsOrderbook : bytes -> Err + wsOrderbook.t;
  json_Unmarshal_wsLoginResponse : bytes -> Err + wsLoginResponse.t;
  json_Unmarshal_wsSubscriptionResponse : bytes -> Err + list string;
  json_Unmarshal_Data : string -> bytes -> error;
  Conn_Dial : list Event -> error;
  Conn_SendJSONMessage : list Event -> Request -> error;
  Conn_SendMessageReturnResponse : list Event -> Z -> Request -> Err + bytes;
  Conn_GenerateMessageID : list Event -> Z;
  GetCredentials : Err + (string * string);
  GetNonce : list Event -> string;
  time_Now_UnixMilli : list Event -> string;
  crypto_GetHMAC : string -> string -> Err + string;
  getAssetPairByInstrument : string -> Err + (string * string);
  Orderbook_LoadSnapshot : list Event -> orderbook.Book.t -> error;
  Orderbook_Update : list Event -> orderbook.Update.t -> error;
  AddSuccessfulSubscriptions : list Event -> subscription.Subscription -> error;
  RemoveSubscriptions : list Event -> subscription.Subscription -> error;
  ExpandTemplates : subscription.List -> Err + subscription.List;
  typedHandler : Handler -> bytes -> list string -> list Data * Outcome
}.

Section Methods.

Variable env : Env.

(** [e.Websocket.Conn.SendJSONMessage(ctx, request.Unset, r)] *)
Definition SendJSONMessage (r : Request) (e : Exchange) : Exchange * Outcome :=
  (emit (EvSendJSONMessage r) e, Return (Conn_SendJSONMessage env (trace e) r)).

(** [e.Websocket.DataHandler <- d] *)
Definition DataHandler_send (d : Data) (e : Exchange) : Exchange :=
  emit (EvDataHandler d) e.

(** [e.Websocket.Match.IncomingWithData(id, respRaw)] *)
Definition Match_IncomingWithData (id : Z) (respRaw : bytes) (e : Exchange)
    : Exchange * bool :=
  let '(mt, ok) := stream.IncomingWithData (inl id) (Some respRaw) (Match e) in
  (emit (EvMatchIncoming id ok) (setMatch mt e), ok).

(** [websocket.UnhandledMessage], a constant of the websocket package. *)
Definition UnhandledMessage : string := " - Unhandled websocket message: ".

Definition warnUnhandled (respRaw : bytes) (e : Exchange) : Exchange :=
  DataHandler_send
    (UnhandledMessageWarning (Name e +:+ UnhandledMessage +:+ respRaw)) e.

(** [processData]: decode the payload into [result] and hand it on. *)
Definition processData (respRaw : bytes) (result : string) (e : Exchange)
    : Exchange * Outcome :=
  match json_Unmarshal_Data env result respRaw with
  | [] => (DataHandler_send (DataDecoded result respRaw) e, Return [])
  | err => (e, Return err)
  end.

(** One of the four loops of [processOrderbook] over the rows of a side.
    A row has [width] fields, its price at index [pi] and its amount at
    index [ai]; [skipZero] says whether the loop has the
    [else if price == 0 { continue }] branch. *)
Fixpoint levelsLoop (width pi ai : nat) (skipZero : bool)
    (rows : list (list any)) (acc : orderbook.Levels)
    : error + orderbook.Levels :=
  match rows with
  | [] => inr acc
  | row :: rest =>
      if negb (length row =? width)%nat then inl [errMalformedData ""]
      else
        match row !! pi ≫= asFloat64 with
        | None => inl [errMalformedData "invalid orderbook price"]
        | Some price =>
            if skipZero && isZero price
            then levelsLoop width pi ai skipZero rest acc
            else
              match row !! ai ≫= asFloat64 with
              | None => inl [errMalformedData "invalid amount"]
              | Some amount =>
                  levelsLoop width pi ai skipZero rest
                    (acc ++ [orderbook.mkLevel price amount])
              end
        end
  end.

(** The 3-segment book path: rows are [action, price, amount]; the asks
    loop has no zero-price branch, the bids loop has one. *)
Definition bookAsks (rows : list (list any)) : error + orderbook.Levels :=
  levelsLoop 3 1 2 false rows [].

Definition bookBids (rows : list (list any)) : error + orderbook.Levels :=
  levelsLoop 3 1 2 true rows [].

(** The 5-segment depth-book path: rows are [price, amount]; both loops
    have the zero-price branch. *)
Definition depthAsks (rows : list (list any)) : error + orderbook.Levels :=
  levelsLoop 2 0 1 true rows [].

Definition depthBids (rows : list (list any)) : error + orderbook.Levels :=
  levelsLoop 2 0 1 true rows [].

Definition LoadSnapshot (b : orderbook.Book.t) (e : Exchange)
    : Exchange * Outcome :=
  (emit (EvLoadSnapshot b) e, Return (Orderbook_LoadSnapshot env (trace e) b)).

Definition Update (u : orderbook.Update.t) (e : Exchange)
    : Exchange * Outcome :=
  (emit (EvUpdate u) e, Return (Orderbook_Update env (trace e) u)).

Definition processOrderbook (respRaw : bytes) (channels : list string)
    (e : Exchange) : Exchange * Outcome :=
  match json_Unmarshal_wsOrderbook env respRaw with
  | inl err => (e, Return [err])
  | inr orderbookData =>
      if (length channels =? 3)%nat then
        match getAssetPairByInstrument env
                (wsOrderbook.InstrumentName orderbookData) with
        | inl err => (e, Return [err])
        | inr (cp, a) =>
            match bookAsks (wsOrderbook.Asks orderbookData) with
            | inl err => (e, Return err)
            | inr asks =>
                match bookBids (wsOrderbook.Bids orderbookData) with
                | inl err => (e, Return err)
                | inr bids =>
                    if (length asks =? 0)%nat && (length bids =? 0)%nat
                    then (e, Return [])
                    else if String.eqb (wsOrderbook.Type_ orderbookData) "snapshot"
                    then
                      LoadSnapshot
                        {| orderbook.Book.Exchange := Name e;
                           orderbook.Book.ValidateOrderbook := ValidateOrderbook e;
                           orderbook.Book.LastUpdated := wsOrderbook.Timestamp orderbookData;
                           orderbook.Book.Pair := cp;
                           orderbook.Book.Asks := asks;
                           orderbook.Book.Bids := bids;
                           orderbook.Book.Asset := a;
                           orderbook.Book.LastUpdateID := wsOrderbook.ChangeID orderbookData |}
                        e
                    else if String.eqb (wsOrderbook.Type_ orderbookData) "change"
                    then
                      Update
                        {| orderbook.Update.Asks := asks;
                           orderbook.Update.Bids := bids;
                           orderbook.Update.Pair := cp;
                           orderbook.Update.Asset := a;
                           orderbook.Update.UpdateID := wsOrderbook.ChangeID orderbookData;
                           orderbook.Update.UpdateTime := wsOrderbook.Timestamp orderbookData |}
                        e
                    else (e, Return [])
                end
            end
        end
      else if (length channels =? 5)%nat then
        match getAssetPairByInstrument env
                (wsOrderbook.InstrumentName orderbookData) with
        | inl err => (e, Return [err])
        | inr (cp, a) =>
            match depthAsks (wsOrderbook.Asks orderbookData) with
            | inl err => (e, Return err)
            | inr asks =>
                match depthBids (wsOrderbook.Bids orderbookData) with
                | inl err => (e, Return err)
                | inr bids =>
                    if (length asks =? 0)%nat && (length bids =? 0)%nat
                    then (e, Return [])
                    else
                      LoadSnapshot
                        {| orderbook.Book.Exchange := Name e;
                           orderbook.Book.ValidateOrderbook := false;
                           orderbook.Book.LastUpdated := wsOrderbook.Timestamp orderbookData;
                           orderbook.Book.Pair := cp;
                           orderbook.Book.Asks := asks;
                           orderbook.Book.Bids := bids;
                           orderbook.Book.Asset := a;
                           orderbook.Book.LastUpdateID := wsOrderbook.ChangeID orderbookData |}
                        e
                end
            end
        end
      else (e, Return [])
  end.

(** A call of one of the typed handlers. *)
Definition runHandler (h : Handler) (respRaw : bytes) (channels : list string)
    (e : Exchange) : Exchange * Outcome :=
  let '(ds, out) := typedHandler env h respRaw channels in
  (fold_left (fun e d => DataHandler_send d e) ds e, out).

(** The [case "user":] arm: a second dispatch on [channels[1]].  Indexing
    past the end of the slice panics. *)
Definition routeUser (respRaw : bytes) (channels : list string)
    (e : Exchange) : Exchange * Outcome :=
  match channels !! 1%nat with
  | None => (e, Panic "index out of range [1]")
  | Some c1 =>
      if String.eqb c1 "access_log" then processData respRaw "wsAccessLog" e
      else if String.eqb c1 "changes"
      then runHandler processUserOrderChanges respRaw channels e
      else if String.eqb c1 "lock" then processData respRaw "WsUserLock" e
      else if String.eqb c1 "mmp_trigger" then
        match channels !! 2%nat with
        | None => (e, Panic "index out of range [2]")
        | Some _ => processData respRaw "WsMMPTrigger" e
        end
      else if String.eqb c1 "orders"
      then runHandler processUserOrders respRaw channels e
      else if String.eqb c1 "portfolio"
      then processData respRaw "wsUserPortfolio" e
      else if String.eqb c1 "trades"
      then runHandler processTrades respRaw channels e
      else (warnUnhandled respRaw e, Return [])
  end.

(** The [switch channels[0]] of [wsHandleData]. *)
Definition routeChannel (response : WsResponse.t) (respRaw : bytes)
    (channels : list string) (e : Exchange) : Exchange * Outcome :=
  match channels !! 0%nat with
  | None => (e, Panic "index out of range [0]")
  | Some c0 =>
      if String.eqb c0 "announcements" then
        match json_Unmarshal_Data env "Announcement" respRaw with
        | [] => (DataHandler_send (DataDecoded "Announcement" respRaw) e,
                 Return [])
        | err => (e, Return err)
        end
      else if String.eqb c0 "book" then processOrderbook respRaw channels e
      else if String.eqb c0 "chart"
      then runHandler processCandleChart respRaw channels e
      else if String.eqb c0 "deribit_price_index"
      then processData respRaw "wsIndexPrice" e
      else if String.eqb c0 "deribit_price_ranking"
      then processData respRaw "wsRankingPrices" e
      else if String.eqb c0 "deribit_price_statistics"
      then processData respRaw "wsPriceStatistics" e
      else if String.eqb c0 "deribit_volatility_index"
      then processData respRaw "wsVolatilityIndex" e
      else if String.eqb c0 "estimated_expiration_price"
      then processData respRaw "wsEstimatedExpirationPrice" e
      else if String.eqb c0 "incremental_ticker"
      then runHandler processIncrementalTicker respRaw channels e
      else if String.eqb c0 "instrument"
      then processData respRaw "wsInstrumentState" e
      else if String.eqb c0 "markprice"
      then processData respRaw "wsMarkPriceOptions" e
      else if String.eqb c0 "perpetual"
      then processData respRaw "wsPerpetualInterest" e
      else if String.eqb c0 platformStateChannel
      then processData respRaw "wsPlatformState" e
      else if String.eqb c0 "quote"
      then runHandler processQuoteTicker respRaw channels e
      else if String.eqb c0 "rfq"
      then processData respRaw "wsRequestForQuote" e
      else if String.eqb c0 "ticker"
      then runHandler processInstrumentTicker respRaw channels e
      else if String.eqb c0 "trades"
      then runHandler processTrades respRaw channels e
      else if String.eqb c0 "user" then routeUser respRaw channels e
      else if String.eqb c0 "public/test" || String.eqb c0 "public/set_heartbeat"
      then (e, Return [])
      else
        match WsResponse.Result response with
        | AnyString result =>
            if String.eqb result "ok" then (e, Return [])
            else (e, Return [])
        | _ => (warnUnhandled respRaw e, Return [])
        end
  end.

Definition wsHandleData (respRaw : bytes) (e : Exchange) : Exchange * Outcome :=
  match json_Unmarshal_WsResponse env respRaw with
  | inl err => (e, Return [ErrCouldNotParse (Name e) err respRaw])
  | inr response =>
      if String.eqb (WsResponse.Method response) "heartbeat"
      then SendJSONMessage pingMessage e
      else if 2 <? WsResponse.ID response then
        let '(e1, ok) := Match_IncomingWithData (WsResponse.ID response) respRaw e in
        if negb ok
        then (e1, Return [ErrMatchedChannel (WsResponse.ID response)])
        else (e1, Return [])
      else if 0 <? WsResponse.ID response then (e, Return [])
      else
        routeChannel response respRaw
          (strings.Split (WsResponse.Params_Channel response) "."%char) e
  end.

(** How the read loop ends: [ReadMessage] gave a frame with a nil [Raw]
    and the loop returned, the handler panicked, or the frames at hand
    are used up and the loop waits in [ReadMessage]. *)
Inductive LoopEnd : Type :=
| LoopReturned
| LoopPanicked (message : string)
| LoopWaiting.

(** [wsReadData], fed the successive answers of [ReadMessage] ([None] is
    a frame whose [Raw] is nil).  The deferred [Wg.Done] runs when the
    function returns or panics. *)
Fixpoint wsReadData (frames : list (option bytes)) (e : Exchange)
    : Exchange * LoopEnd :=
  match frames with
  | [] => (e, LoopWaiting)
  | None :: _ => (Wg_Add (-1) e, LoopReturned)
  | Some raw :: rest =>
      match wsHandleData raw e with
      | (e1, Panic msg) => (Wg_Add (-1) e1, LoopPanicked msg)
      | (e1, Return []) => wsReadData rest e1
      | (e1, Return err) => wsReadData rest (DataHandler_send (DataError err) e1)
      end
  end.

(** The line feed of ["\n"]. *)
Definition LF : string := String (ascii_of_nat 10) "".

(** [e.Websocket.Conn.SendMessageReturnResponse(ctx, request.Unset, id, r)] *)
Definition SendMessageReturnResponse (id : Z) (r : Request) (e : Exchange)
    : Exchange * (Err + bytes) :=
  (emit (EvSendMessageReturnResponse id r) e,
   Conn_SendMessageReturnResponse env (trace e) id r).

Definition wsLogin (e : Exchange) : Exchange * error :=
  if negb (IsWebsocketAuthenticationSupported e)
  then (e, [ErrAuthNotEnabled (Name e)])
  else
    match GetCredentials env with
    | inl err => (e, [err])
    | inr (Key, Secret) =>
        let e1 := SetCanUseAuthenticatedEndpoints true e in
        let n := GetNonce env (trace e1) in
        let strTS := time_Now_UnixMilli env (trace e1) in
        let str2Sign := strTS +:+ LF +:+ n +:+ LF in
        match crypto_GetHMAC env str2Sign Secret with
        | inl err => (e1, [err])
        | inr hmac =>
            let id := Conn_GenerateMessageID env (trace e1) in
            let req :=
              wsInput id rpcVersion "public/auth"
                (<["grant_type" := AnyString "client_signature"]>
                 (<["client_id" := AnyString Key]>
                  (<["timestamp" := AnyString strTS]>
                   (<["nonce" := AnyString n]>
                    (<["signature" := AnyString hmac]> ∅))))) in
            match SendMessageReturnResponse id req e1 with
            | (e2, inl err) =>
                (SetCanUseAuthenticatedEndpoints false e2, [err])
            | (e2, inr resp) =>
                match json_Unmarshal_wsLoginResponse env resp with
                | inl err => (e2, [ErrWrapped (Name e) err])
                | inr response =>
                    match wsLoginResponse.Error response with
                    | Some (Code, Message) =>
                        if (0 <? Code) || negb (String.eqb Message "")
                        then (e2, [ErrLoginResponse (Name e) Code Message])
                        else (e2, [])
                    | None => (e2, [])
                    end
                end
            end
        end
    end.

Definition WsConnect (e : Exchange) : Exchange * Outcome :=
  if negb (Websocket_IsEnabled e) || negb (IsEnabled e)
  then (e, Return [ErrWebsocketNotEnabled])
  else
    match Conn_Dial env (trace e) with
    | (_ :: _) as err => (emit EvDial e, Return err)
    | [] =>
        let e1 := emit EvGoReadData (Wg_Add 1 (emit EvDial e)) in
        let e2 :=
          if CanUseAuthenticatedEndpoints e1 then
            match wsLogin e1 with
            | (e', []) => e'
            | (e', _ :: _) =>
                SetCanUseAuthenticatedEndpoints false
                  (emit (EvLogError "authentication failed") e')
            end
          else e1 in
        SendJSONMessage setHeartBeatMessage e2
    end.

(** The set built by [subAck[c] = true] for every [c] of the result. *)
Definition ackSet (result : list string) : gset string :=
  fold_left (fun subAck c => {[c]} ∪ subAck) result ∅.

(** [for _, s := range subs { ... }] of [handleSubscription]. *)
Fixpoint reconcileLoop (method : string) (subs : subscription.List)
    (subAck : gset string) (err : error) (e : Exchange)
    : Exchange * gset string * error :=
  match subs with
  | [] => (e, subAck, err)
  | s :: rest =>
      if bool_decide (subscription.QualifiedChannel s ∈ subAck) then
        let subAck' := subAck ∖ {[subscription.QualifiedChannel s]} in
        if negb (strings.Contains method "unsubscribe") then
          reconcileLoop method rest subAck'
            (AppendError err (AddSuccessfulSubscriptions env (trace e) s))
            (emit (EvAddSuccessfulSubscriptions s) e)
        else
          reconcileLoop method rest subAck'
            (AppendError err (RemoveSubscriptions env (trace e) s))
            (emit (EvRemoveSubscriptions s) e)
      else
        reconcileLoop method rest subAck
          (AppendError err [ErrFailedTo (subscription.String_ s) method]) e
  end.

(** [for key := range subAck { ... }]: Go fixes no order on the keys of a
    map and neither does [elements]. *)
Definition unexpectedLoop (subAck : gset string) (err : error) : error :=
  fold_left (fun err key => AppendError err [ErrUnexpectedChannel key])
    (elements subAck) err.

Definition handleSubscription (method : string) (subs : subscription.List)
    (e : Exchange) : Exchange * error :=
  match ExpandTemplates env subs with
  | inl err => (e, [err])
  | inr subs =>
      if (length subs =? 0)%nat then (e, [])
      else
        let id := Conn_GenerateMessageID env (trace e) in
        let r :=
          WsSubscriptionInput id rpcVersion method
            {[ "channels" := subscription.QualifiedChannels subs ]} in
        match SendMessageReturnResponse id r e with
        | (e1, inl err) => (e1, [err])
        | (e1, inr data) =>
            match json_Unmarshal_wsSubscriptionResponse env data with
            | inl err => (e1, [ErrWrapped (Name e) err])
            | inr Result =>
                let subAck := ackSet Result in
                let err :=
                  if negb (size subAck =? length subs)%nat
                  then [ErrSubscriptionFailure] else [] in
                let '(e2, subAck', err') :=
                  reconcileLoop method subs subAck err e1 in
                (e2, unexpectedLoop subAck' err')
            end
        end
  end.

Definition Subscribe (subs : subscription.List) (e : Exchange)
    : Exchange * error :=
  let '(e1, errs) := handleSubscription "public/subscribe" (subscription.Public subs) e in
  let '(e2, errs') := handleSubscription "private/subscribe" (subscription.Private subs) e1 in
  (e2, AppendError errs errs').

Definition Unsubscribe (subs : subscription.List) (e : Exchange)
    : Exchange * error :=
  let '(e1, errs) := handleSubscription "public/unsubscribe" (subscription.Public subs) e in
  let '(e2, errs') := handleSubscription "private/unsubscribe" (subscription.Private subs) e1 in
  (e2, AppendError errs errs').

End Methods.

(** *** Vocabulary of the properties *)

(** A level whose price is not zero. *)
Definition pricedLevel (l : orderbook.Level) : Prop :=
  isZero (orderbook.Price l) = false.

(** The two sides an event hands to the order-book buffer, asks first. *)
Definition sides (ev : Event) : option (orderbook.Levels * orderbook.Levels) :=
  match ev with
  | EvLoadSnapshot b => Some (orderbook.Book.Asks b, orderbook.Book.Bids b)
  | EvUpdate u => Some (orderbook.Update.Asks u, orderbook.Update.Bids u)
  | _ => None
  end.

(** Where the price sits in a row: [action, price, amount] under a channel
    of three segments, [price, amount] under one of five. *)
Definition priceIndex (channels : list string) : nat :=
  if (length channels =? 3)%nat then 1%nat else 0%nat.

Definition amountIndex (channels : list string) : nat :=
  S (priceIndex channels).

Definition rowWidth (channels : list string) : nat :=
  S (amountIndex channels).

(** A row of the expected width whose price and amount are numbers. *)
Definition validRow (channels : list string) (row : list any) : bool :=
  (length row =? rowWidth channels)%nat &&
  bool_decide (is_Some (row !! priceIndex channels ≫= asFloat64)) &&
  bool_decide (is_Some (row !! amountIndex channels ≫= asFloat64)).

Definition zeroPriceRow (channels : list string) (row : list any) : bool :=
  match row !! priceIndex channels ≫= asFloat64 with
  | Some price => isZero price
  | None => false
  end.

(** What [processOrderbook] can do: leave the state alone, or hand one
    event to the order-book buffer. *)
Definition handoff_spec (env : Env) (raw : bytes) (channels : list string)
    (e e' : Exchange) : Prop :=
  e' = e \/
  exists ob asks bids ev,
    e' = emit ev e /\
    json_Unmarshal_wsOrderbook env raw = inr ob /\
    sides ev = Some (asks, bids) /\
    (length channels = 3%nat /\
     bookAsks (wsOrderbook.Asks ob) = inr asks /\
     bookBids (wsOrderbook.Bids ob) = inr bids
     \/
     length channels = 5%nat /\
     depthAsks (wsOrderbook.Asks ob) = inr asks /\
     depthBids (wsOrderbook.Bids ob) = inr bids).

(** A state reached from [e] by effects only appended to its trace. *)
Definition extends (e e' : Exchange) : Prop :=
  exists tr, trace e' = trace e ++ tr.

(** The first segments [wsHandleData] has a case for, and the second
    segments it has a case for under "user". *)
Definition knownChannels : list string :=
  [ "announcements"; "book"; "chart"; "deribit_price_index";
    "deribit_price_ranking"; "deribit_price_statistics";
    "deribit_volatility_index"; "estimated_expiration_price";
    "incremental_ticker"; "instrument"; "markprice"; "perpetual";
    platformStateChannel; "quote"; "rfq"; "ticker"; "trades"; "user";
    "public/test"; "public/set_heartbeat" ].

Definition knownUserChannels : list string :=
  [ "access_log"; "changes"; "lock"; "mmp_trigger"; "orders"; "portfolio";
    "trades" ].

(** A login request on the wire. *)
Definition isAuthRequest (ev : Event) : Prop :=
  exists id version params,
    ev = EvSendMessageReturnResponse id (wsInput id version "public/auth" params).

(** The call on the subscription store that acknowledges [s]: a removal
    when the method is an unsubscribe, an addition otherwise. *)
Definition registered (method : string) (s : subscription.Subscription)
    : Event :=
  if strings.Contains method "unsubscribe" then EvRemoveSubscriptions s
  else EvAddSuccessfulSubscriptions s.

(** The subscription store accepts every addition and removal. *)
Definition registryQuiet (env : Env) : Prop :=
  forall tr s,
    AddSuccessfulSubscriptions env tr s = [] /\
    RemoveSubscriptions env tr s = [].

(** The specification's wording of the no-op condition: the rows of a side
    that remain after filtering out the zero-price and the invalid ones. *)
Definition levelsAfterFiltering (channels : list string)
    (rows : list (list any)) : list (list any) :=
  List.filter
    (fun row => validRow channels row && negb (zeroPriceRow channels row)) rows.

End deribit.

(** ** Fixtures: concrete collaborators and states the examples run on *)

Module fixtures.

Import stream deribit.

Definition hello : signature := inr "hello".

(** The state of [TestMatch] after [nm.Set("hello")]. *)
Definition afterSet : stream.Match := fst (Set_ hello NewMatch).

Definition helloWaiter : Incoming := {| sig := hello; C := 0 |}.

(** Looking a raw frame up in a table of decoded frames. *)
Fixpoint decodeWith {A : Type} (table : list (bytes * A)) (raw : bytes)
    : Err + A :=
  match table with
  | [] => inl (ErrExternal "invalid character")
  | (k, v) :: rest => if String.eqb k raw then inr v else decodeWith rest raw
  end.

(** A positive integer as a float. *)
Definition num (p : positive) : any := AnyFloat64 (S754_finite false p 0).

Definition nought : any := AnyFloat64 zero.

Definition envelope (id : Z) (method : string) (result : any)
    (channel : string) : WsResponse.t :=
  {| WsResponse.ID := id; WsResponse.Method := method;
     WsResponse.Result := result; WsResponse.Params_Channel := channel |}.

Definition responses : list (bytes * WsResponse.t) :=
  [ ("heartbeat", envelope 0 "heartbeat" AnyNil "");
    ("heartbeat3", envelope 3 "heartbeat" AnyNil "");
    ("reply7", envelope 7 "" (AnyComposite "[]") "");
    ("reply2", envelope 2 "" (AnyString "ok") "");
    ("newfeed", envelope 0 "subscription" AnyNil "newfeed.BTC");
    ("newfeedOk", envelope 0 "subscription" (AnyString "ok") "newfeed.BTC");
    ("userNew", envelope 0 "subscription" AnyNil "user.newfeed.BTC");
    ("userBare", envelope 0 "subscription" AnyNil "user");
    ("book", envelope 0 "subscription" AnyNil "book.BTC-PERPETUAL.100ms") ].

Definition bookOf (type : string) (bids asks : list (list any)) : wsOrderbook.t :=
  {| wsOrderbook.Type_ := type; wsOrderbook.Timestamp := 1700000000000;
     wsOrderbook.InstrumentName := "BTC-PERPETUAL";
     wsOrderbook.ChangeID := 42;
     wsOrderbook.Bids := bids; wsOrderbook.Asks := asks |}.

Definition snapshotMessage : wsOrderbook.t :=
  bookOf "snapshot"
    [ [AnyString "new"; nought; num 1]; [AnyString "new"; num 100; num 2] ]
    [ [AnyString "new"; num 101; num 1] ].

Definition zeroAskMessage : wsOrderbook.t :=
  bookOf "snapshot" [] [ [AnyString "new"; nought; num 5] ].

Definition zeroBidMessage : wsOrderbook.t :=
  bookOf "change" [ [AnyString "new"; nought; num 5] ] [].

Definition depthMessage : wsOrderbook.t :=
  bookOf "" [ [nought; num 1]; [num 100; num 2] ]
            [ [nought; num 3]; [num 101; num 1] ].

Definition shortRowMessage : wsOrderbook.t :=
  bookOf "" [] [ [num 1] ].

Definition books : list (bytes * wsOrderbook.t) :=
  [ ("book", snapshotMessage);
    ("zeroAsk", zeroAskMessage);
    ("zeroBid", zeroBidMessage);
    ("depth", depthMessage);
    ("shortRow", shortRowMessage) ].

Definition level (price amount : positive) : orderbook.Level :=
  orderbook.mkLevel (S754_finite false price 0) (S754_finite false amount 0).

Definition bookWith (asks bids : orderbook.Levels) : orderbook.Book.t :=
  {| orderbook.Book.Exchange := "Deribit";
     orderbook.Book.ValidateOrderbook := false;
     orderbook.Book.LastUpdated := 1700000000000;
     orderbook.Book.Pair := "BTC-PERPETUAL";
     orderbook.Book.Asks := asks;
     orderbook.Book.Bids := bids;
     orderbook.Book.Asset := "futures";
     orderbook.Book.LastUpdateID := 42 |}.

(** The books the venue's messages lead to. *)
Definition loadedBook : orderbook.Book.t :=
  bookWith [level 101 1] [level 100 2].

Definition zeroAskBook : orderbook.Book.t :=
  bookWith [orderbook.mkLevel zero (S754_finite false 5 0)] [].

Definition bookChannel : list string := ["book"; "BTC-PERPETUAL"; "100ms"].

Definition depthChannel : list string :=
  ["book"; "BTC-PERPETUAL"; "none"; "10"; "100ms"].

(** The channels of a subscription request. *)
Definition requested (r : Request) : list string :=
  match r with
  | WsSubscriptionInput _ _ _ Params => default [] (Params !! "channels")
  | wsInput _ _ _ _ => []
  end.

Definition tradesBTC : string := "trades.BTC-PERPETUAL.100ms".

(** The venue of the examples refuses the login and acknowledges, once,
    every requested channel but [tradesBTC]; its reply is the acknowledged
    channels, separated by commas. *)
Definition venue (r : Request) : Err + bytes :=
  match r with
  | wsInput _ _ _ _ => inl (ErrExternal "timeout")
  | WsSubscriptionInput _ _ _ _ =>
      inr (String.concat ","
             (List.filter (fun c => negb (String.eqb c tradesBTC))
                (remove_dups (requested r))))
  end.

Definition demoEnv : Env :=
  {| json_Unmarshal_WsResponse := decodeWith responses;
     json_Unmarshal_wsOrderbook := decodeWith books;
     json_Unmarshal_wsLoginResponse := fun _ => inl (ErrExternal "invalid character");
     json_Unmarshal_wsSubscriptionResponse :=
       fun data => inr (strings.Split data ","%char);
     json_Unmarshal_Data := fun _ _ => [];
     Conn_Dial := fun _ => [];
     Conn_SendJSONMessage := fun _ _ => [];
     Conn_SendMessageReturnResponse := fun _ _ r => venue r;
     Conn_GenerateMessageID := fun tr => 3 + Z.of_nat (length tr);
     GetCredentials := inr ("key", "secret");
     GetNonce := fun _ => "1";
     time_Now_UnixMilli := fun _ => "1700000000000";
     crypto_GetHMAC := fun _ _ => inr "c0ffee";
     getAssetPairByInstrument :=
       fun name =>
         if String.eqb name "BTC-PERPETUAL" then inr ("BTC-PERPETUAL", "futures")
         else inl (ErrExternal "instrument not found");
     Orderbook_LoadSnapshot := fun _ _ => [];
     Orderbook_Update := fun _ _ => [];
     AddSuccessfulSubscriptions := fun _ _ => [];
     RemoveSubscriptions := fun _ _ => [];
     ExpandTemplates := fun subs => inr subs;
     typedHandler := fun h raw _ => ([DataTyped h raw], Return []) |}.

Definition e0 : Exchange :=
  {| Name := "Deribit"; IsEnabled := true; Websocket_IsEnabled := true;
     ValidateOrderbook := false; IsWebsocketAuthenticationSupported := true;
     CanUseAuthenticatedEndpoints := true; Match := NewMatch; Wg := 0;
     trace := [] |}.

Definition sub (channel qualified : string) : subscription.Subscription :=
  {| subscription.Enabled := true; subscription.Channel := channel;
     subscription.Authenticated := false;
     subscription.QualifiedChannel := qualified |}.

Definition tickerSub := sub "ticker" "ticker.BTC-PERPETUAL.100ms".
Definition bookSub := sub "orderbook" "book.BTC-PERPETUAL.100ms".
Definition tradesSub := sub "allTrades" tradesBTC.

End fixtures.

(** ** The values the typed handlers push *)

Module ticker.

(** The fields of [ticker.Price] the handlers set; a field a handler leaves
    out holds the zero value. *)
Record Price : Type := mkPrice {
  Last : spec_float;
  High : spec_float;
  Low : spec_float;
  Bid : spec_float;
  Ask : spec_float;
  Volume : spec_float;
  QuoteVolume : spec_float;
  BidSize : spec_float;
  AskSize : spec_float;
  ExchangeName : string;
  Pair : string;
  AssetType : string;
  LastUpdated : Z
}.

End ticker.

Module kline.

(** [websocket.KlineData], as [processCandleChart] fills it. *)
Record KlineData : Type := mkKlineData {
  Timestamp : Z;
  Pair : string;
  AssetType : string;
  Exchange : string;
  OpenPrice : spec_float;
  HighPrice : spec_float;
  LowPrice : spec_float;
  ClosePrice : spec_float;
  Volume : spec_float
}.

End kline.

Module trade.

(** [trade.Data], as the handlers fill it. *)
Record Data : Type := mkData {
  CurrencyPair : string;
  Exchange : string;
  Timestamp : Z;
  Price : spec_float;
  Amount : spec_float;
  Side : string;
  TID : string;
  AssetType : string
}.

End trade.

Module order.

(** [order.Detail], as the handlers fill it. *)
Record Detail : Type := mkDetail {
  Price : spec_float;
  Amount : spec_float;
  ExecutedAmount : spec_float;
  RemainingAmount : spec_float;
  Exchange : string;
  OrderID : string;
  Type_ : string;
  Side : string;
  Status : string;
  AssetType : string;
  Date : Z;
  LastUpdated : Z;
  Pair : string
}.

End order.

(** ** package deribit, continued: the typed payload handlers *)

Module handlers.

Import deribit.

(** [x - y] on [float64]. *)
Definition float64_sub (x y : spec_float) : spec_float := SFsub 53 1024 x y.

(** [asset.Futures], in the representation [getAssetPairByInstrument] gives
    for asset classes. *)
Definition asset_Futures : string := "futures".

(** The payloads, with the fields the handlers read. *)
Module wsQuoteTickerInformation.
Record t : Type := mk {
  Timestamp : Z;
  BestBidPrice : spec_float;
  BestAskPrice : spec_float;
  BestBidAmount : spec_float;
  BestAskAmount : spec_float
}.
End wsQuoteTickerInformation.

Module WsIncrementalTicker.
Record t : Type := mk {
  Timestamp : Z;
  BestBidAmount : spec_float;
  BestAskAmount : spec_float;
  MaxPrice : spec_float;
  MinPrice : spec_float;
  Stats_Volume : spec_float;
  Stats_VolumeUsd : spec_float;
  ImpliedAsk : spec_float;
  ImpliedBid : spec_float
}.
End WsIncrementalTicker.

Module wsTicker.
Record t : Type := mk {
  Timestamp : Z;
  BestBidPrice : spec_float;
  BestAskPrice : spec_float;
  BestBidAmount : spec_float;
  BestAskAmount : spec_float;
  LastPrice : spec_float;
  Stats_High : spec_float;
  Stats_Low : spec_float;
  Stats_Volume : spec_float;
  MinPrice : spec_float;
  MaxPrice : spec_float;
  MarkPrice : spec_float;
  ImpliedAsk : spec_float;
  ImpliedBid : spec_float
}.
End wsTicker.

Module wsCandlestickData.
Record t : Type := mk {
  Tick : Z;
  Open : spec_float;
  High : spec_float;
  Low : spec_float;
  Close : spec_float;
  Volume : spec_float
}.
End wsCandlestickData.

(** A trade of a trades channel or of a user changes channel; [Direction]
    is an order side in the first and a string still to be converted in the
    second. *)
Module wsTrade.
Record t : Type := mk {
  InstrumentName : string;
  Timestamp : Z;
  Price : spec_float;
  Amount : spec_float;
  Direction : string;
  TradeID : string
}.
End wsTrade.

Module WsOrder.
Record t : Type := mk {
  InstrumentName : string;
  OrderType : string;
  Direction : string;
  OrderState : string;
  Price : spec_float;
  Amount : spec_float;
  FilledAmount : spec_float;
  OrderID : string;
  CreationTimestamp : Z;
  LastUpdateTimestamp : Z
}.
End WsOrder.

Module wsChanges.
Record t : Type := mk {
  Trades : list wsTrade.t;
  Orders : list WsOrder.t;
  Positions : list string
}.
End wsChanges.

(** What a typed handler pushes on [DataHandler]. *)
Inductive Pushed : Type :=
| PushPrice (p : ticker.Price)
| PushKline (k : kline.KlineData)
| PushTrade (t : trade.Data)
| PushOrders (l : list order.Detail)
| PushPositions (l : list string).

(** The effects of a typed handler, in the order they happen: a push on
    [DataHandler] or a call of [trade.AddTradesToBuffer]. *)
Inductive Effect : Type :=
| Push (p : Pushed)
| AddTradesToBuffer_call (l : list trade.Data).

(** The further collaborators of the typed handlers.
    [json_Unmarshal_detached] is [json.Unmarshal] into an envelope whose
    [Params.Data] holds a value that is not a pointer: what is decoded stays
    in the envelope, which the caller does not read, and only the error is
    observed.  [ErrNoResponse] is the text of [common.ErrNoResponse]. *)
Record HandlerEnv : Type := mkHandlerEnv {
  ExchangeName : string;
  ErrNoResponse : string;
  IsTradeFeedEnabled : bool;
  IsSaveTradeDataEnabled : bool;
  json_Unmarshal_wsQuoteTickerInformation : bytes -> Err + wsQuoteTickerInformation.t;
  json_Unmarshal_WsIncrementalTicker : bytes -> Err + WsIncrementalTicker.t;
  json_Unmarshal_wsTicker : bytes -> Err + wsTicker.t;
  json_Unmarshal_wsCandlestickData : bytes -> Err + wsCandlestickData.t;
  json_Unmarshal_wsTrades : bytes -> Err + list wsTrade.t;
  json_Unmarshal_detached : bytes -> option Err;
  json_Unmarshal_wsChanges : bytes -> Err + wsChanges.t;
  StringToOrderType : string -> Err + string;
  StringToOrderSide : string -> Err + string;
  StringToOrderStatus : string -> Err + string;
  AddTradesToBuffer : list trade.Data -> error;
  render : Pushed -> string
}.

Section Handlers.

Variable env : Env.
Variable henv : HandlerEnv.

(** [strings.Join(channels, ".")] *)
Definition joined (channels : list string) : string :=
  String.concat "." channels.

(** A handler's run: its effects and the way the call ends. *)
Definition Run : Type := (list Effect * Outcome)%type.

Definition fails (err : Err) : Run := ([], Return [err]).

Definition processQuoteTicker (respRaw : bytes) (channels : list string) : Run :=
  match channels !! 1%nat with
  | None => ([], Panic "index out of range [1]")
  | Some instrument =>
      match getAssetPairByInstrument env instrument with
      | inl err => fails err
      | inr (cp, a) =>
          match json_Unmarshal_wsQuoteTickerInformation henv respRaw with
          | inl err => fails err
          | inr quoteTicker =>
              ([Push (PushPrice
                  {| ticker.Last := zero; ticker.High := zero; ticker.Low := zero;
                     ticker.Bid := wsQuoteTickerInformation.BestBidPrice quoteTicker;
                     ticker.Ask := wsQuoteTickerInformation.BestAskPrice quoteTicker;
                     ticker.Volume := zero; ticker.QuoteVolume := zero;
                     ticker.BidSize := wsQuoteTickerInformation.BestBidAmount quoteTicker;
                     ticker.AskSize := wsQuoteTickerInformation.BestAskAmount quoteTicker;
                     ticker.ExchangeName := ExchangeName henv;
                     ticker.Pair := cp; ticker.AssetType := a;
                     ticker.LastUpdated := wsQuoteTickerInformation.Timestamp quoteTicker |})],
               Return [])
          end
      end
  end.

(** The loop of [processTrades] over the decoded trades: the first unknown
    instrument ends it with the error of the lookup. *)
Fixpoint tradesData (tradeList : list wsTrade.t) : Err + list trade.Data :=
  match tradeList with
  | [] => inr []
  | t :: rest =>
      match getAssetPairByInstrument env (wsTrade.InstrumentName t) with
      | inl err => inl err
      | inr (cp, a) =>
          match tradesData rest with
          | inl err => inl err
          | inr ds =>
              inr ({| trade.CurrencyPair := cp;
                      trade.Exchange := ExchangeName henv;
                      trade.Timestamp := wsTrade.Timestamp t;
                      trade.Price := wsTrade.Price t;
                      trade.Amount := wsTrade.Amount t;
                      trade.Side := wsTrade.Direction t;
                      trade.TID := wsTrade.TradeID t;
                      trade.AssetType := a |} :: ds)
          end
      end
  end.

Definition tradesFormat : string :=
  ", expected format 'trades.{instrument_name}.{interval} or trades.{kind}.{currency}.{interval}', but found ".

Definition processTrades (respRaw : bytes) (channels : list string) : Run :=
  let tradeFeed := IsTradeFeedEnabled henv in
  let saveTradeData := IsSaveTradeDataEnabled henv in
  if negb tradeFeed && negb saveTradeData then ([], Return [])
  else if (length channels <? 3)%nat || (5 <? length channels)%nat
  then fails (errMalformedData (tradesFormat +:+ joined channels))
  else
    match json_Unmarshal_wsTrades henv respRaw with
    | inl err => fails err
    | inr tradeList =>
        if (length tradeList =? 0)%nat
        then fails (ErrExternal (ErrNoResponse henv +:+ ", empty list of trades found"))
        else
          match tradesData tradeList with
          | inl err => fails err
          | inr ds =>
              let pushed :=
                if tradeFeed then map (fun d => Push (PushTrade d)) ds else [] in
              if saveTradeData
              then (pushed ++ [AddTradesToBuffer_call ds],
                    Return (AddTradesToBuffer henv ds))
              else (pushed, Return [])
          end
    end.

Definition processIncrementalTicker (respRaw : bytes) (channels : list string)
    : Run :=
  if negb (length channels =? 2)%nat
  then fails (errMalformedData
                (", expected format 'incremental_ticker.{instrument_name}', but found "
                 +:+ joined channels))
  else
    match channels !! 1%nat with
    | None => ([], Panic "index out of range [1]")
    | Some instrument =>
        match getAssetPairByInstrument env instrument with
        | inl err => fails err
        | inr (cp, a) =>
            match json_Unmarshal_WsIncrementalTicker henv respRaw with
            | inl err => fails err
            | inr incrementalTicker =>
                ([Push (PushPrice
                    {| ticker.Last := zero;
                       ticker.High := WsIncrementalTicker.MaxPrice incrementalTicker;
                       ticker.Low := WsIncrementalTicker.MinPrice incrementalTicker;
                       ticker.Bid := WsIncrementalTicker.ImpliedBid incrementalTicker;
                       ticker.Ask := WsIncrementalTicker.ImpliedAsk incrementalTicker;
                       ticker.Volume := WsIncrementalTicker.Stats_Volume incrementalTicker;
                       ticker.QuoteVolume := WsIncrementalTicker.Stats_VolumeUsd incrementalTicker;
                       ticker.BidSize := WsIncrementalTicker.BestBidAmount incrementalTicker;
                       ticker.AskSize := WsIncrementalTicker.BestAskAmount incrementalTicker;
                       ticker.ExchangeName := ExchangeName henv;
                       ticker.Pair := cp; ticker.AssetType := a;
                       ticker.LastUpdated := WsIncrementalTicker.Timestamp incrementalTicker |})],
                 Return [])
            end
        end
    end.

Definition processTicker (respRaw : bytes) (channels : list string) : Run :=
  match channels !! 1%nat with
  | None => ([], Panic "index out of range [1]")
  | Some instrument =>
      match getAssetPairByInstrument env instrument with
      | inl err => fails err
      | inr (cp, a) =>
          match json_Unmarshal_wsTicker henv respRaw with
          | inl err => fails err
          | inr tickerPriceResponse =>
              let other := negb (String.eqb a asset_Futures) in
              ([Push (PushPrice
                  {| ticker.Last :=
                       if other then wsTicker.MarkPrice tickerPriceResponse
                       else wsTicker.LastPrice tickerPriceResponse;
                     ticker.High :=
                       if other then wsTicker.MaxPrice tickerPriceResponse
                       else wsTicker.Stats_High tickerPriceResponse;
                     ticker.Low :=
                       if other then wsTicker.MinPrice tickerPriceResponse
                       else wsTicker.Stats_Low tickerPriceResponse;
                     ticker.Bid :=
                       if other then wsTicker.ImpliedBid tickerPriceResponse
                       else wsTicker.BestBidPrice tickerPriceResponse;
                     ticker.Ask :=
                       if other then wsTicker.ImpliedAsk tickerPriceResponse
                       else wsTicker.BestAskPrice tickerPriceResponse;
                     ticker.Volume := wsTicker.Stats_Volume tickerPriceResponse;
                     ticker.QuoteVolume := zero;
                     ticker.BidSize := wsTicker.BestBidAmount tickerPriceResponse;
                     ticker.AskSize := wsTicker.BestAskAmount tickerPriceResponse;
                     ticker.ExchangeName := ExchangeName henv;
                     ticker.Pair := cp; ticker.AssetType := a;
                     ticker.LastUpdated := wsTicker.Timestamp tickerPriceResponse |})],
               Return [])
          end
      end
  end.

Definition processInstrumentTicker (respRaw : bytes) (channels : list string)
    : Run :=
  if negb (length channels =? 3)%nat
  then fails (errMalformedData
                (", expected format 'ticker.{instrument_name}.{interval}', but found "
                 +:+ joined channels))
  else processTicker respRaw channels.

Definition processCandleChart (respRaw : bytes) (channels : list string) : Run :=
  if negb (length channels =? 4)%nat
  then fails (errMalformedData
                (", expected format 'chart.trades.{instrument_name}.{resolution}', but found "
                 +:+ joined channels))
  else
    match channels !! 2%nat with
    | None => ([], Panic "index out of range [2]")
    | Some instrument =>
        match getAssetPairByInstrument env instrument with
        | inl err => fails err
        | inr (cp, a) =>
            match json_Unmarshal_wsCandlestickData henv respRaw with
            | inl err => fails err
            | inr candleData =>
                ([Push (PushKline
                    {| kline.Timestamp := wsCandlestickData.Tick candleData;
                       kline.Pair := cp; kline.AssetType := a;
                       kline.Exchange := ExchangeName henv;
                       kline.OpenPrice := wsCandlestickData.Open candleData;
                       kline.HighPrice := wsCandlestickData.High candleData;
                       kline.LowPrice := wsCandlestickData.Low candleData;
                       kline.ClosePrice := wsCandlestickData.Close candleData;
                       kline.Volume := wsCandlestickData.Volume candleData |})],
                 Return [])
            end
        end
    end.

(** The loop of [processUserOrders] over the decoded orders: the instrument
    is looked up first, then the type, the side and the status are
    converted; the first failure ends the loop with its error. *)
Fixpoint orderDetails (orderData : list WsOrder.t) : Err + list order.Detail :=
  match orderData with
  | [] => inr []
  | o :: rest =>
      match getAssetPairByInstrument env (WsOrder.InstrumentName o) with
      | inl err => inl err
      | inr (cp, a) =>
          match StringToOrderType henv (WsOrder.OrderType o) with
          | inl err => inl err
          | inr oType =>
              match StringToOrderSide henv (WsOrder.Direction o) with
              | inl err => inl err
              | inr side =>
                  match StringToOrderStatus henv (WsOrder.OrderState o) with
                  | inl err => inl err
                  | inr status =>
                      match orderDetails rest with
                      | inl err => inl err
                      | inr ds =>
                          inr ({| order.Price := WsOrder.Price o;
                                  order.Amount := WsOrder.Amount o;
                                  order.ExecutedAmount := WsOrder.FilledAmount o;
                                  order.RemainingAmount :=
                                    float64_sub (WsOrder.Amount o) (WsOrder.FilledAmount o);
                                  order.Exchange := ExchangeName henv;
                                  order.OrderID := WsOrder.OrderID o;
                                  order.Type_ := oType;
                                  order.Side := side;
                                  order.Status := status;
                                  order.AssetType := a;
                                  order.Date := WsOrder.CreationTimestamp o;
                                  order.LastUpdated := WsOrder.LastUpdateTimestamp o;
                                  order.Pair := cp |} :: ds)
                      end
                  end
              end
          end
      end
  end.

(** [orderData] is an empty slice, and it is the slice itself, not a
    pointer to it, that is stored in the envelope before the decoding: the
    decoder cannot reach the variable, and the loop runs over what it held
    before. *)
Definition processUserOrders (respRaw : bytes) (channels : list string) : Run :=
  if negb (length channels =? 4)%nat && negb (length channels =? 5)%nat
  then fails (errMalformedData
                (", expected format 'user.orders.{instrument_name}.raw, user.orders.{instrument_name}.{interval}, user.orders.{kind}.{currency}.raw, or user.orders.{kind}.{currency}.{interval}', but found "
                 +:+ joined channels))
  else
    let orderData : list WsOrder.t := [] in
    match json_Unmarshal_detached henv respRaw with
    | Some err => fails err
    | None =>
        match orderDetails orderData with
        | inl err => fails err
        | inr ds => ([Push (PushOrders ds)], Return [])
        end
    end.

(** The first loop of [processUserOrderChanges], over the trades: the side
    is converted first, then the instrument is looked up. *)
Fixpoint changeTrades (trades : list wsTrade.t) : Err + list trade.Data :=
  match trades with
  | [] => inr []
  | t :: rest =>
      match StringToOrderSide henv (wsTrade.Direction t) with
      | inl err => inl err
      | inr side =>
          match getAssetPairByInstrument env (wsTrade.InstrumentName t) with
          | inl err => inl err
          | inr (cp, a) =>
              match changeTrades rest with
              | inl err => inl err
              | inr ds =>
                  inr ({| trade.CurrencyPair := cp;
                          trade.Exchange := ExchangeName henv;
                          trade.Timestamp := wsTrade.Timestamp t;
                          trade.Price := wsTrade.Price t;
                          trade.Amount := wsTrade.Amount t;
                          trade.Side := side;
                          trade.TID := wsTrade.TradeID t;
                          trade.AssetType := a |} :: ds)
              end
          end
      end
  end.

(** Its second loop, over the orders: the type, the side and the status are
    converted first, then the instrument is looked up. *)
Fixpoint changeOrders (orders : list WsOrder.t) : Err + list order.Detail :=
  match orders with
  | [] => inr []
  | o :: rest =>
      match StringToOrderType henv (WsOrder.OrderType o) with
      | inl err => inl err
      | inr oType =>
          match StringToOrderSide henv (WsOrder.Direction o) with
          | inl err => inl err
          | inr side =>
              match StringToOrderStatus henv (WsOrder.OrderState o) with
              | inl err => inl err
              | inr status =>
                  match getAssetPairByInstrument env (WsOrder.InstrumentName o) with
                  | inl err => inl err
                  | inr (cp, a) =>
                      match changeOrders rest with
                      | inl err => inl err
                      | inr ds =>
                          inr ({| order.Price := WsOrder.Price o;
                                  order.Amount := WsOrder.Amount o;
                                  order.ExecutedAmount := WsOrder.FilledAmount o;
                                  order.RemainingAmount :=
                                    float64_sub (WsOrder.Amount o) (WsOrder.FilledAmount o);
                                  order.Exchange := ExchangeName henv;
                                  order.OrderID := WsOrder.OrderID o;
                                  order.Type_ := oType;
                                  order.Side := side;
                                  order.Status := status;
                                  order.AssetType := a;
                                  order.Date := WsOrder.CreationTimestamp o;
                                  order.LastUpdated := WsOrder.LastUpdateTimestamp o;
                                  order.Pair := cp |} :: ds)
                      end
                  end
              end
          end
      end
  end.

Definition processUserOrderChanges (respRaw : bytes) (channels : list string)
    : Run :=
  if (length channels <? 4)%nat || (5 <? length channels)%nat
  then fails (errMalformedData (tradesFormat +:+ joined channels))
  else
    match json_Unmarshal_wsChanges henv respRaw with
    | inl err => fails err
    | inr changeData =>
        match changeTrades (wsChanges.Trades changeData) with
        | inl err => fails err
        | inr td =>
            match AddTradesToBuffer henv td with
            | (_ :: _) as err => ([AddTradesToBuffer_call td], Return err)
            | [] =>
                match changeOrders (wsChanges.Orders changeData) with
                | inl err => ([AddTradesToBuffer_call td], Return [err])
                | inr orders =>
                    ([AddTradesToBuffer_call td;
                      Push (PushOrders orders);
                      Push (PushPositions (wsChanges.Positions changeData))],
                     Return [])
                end
            end
        end
    end.

(** The handler a [Handler] names. *)
Definition typed (h : Handler) : bytes -> list string -> Run :=
  match h with
  | deribit.processCandleChart => processCandleChart
  | deribit.processIncrementalTicker => processIncrementalTicker
  | deribit.processQuoteTicker => processQuoteTicker
  | deribit.processInstrumentTicker => processInstrumentTicker
  | deribit.processTrades => processTrades
  | deribit.processUserOrderChanges => processUserOrderChanges
  | deribit.processUserOrders => processUserOrders
  end.

(** The values a run pushes on [DataHandler], as [wsHandleData] sees them. *)
Definition pushedData (h : Handler) (effects : list Effect) : list Data :=
  omap (fun eff =>
          match eff with
          | Push p => Some (DataTyped h (render henv p))
          | AddTradesToBuffer_call _ => None
          end) effects.

(** The collaborators of [env], with the typed handlers of this section in
    the place of [typedHandler]. *)
Definition withHandlers : Env :=
  {| json_Unmarshal_WsResponse := json_Unmarshal_WsResponse env;
     json_Unmarshal_wsOrderbook := json_Unmarshal_wsOrderbook env;
     json_Unmarshal_wsLoginResponse := json_Unmarshal_wsLoginResponse env;
     json_Unmarshal_wsSubscriptionResponse := json_Unmarshal_wsSubscriptionResponse env;
     json_Unmarshal_Data := json_Unmarshal_Data env;
     Conn_Dial := Conn_Dial env;
     Conn_SendJSONMessage := Conn_SendJSONMessage env;
     Conn_SendMessageReturnResponse := Conn_SendMessageReturnResponse env;
     Conn_GenerateMessageID := Conn_GenerateMessageID env;
     GetCredentials := GetCredentials env;
     GetNonce := GetNonce env;
     time_Now_UnixMilli := time_Now_UnixMilli env;
     crypto_GetHMAC := crypto_GetHMAC env;
     getAssetPairByInstrument := getAssetPairByInstrument env;
     Orderbook_LoadSnapshot := Orderbook_LoadSnapshot env;
     Orderbook_Update := Orderbook_Update env;
     AddSuccessfulSubscriptions := AddSuccessfulSubscriptions env;
     RemoveSubscriptions := RemoveSubscriptions env;
     ExpandTemplates := ExpandTemplates env;
     typedHandler :=
       fun h respRaw channels =>
         let '(effects, out) := typed h respRaw channels in
         (pushedData h effects, out) |}.

End Handlers.

End handlers.

(** ** package deribit, continued: helpers, and the vocabulary of the
    further properties *)

Module helpers.

Import deribit.

(** *** [getValidatedCurrencyCode] *)

(** The fields of [currency.Pair]. *)
Record Pair : Type := mkPair {
  Base : string;
  Quote : string;
  Delimiter : string
}.

Section CurrencyCode.

(** [code.Upper().String()] and [pair.String()], of the currency package,
    and the currency codes declared with the package's constants. *)
Variable Upper : string -> string.
Variable Pair_String : Pair -> string.
Variables currencyBTC currencyETH currencySOL : string.
Variables currencyUSDT currencyUSDC currencyEURR : string.

Definition getValidatedCurrencyCode (pair : Pair) : string :=
  let currencyCode := Upper (Base pair) in
  if String.eqb currencyCode currencyBTC || String.eqb currencyCode currencyETH
     || String.eqb currencyCode currencySOL || String.eqb currencyCode currencyUSDT
     || String.eqb currencyCode currencyUSDC || String.eqb currencyCode currencyEURR
  then currencyCode
  else if strings.Contains (Pair_String pair) currencyUSDC then currencyUSDC
  else if strings.Contains (Pair_String pair) currencyUSDT then currencyUSDT
  else "any".

End CurrencyCode.

(** *** Vocabulary of the further properties *)

(** The state [e] after the events [tr]: nothing but the trace differs. *)
Definition emits (tr : list Event) (e : Exchange) : Exchange :=
  {| Name := Name e; IsEnabled := IsEnabled e;
     Websocket_IsEnabled := Websocket_IsEnabled e;
     ValidateOrderbook := ValidateOrderbook e;
     IsWebsocketAuthenticationSupported := IsWebsocketAuthenticationSupported e;
     CanUseAuthenticatedEndpoints := CanUseAuthenticatedEndpoints e;
     Match := Match e; Wg := Wg e; trace := trace e ++ tr |}.

(** A state that differs from [e] by appended events only. *)
Definition traced (e e' : Exchange) : Prop := exists tr, e' = emits tr e.


(** The correlator after a frame: only a frame that parses, is not a
    heartbeat and carries an identifier above 2 is delivered to it. *)
Definition correlatorAfter (env : Env) (respRaw : bytes) (e : Exchange)
    : stream.Match :=
  match json_Unmarshal_WsResponse env respRaw with
  | inl _ => Match e
  | inr response =>
      if String.eqb (WsResponse.Method response) "heartbeat" then Match e
      else if 2 <? WsResponse.ID response
      then fst (stream.IncomingWithData (inl (WsResponse.ID response))
                  (Some respRaw) (Match e))
      else Match e
  end.

(** A login response [wsLogin] takes for a success: it has no error object,
    or one whose code is not positive and whose message is empty. *)
Definition accepted (response : wsLoginResponse.t) : bool :=
  match wsLoginResponse.Error response with
  | None => true
  | Some (Code, Message) => negb ((0 <? Code) || negb (String.eqb Message ""))
  end.

(** The level a row gives: its price and its amount, when both are
    numbers. *)
Definition rowLevel (pi ai : nat) (row : list any) : option orderbook.Level :=
  match row !! pi ≫= asFloat64, row !! ai ≫= asFloat64 with
  | Some price, Some amount => Some (orderbook.mkLevel price amount)
  | _, _ => None
  end.

(** A row a loop with the zero-price branch passes over. *)
Definition skippedRow (pi : nat) (skipZero : bool) (row : list any) : bool :=
  skipZero &&
  match row !! pi ≫= asFloat64 with
  | Some price => isZero price
  | None => false
  end.

(** The levels of the rows that are not passed over, in the order of the
    rows. *)
Definition keptLevels (pi ai : nat) (skipZero : bool)
    (rows : list (list any)) : orderbook.Levels :=
  omap (rowLevel pi ai)
    (List.filter (fun row => negb (skippedRow pi skipZero row)) rows).

(** A row a loop rejects: it has not the expected width, or its price is
    not a number, or it is not passed over and its amount is not a
    number. *)
Definition malformedRow (width pi ai : nat) (skipZero : bool)
    (row : list any) : bool :=
  negb (length row =? width)%nat ||
  match row !! pi ≫= asFloat64 with
  | None => true
  | Some price =>
      negb (skipZero && isZero price) &&
      negb (bool_decide (is_Some (row !! ai ≫= asFloat64)))
  end.

Import handlers.

(** A pushed or buffered trade that carries the price, the amount, the
    time and the identifier of a decoded trade, the name of the exchange,
    and the pair and the asset class of the trade's own instrument. *)
Definition tradeOf (env : Env) (henv : HandlerEnv) (t : wsTrade.t)
    (d : trade.Data) : Prop :=
  getAssetPairByInstrument env (wsTrade.InstrumentName t)
    = inr (trade.CurrencyPair d, trade.AssetType d) /\
  trade.Exchange d = ExchangeName henv /\
  trade.Timestamp d = wsTrade.Timestamp t /\
  trade.Price d = wsTrade.Price t /\
  trade.Amount d = wsTrade.Amount t /\
  trade.TID d = wsTrade.TradeID t.

(** A pushed order that carries the fields of a decoded order, its type,
    side and status converted, what remains of its amount, the name of the
    exchange, and the pair and the asset class of the order's own
    instrument. *)
Definition orderOf (env : Env) (henv : HandlerEnv) (o : WsOrder.t)
    (d : order.Detail) : Prop :=
  getAssetPairByInstrument env (WsOrder.InstrumentName o)
    = inr (order.Pair d, order.AssetType d) /\
  StringToOrderType henv (WsOrder.OrderType o) = inr (order.Type_ d) /\
  StringToOrderSide henv (WsOrder.Direction o) = inr (order.Side d) /\
  StringToOrderStatus henv (WsOrder.OrderState o) = inr (order.Status d) /\
  order.Exchange d = ExchangeName henv /\
  order.OrderID d = WsOrder.OrderID o /\
  order.Price d = WsOrder.Price o /\
  order.Amount d = WsOrder.Amount o /\
  order.ExecutedAmount d = WsOrder.FilledAmount o /\
  order.RemainingAmount d
    = float64_sub (WsOrder.Amount o) (WsOrder.FilledAmount o) /\
  order.Date d = WsOrder.CreationTimestamp o /\
  order.LastUpdated d = WsOrder.LastUpdateTimestamp o.

(** The segment of the channel that names the instrument, for the handlers
    that take it from the channel. *)
Definition instrumentSegment (h : Handler) : nat :=
  match h with
  | deribit.processCandleChart => 2%nat
  | _ => 1%nat
  end.

(** The exchange, the pair and the asset class a pushed price or candle is
    for. *)
Definition pushedFor (p : Pushed) : option (string * string * string) :=
  match p with
  | PushPrice p => Some (ticker.ExchangeName p, ticker.Pair p, ticker.AssetType p)
  | PushKline k => Some (kline.Exchange k, kline.Pair k, kline.AssetType k)
  | _ => None
  end.

(** The arities a typed handler lets through: the number of segments its
    own check accepts; [processQuoteTicker] checks nothing. *)
Definition arityAccepted (h : Handler) (n : nat) : bool :=
  match h with
  | deribit.processCandleChart => (n =? 4)%nat
  | deribit.processIncrementalTicker => (n =? 2)%nat
  | deribit.processInstrumentTicker => (n =? 3)%nat
  | deribit.processTrades => (3 <=? n)%nat && (n <=? 5)%nat
  | deribit.processUserOrderChanges => (4 <=? n)%nat && (n <=? 5)%nat
  | deribit.processUserOrders => (n =? 4)%nat || (n =? 5)%nat
  | deribit.processQuoteTicker => true
  end.

(** Whether the asks loop of a book channel has the zero-price branch: it
    has not under a channel of three segments. *)
Definition asksSkipZero (channels : list string) : bool :=
  negb (length channels =? 3)%nat.

(** The channels on which the handler indexes past the end. *)
Definition panicking (channels : list string) : Prop :=
  channels = ["quote"] \/
  channels !! 0%nat = Some "user" /\
  (channels !! 1%nat = None \/
   channels !! 1%nat = Some "mmp_trigger" /\ channels !! 2%nat = None).

(** The number of times a character occurs in a string. *)
Fixpoint occurrences (c : ascii) (s : string) : nat :=
  match s with
  | EmptyString => 0%nat
  | String c' s' => ((if Ascii.eqb c' c then 1 else 0) + occurrences c s')%nat
  end.

(** Additions to and removals from the subscription store. *)
Definition isAddition (ev : Event) : bool :=
  match ev with EvAddSuccessfulSubscriptions _ => true | _ => false end.

Definition isRemoval (ev : Event) : bool :=
  match ev with EvRemoveSubscriptions _ => true | _ => false end.

(** Requests that wait for their answer. *)
Definition isRequest (ev : Event) : bool :=
  match ev with EvSendMessageReturnResponse _ _ => true | _ => false end.

End helpers.

(** ** Fixtures of the further properties *)

Module fixtures2.

Import stream deribit handlers helpers fixtures.

(** The collaborators of [demoEnv], with a venue that answers the login
    with [response]. *)
Definition loginEnv (response : wsLoginResponse.t) : Env :=
  {| json_Unmarshal_WsResponse := json_Unmarshal_WsResponse demoEnv;
     json_Unmarshal_wsOrderbook := json_Unmarshal_wsOrderbook demoEnv;
     json_Unmarshal_wsLoginResponse := fun _ => inr response;
     json_Unmarshal_wsSubscriptionResponse :=
       json_Unmarshal_wsSubscriptionResponse demoEnv;
     json_Unmarshal_Data := json_Unmarshal_Data demoEnv;
     Conn_Dial := Conn_Dial demoEnv;
     Conn_SendJSONMessage := Conn_SendJSONMessage demoEnv;
     Conn_SendMessageReturnResponse := fun _ _ _ => inr "login";
     Conn_GenerateMessageID := Conn_GenerateMessageID demoEnv;
     GetCredentials := GetCredentials demoEnv;
     GetNonce := GetNonce demoEnv;
     time_Now_UnixMilli := time_Now_UnixMilli demoEnv;
     crypto_GetHMAC := crypto_GetHMAC demoEnv;
     getAssetPairByInstrument := getAssetPairByInstrument demoEnv;
     Orderbook_LoadSnapshot := Orderbook_LoadSnapshot demoEnv;
     Orderbook_Update := Orderbook_Update demoEnv;
     AddSuccessfulSubscriptions := AddSuccessfulSubscriptions demoEnv;
     RemoveSubscriptions := RemoveSubscriptions demoEnv;
     ExpandTemplates := ExpandTemplates demoEnv;
     typedHandler := typedHandler demoEnv |}.

(** An error object with a negative code and no message. *)
Definition oddResponse : wsLoginResponse.t :=
  {| wsLoginResponse.Error := Some (-1, "") |}.

Definition loginRequest : Request :=
  wsInput 3 rpcVersion "public/auth"
    (<["grant_type" := AnyString "client_signature"]>
     (<["client_id" := AnyString "key"]>
      (<["timestamp" := AnyString "1700000000000"]>
       (<["nonce" := AnyString "1"]>
        (<["signature" := AnyString "c0ffee"]> ∅))))).


Definition price (p : positive) : spec_float := S754_finite false p 0.

Definition tradeOn (instrument : string) (id : string) : wsTrade.t :=
  {| wsTrade.InstrumentName := instrument; wsTrade.Timestamp := 1700000000000;
     wsTrade.Price := price 100; wsTrade.Amount := price 2;
     wsTrade.Direction := "buy"; wsTrade.TradeID := id |}.

Definition orderOfType (type : string) : WsOrder.t :=
  {| WsOrder.InstrumentName := "BTC-PERPETUAL"; WsOrder.OrderType := type;
     WsOrder.Direction := "buy"; WsOrder.OrderState := "open";
     WsOrder.Price := price 100; WsOrder.Amount := price 2;
     WsOrder.FilledAmount := price 1; WsOrder.OrderID := "o-1";
     WsOrder.CreationTimestamp := 1700000000000;
     WsOrder.LastUpdateTimestamp := 1700000000001 |}.

Definition twoTrades : list wsTrade.t :=
  [tradeOn "BTC-PERPETUAL" "t-1"; tradeOn "BTC-PERPETUAL" "t-2"].

(** A trade with an order of a type that does not convert. *)
Definition oddChanges : wsChanges.t :=
  {| wsChanges.Trades := [tradeOn "BTC-PERPETUAL" "t-1"];
     wsChanges.Orders := [orderOfType "iceberg"];
     wsChanges.Positions := [] |}.

Definition convert (known converted : string) (s : string) : Err + string :=
  if String.eqb s known then inr converted
  else inl (ErrExternal "not recognised").

Definition quoteOf : wsQuoteTickerInformation.t :=
  {| wsQuoteTickerInformation.Timestamp := 1700000000000;
     wsQuoteTickerInformation.BestBidPrice := price 100;
     wsQuoteTickerInformation.BestAskPrice := price 101;
     wsQuoteTickerInformation.BestBidAmount := price 2;
     wsQuoteTickerInformation.BestAskAmount := price 1 |}.

Definition demoHenv : HandlerEnv :=
  {| ExchangeName := "Deribit";
     ErrNoResponse := "no response";
     IsTradeFeedEnabled := true;
     IsSaveTradeDataEnabled := true;
     json_Unmarshal_wsQuoteTickerInformation := fun _ => inr quoteOf;
     json_Unmarshal_WsIncrementalTicker :=
       fun _ => inl (ErrExternal "invalid character");
     json_Unmarshal_wsTicker := fun _ => inl (ErrExternal "invalid character");
     json_Unmarshal_wsCandlestickData :=
       fun _ => inl (ErrExternal "invalid character");
     json_Unmarshal_wsTrades :=
       decodeWith
         [ ("trades", twoTrades);
           ("tradesUnknown", [tradeOn "BTC-PERPETUAL" "t-1"; tradeOn "DOGE" "t-2"]) ];
     json_Unmarshal_detached :=
       fun raw =>
         if String.eqb raw "orders" then None
         else Some (ErrExternal "invalid character");
     json_Unmarshal_wsChanges := decodeWith [ ("changes", oddChanges) ];
     StringToOrderType := convert "limit" "LIMIT";
     StringToOrderSide := convert "buy" "BUY";
     StringToOrderStatus := convert "open" "OPEN";
     AddTradesToBuffer := fun _ => [];
     render := fun _ => "" |}.

Definition tradesChannel : list string := ["trades"; "BTC-PERPETUAL"; "100ms"].

Definition ordersChannel : list string :=
  ["user"; "orders"; "BTC-PERPETUAL"; "raw"].

Definition changesChannel : list string :=
  ["user"; "changes"; "BTC-PERPETUAL"; "raw"].

Definition boughtData (id : string) : trade.Data :=
  {| trade.CurrencyPair := "BTC-PERPETUAL"; trade.Exchange := "Deribit";
     trade.Timestamp := 1700000000000; trade.Price := price 100;
     trade.Amount := price 2; trade.Side := "BUY"; trade.TID := id;
     trade.AssetType := "futures" |}.

Definition subscribeRequest (subs : subscription.List) : Request :=
  WsSubscriptionInput 3 rpcVersion "public/subscribe"
    {[ "channels" := subscription.QualifiedChannels subs ]}.

End fixtures2.

(** * Properties of the request correlator *)

Section MatchProperties.

Import stream.

Implicit Types (id : signature) (mt : Match) (w : Incoming).

Lemma Set_fresh id mt :
  m mt !! id = None ->
  Set_ id mt =
    ({| m := <[id := length (chans mt)]> (m mt); chans := chans mt ++ [SlotEmpty] |},
     inr {| sig := id; C := length (chans mt) |}).
Proof. intros H. unfold Set_. by rewrite H. Qed.

Lemma Set_outstanding id mt :
  is_Some (m mt !! id) -> Set_ id mt = (mt, inl [ErrDuplicateIdentifier]).
Proof. intros [c H]. unfold Set_. by rewrite H. Qed.

Lemma Set_inv id mt mt1 w :
  Set_ id mt = (mt1, inr w) ->
  m mt !! id = None /\ sig w = id /\ C w = length (chans mt) /\
  m mt1 = <[id := C w]> (m mt) /\ chans mt1 = chans mt ++ [SlotEmpty].
Proof.
  unfold Set_. destruct (m mt !! id) eqn:E; [discriminate |].
  intros [= <- <-]. simpl. auto.
Qed.

Lemma Incoming_absent id mt p :
  m mt !! id = None -> IncomingWithData id p mt = (mt, false).
Proof. intros H. unfold IncomingWithData. by rewrite H. Qed.

Lemma Incoming_present id mt p c :
  m mt !! id = Some c ->
  IncomingWithData id p mt =
    ({| m := delete id (m mt); chans := <[c := SlotFull p]> (chans mt) |}, true).
Proof. intros H. unfold IncomingWithData. by rewrite H. Qed.

Lemma deliverAll_absent id mt ps :
  m mt !! id = None -> deliverAll id ps mt = (mt, map (fun _ => false) ps).
Proof.
  intros H. induction ps as [| p ps IH]; [done |].
  simpl. rewrite (Incoming_absent _ _ _ H), IH. done.
Qed.

Lemma filter_key_unique (l : list (signature * nat)) id :
  NoDup (l.*1) ->
  (length (List.filter (fun kv => bool_decide (kv.1 = id)) l) <= 1)%nat.
Proof.
  induction l as [| [k v] l IH]; simpl; [lia |].
  intros Hnd. apply NoDup_cons in Hnd as [Hk Hnd].
  case_bool_decide as Hid; simpl in *; [| by apply IH].
  subst k.
  assert (List.filter (fun kv => bool_decide (kv.1 = id)) l = []) as ->; [| simpl; lia].
  clear IH Hnd. induction l as [| [k' v'] l IH]; [done |].
  simpl in *. apply not_elem_of_cons in Hk as [Hne Hk].
  case_bool_decide; simpl in *; [congruence | by apply IH].
Qed.

Lemma pending_at_most_one id mt : (length (pending id mt) <= 1)%nat.
Proof. apply filter_key_unique, NoDup_fst_map_to_list. Qed.

(** C6. Delivering to an identifier with no outstanding registration
    answers false and leaves the correlator as it was.  Delivering to a
    registered identifier answers true, puts the payload in the waiter's
    slot and removes the registration, so that every later delivery to the
    same identifier answers false, until the identifier is registered
    again, after which a delivery answers true once more. *)
Theorem Incoming_delivers_once id mt (p q : option string) :
  match m mt !! id with
  | None => IncomingWithData id p mt = (mt, false)
  | Some c =>
      exists mt1,
        IncomingWithData id p mt = (mt1, true) /\
        chans mt1 = <[c := SlotFull p]> (chans mt) /\
        (forall ps, deliverAll id ps mt1 = (mt1, map (fun _ => false) ps)) /\
        exists mt2 w mt3,
          Set_ id mt1 = (mt2, inr w) /\
          IncomingWithData id q mt2 = (mt3, true)
  end.
Proof.
  destruct (m mt !! id) as [c |] eqn:E.
  - eexists. split; [by apply Incoming_present |]. simpl.
    split; [done |].
    assert (delete id (m mt) !! id = None) as Hgone by apply lookup_delete_eq.
    split.
    + intros ps. by apply deliverAll_absent.
    + do 3 eexists. split.
      * by apply Set_fresh.
      * apply Incoming_present. simpl. apply lookup_insert_eq.
  - by apply Incoming_absent.
Qed.

(** C7. Once an identifier is registered, registering it again fails with
    the duplicate-identifier error and changes nothing, and so does any
    registration of an identifier that is outstanding; the table never
    holds more than one pending request for an identifier; after the
    waiter's cleanup, or after one delivery, the identifier can be
    registered again. *)
Theorem Set_rejects_outstanding id mt mt1 w :
  Set_ id mt = (mt1, inr w) ->
  Set_ id mt1 = (mt1, inl [ErrDuplicateIdentifier]) /\
  (forall id' mt', is_Some (m mt' !! id') ->
     Set_ id' mt' = (mt', inl [ErrDuplicateIdentifier])) /\
  (forall id' mt', (length (pending id' mt') <= 1)%nat) /\
  pending id mt1 = [(id, C w)] /\
  (exists mt2 w2, Set_ id (Cleanup w mt1) = (mt2, inr w2)) /\
  (forall p, exists mtd mt2 w2,
     IncomingWithData id p mt1 = (mtd, true) /\ Set_ id mtd = (mt2, inr w2)).
Proof.
  intros H. apply Set_inv in H as (Hnone & Hsig & HC & Hm & Hch).
  assert (m mt1 !! id = Some (C w)) as Hreg.
  { rewrite Hm. apply lookup_insert_eq. }
  split; [apply Set_outstanding; eauto |].
  split; [intros; by apply Set_outstanding |].
  split; [intros; apply pending_at_most_one |].
  split.
  { pose proof (pending_at_most_one id mt1) as Hle.
    assert ((id, C w) ∈ pending id mt1) as Hin.
    { unfold pending. apply list_elem_of_In, filter_In. split.
      - apply list_elem_of_In, elem_of_map_to_list. done.
      - simpl. by apply bool_decide_eq_true. }
    destruct (pending id mt1) as [| x [| y l]]; simpl in *.
    - by apply elem_of_nil in Hin.
    - apply list_elem_of_singleton in Hin. by subst.
    - lia. }
  split.
  - do 2 eexists. apply Set_fresh. simpl. rewrite Hsig. apply lookup_delete_eq.
  - intros p. do 3 eexists. split.
    + by apply Incoming_present.
    + apply Set_fresh. simpl. apply lookup_delete_eq.
Qed.

Lemma Set_rejects_outstanding_witness :
  Set_ fixtures.hello NewMatch = (fixtures.afterSet, inr fixtures.helloWaiter) /\
  Set_ fixtures.hello fixtures.afterSet =
    (fixtures.afterSet, inl [ErrDuplicateIdentifier]).
Proof.
  assert (Set_ fixtures.hello NewMatch
          = (fixtures.afterSet, inr fixtures.helloWaiter)) as H by reflexivity.
  split; [exact H |].
  exact (proj1 (Set_rejects_outstanding _ _ _ _ H)).
Defined.

(** The run of [TestMatch]: no match before a registration, a second
    registration refused, one match after the registration, none after
    it, and the payload-less delivery found in the waiter's slot. *)
Example TestMatch :
  snd (Incoming_ (inr "wow") NewMatch) = false /\
  snd (Incoming_ fixtures.hello NewMatch) = false /\
  Set_ fixtures.hello NewMatch = (fixtures.afterSet, inr fixtures.helloWaiter) /\
  snd (Set_ fixtures.hello fixtures.afterSet) = inl [ErrDuplicateIdentifier] /\
  sig fixtures.helloWaiter = inr "hello" /\
  snd (Incoming_ fixtures.hello fixtures.afterSet) = true /\
  snd (Incoming_ fixtures.hello (fst (Incoming_ fixtures.hello fixtures.afterSet)))
    = false /\
  receive fixtures.helloWaiter (fst (Incoming_ fixtures.hello fixtures.afterSet))
    = Some (SlotFull None).
Proof. repeat split. Qed.

End MatchProperties.

(** * Properties of the order-book path *)

Section OrderbookProperties.

Import deribit.

Variable env : Env.

Implicit Types (rows : list (list any)) (row : list any)
  (acc kept : orderbook.Levels) (e : Exchange).

Lemma asFloat64_Some (o : option any) f :
  o ≫= asFloat64 = Some f <-> o = Some (AnyFloat64 f).
Proof.
  destruct o as [[]|]; simpl; split; intros H; try discriminate; congruence.
Qed.

Lemma levelsLoop_inr width pi ai skipZero rows : forall acc out,
  levelsLoop width pi ai skipZero rows acc = inr out ->
  exists kept,
    out = acc ++ kept /\
    (skipZero = true -> Forall pricedLevel kept) /\
    (forall row p a,
       row ∈ rows ->
       row !! pi = Some (AnyFloat64 p) -> row !! ai = Some (AnyFloat64 a) ->
       skipZero && isZero p = false ->
       orderbook.mkLevel p a ∈ kept) /\
    (forall l, l ∈ kept ->
       exists row, row ∈ rows /\ length row = width /\
         row !! pi = Some (AnyFloat64 (orderbook.Price l)) /\
         row !! ai = Some (AnyFloat64 (orderbook.Amount l))).
Proof.
  induction rows as [| row rest IH]; intros acc out H; simpl in H.
  - injection H as <-. exists []. rewrite app_nil_r.
    repeat split; try done.
    + intros ? ? ? Hin. by apply elem_of_nil in Hin.
    + intros ? Hin. by apply elem_of_nil in Hin.
  - destruct (length row =? width)%nat eqn:Hw; simpl in H; [| discriminate].
    apply Nat.eqb_eq in Hw.
    destruct (row !! pi ≫= asFloat64) as [price |] eqn:Hp; [| discriminate].
    apply asFloat64_Some in Hp.
    destruct (skipZero && isZero price) eqn:Hskip.
    + apply IH in H as (kept & -> & Hnz & Hkeep & Hfrom).
      exists kept. repeat split; try done.
      * intros r p a Hin Hrp Hra Hsk.
        apply elem_of_cons in Hin as [-> | Hin]; [| eauto].
        rewrite Hp in Hrp. injection Hrp as <-. congruence.
      * intros l Hl. destruct (Hfrom l Hl) as (r & Hr & ?).
        exists r. split; [by apply elem_of_cons; right | done].
    + destruct (row !! ai ≫= asFloat64) as [amount |] eqn:Ha; [| discriminate].
      apply asFloat64_Some in Ha.
      apply IH in H as (kept & -> & Hnz & Hkeep & Hfrom).
      exists (orderbook.mkLevel price amount :: kept).
      rewrite <- app_assoc. simpl. repeat split; try done.
      * intros ->. constructor; [| by apply Hnz].
        unfold pricedLevel. simpl. by destruct (isZero price).
      * intros r p a Hin Hrp Hra Hsk.
        apply elem_of_cons in Hin as [-> | Hin].
        -- rewrite Hp in Hrp. rewrite Ha in Hra.
           injection Hrp as <-. injection Hra as <-. by left.
        -- right. eauto.
      * intros l Hl. apply elem_of_cons in Hl as [-> | Hl].
        -- exists row. split; [by left | done].
        -- destruct (Hfrom l Hl) as (r & Hr & ?).
           exists r. split; [by right | done].
Qed.


Lemma levelsLoop_nil width pi ai skipZero rows out :
  levelsLoop width pi ai skipZero rows [] = inr out ->
  (skipZero = true -> Forall pricedLevel out) /\
  (forall row p a,
     row ∈ rows ->
     row !! pi = Some (AnyFloat64 p) -> row !! ai = Some (AnyFloat64 a) ->
     skipZero && isZero p = false ->
     orderbook.mkLevel p a ∈ out) /\
  (forall l, l ∈ out ->
     exists row, row ∈ rows /\ length row = width /\
       row !! pi = Some (AnyFloat64 (orderbook.Price l)) /\
       row !! ai = Some (AnyFloat64 (orderbook.Amount l))).
Proof.
  intros H. apply levelsLoop_inr in H as (kept & -> & H). exact H.
Qed.

Lemma trace_emit ev e : trace (emit ev e) = trace e ++ [ev].
Proof. done. Qed.

Lemma trace_not_grown e ev : trace e <> trace e ++ [ev].
Proof.
  intros H. apply (f_equal length) in H. rewrite length_app in H.
  simpl in H. lia.
Qed.

Lemma processOrderbook_handoff raw channels e :
  handoff_spec env raw channels e (fst (processOrderbook env raw channels e)).
Proof.
  unfold processOrderbook, handoff_spec.
  destruct (json_Unmarshal_wsOrderbook env raw) as [err | ob] eqn:Hdec;
    [by left |].
  destruct (length channels =? 3)%nat eqn:H3.
  { apply Nat.eqb_eq in H3.
    destruct (getAssetPairByInstrument env _) as [err | [cp a]]; [by left |].
    destruct (bookAsks _) as [err | asks] eqn:Ha; [by left |].
    destruct (bookBids _) as [err | bids] eqn:Hb; [by left |].
    destruct (_ && _); [by left |].
    destruct (String.eqb _ "snapshot").
    - right. simpl. do 4 eexists. split; [done |]. eauto 10.
    - destruct (String.eqb _ "change"); [| by left].
      right. simpl. do 4 eexists. split; [done |]. eauto 10. }
  destruct (length channels =? 5)%nat eqn:H5; [| by left].
  apply Nat.eqb_eq in H5.
  destruct (getAssetPairByInstrument env _) as [err | [cp a]]; [by left |].
  destruct (depthAsks _) as [err | asks] eqn:Ha; [by left |].
  destruct (depthBids _) as [err | bids] eqn:Hb; [by left |].
  destruct (_ && _); [by left |].
  right. simpl. do 4 eexists. split; [done |]. eauto 10.
Qed.

Lemma processOrderbook_handed raw channels e e' out ev :
  processOrderbook env raw channels e = (e', out) ->
  trace e' = trace e ++ [ev] ->
  exists ob asks bids,
    json_Unmarshal_wsOrderbook env raw = inr ob /\
    sides ev = Some (asks, bids) /\
    (length channels = 3%nat /\
     bookAsks (wsOrderbook.Asks ob) = inr asks /\
     bookBids (wsOrderbook.Bids ob) = inr bids
     \/
     length channels = 5%nat /\
     depthAsks (wsOrderbook.Asks ob) = inr asks /\
     depthBids (wsOrderbook.Bids ob) = inr bids).
Proof.
  intros Hrun Htr.
  pose proof (processOrderbook_handoff raw channels e) as H.
  rewrite Hrun in H. simpl in H.
  destruct H as [-> | (ob & asks & bids & ev' & -> & Hdec & Hsides & Hpath)].
  - by apply trace_not_grown in Htr.
  - rewrite trace_emit in Htr.
    apply app_inv_head in Htr. injection Htr as ->.
    eauto 10.
Qed.


Lemma levelsLoop_noskip_length width pi ai rows : forall acc out,
  levelsLoop width pi ai false rows acc = inr out ->
  length out = (length acc + length rows)%nat.
Proof.
  induction rows as [| row rest IH]; intros acc out H; simpl in H.
  - injection H as <-. simpl. lia.
  - destruct (negb _); [discriminate |].
    destruct (row !! pi ≫= asFloat64); [| discriminate]. simpl in H.
    destruct (row !! ai ≫= asFloat64); [| discriminate].
    apply IH in H. rewrite H, length_app. simpl. lia.
Qed.

Lemma bookAsks_length rows asks :
  bookAsks rows = inr asks -> length asks = length rows.
Proof. intros H. by apply levelsLoop_noskip_length in H. Qed.

Lemma path_indices channels :
  (length channels = 3%nat ->
   priceIndex channels = 1%nat /\ amountIndex channels = 2%nat) /\
  (length channels = 5%nat ->
   priceIndex channels = 0%nat /\ amountIndex channels = 1%nat).
Proof.
  unfold amountIndex, priceIndex. split; intros ->; done.
Qed.

(** C2. When [processOrderbook] hands a book to [LoadSnapshot], no bid of
    that book has a zero price; every bid row of the message whose price
    and amount are numbers and whose price is not zero is one of its bids;
    and each of its bids comes from such a row of the message. *)
Theorem snapshot_drops_zero_price_bids raw channels e e' out b ob :
  processOrderbook env raw channels e = (e', out) ->
  trace e' = trace e ++ [EvLoadSnapshot b] ->
  json_Unmarshal_wsOrderbook env raw = inr ob ->
  Forall pricedLevel (orderbook.Book.Bids b) /\
  (forall row p a,
     row ∈ wsOrderbook.Bids ob ->
     row !! priceIndex channels = Some (AnyFloat64 p) ->
     row !! amountIndex channels = Some (AnyFloat64 a) ->
     isZero p = false ->
     orderbook.mkLevel p a ∈ orderbook.Book.Bids b) /\
  (forall l,
     l ∈ orderbook.Book.Bids b ->
     exists row,
       row ∈ wsOrderbook.Bids ob /\
       row !! priceIndex channels = Some (AnyFloat64 (orderbook.Price l)) /\
       row !! amountIndex channels = Some (AnyFloat64 (orderbook.Amount l))).
Proof.
  intros Hrun Htr Hdec.
  destruct (processOrderbook_handed _ _ _ _ _ _ Hrun Htr)
    as (ob' & asks & bids & Hdec' & Hsides & Hpath).
  rewrite Hdec in Hdec'. injection Hdec' as <-.
  simpl in Hsides. injection Hsides as <- <-.
  destruct (path_indices channels) as [P3 P5].
  destruct Hpath as [(Hlen & _ & Hb) | (Hlen & _ & Hb)];
    [destruct (P3 Hlen) as [-> ->] | destruct (P5 Hlen) as [-> ->]];
    apply levelsLoop_nil in Hb as (Hnz & Hkeep & Hfrom);
    (split; [by apply Hnz |]);
    (split; [intros row p a Hin Hp Ha Hz; apply (Hkeep row); try done;
             by rewrite Hz |]);
    intros l Hl; destruct (Hfrom l Hl) as (row & ? & ? & ? & ?); eauto.
Qed.

(** C10. Of the two sides handed to the order-book buffer, under a channel
    of three segments the bids hold no zero price while every ask row
    whose price and amount are numbers is among the asks, its price zero
    or not, so that no ask row is skipped; under a channel of five
    segments neither the asks nor the bids hold a zero price. *)
Theorem zero_price_filter_is_asymmetric raw channels e e' out ev ob asks bids :
  processOrderbook env raw channels e = (e', out) ->
  trace e' = trace e ++ [ev] ->
  sides ev = Some (asks, bids) ->
  json_Unmarshal_wsOrderbook env raw = inr ob ->
  (length channels = 3%nat ->
   Forall pricedLevel bids /\
   length asks = length (wsOrderbook.Asks ob) /\
   forall row p a,
     row ∈ wsOrderbook.Asks ob ->
     row !! 1%nat = Some (AnyFloat64 p) ->
     row !! 2%nat = Some (AnyFloat64 a) ->
     orderbook.mkLevel p a ∈ asks) /\
  (length channels = 5%nat ->
   Forall pricedLevel asks /\ Forall pricedLevel bids).
Proof.
  intros Hrun Htr Hsides Hdec.
  destruct (processOrderbook_handed _ _ _ _ _ _ Hrun Htr)
    as (ob' & asks' & bids' & Hdec' & Hsides' & Hpath).
  rewrite Hdec in Hdec'. injection Hdec' as <-.
  rewrite Hsides in Hsides'. injection Hsides' as <- <-.
  split; intros Hlen;
    (destruct Hpath as [(Hlen' & Ha & Hb) | (Hlen' & Ha & Hb)];
     [| ]; try (rewrite Hlen in Hlen'; discriminate)).
  - split; [apply levelsLoop_nil in Hb as (Hnz & _); by apply Hnz |].
    split; [by apply bookAsks_length |].
    apply levelsLoop_nil in Ha as (_ & Hkeep & _).
    intros row p a Hin Hp Hamt. by apply (Hkeep row).
  - apply levelsLoop_nil in Ha as (Hnza & _).
    apply levelsLoop_nil in Hb as (Hnzb & _).
    split; [by apply Hnza | by apply Hnzb].
Qed.


Lemma levelsLoop_skip_nil width pi ai rows :
  levelsLoop width pi ai true rows [] = inr [] <->
  Forall (fun row => length row = width /\
            exists p, row !! pi = Some (AnyFloat64 p) /\ isZero p = true) rows.
Proof.
  split.
  - induction rows as [| row rest IH]; [constructor |].
    simpl. destruct (length row =? width)%nat eqn:Hw; simpl; [| discriminate].
    apply Nat.eqb_eq in Hw.
    destruct (row !! pi ≫= asFloat64) as [price |] eqn:Hp; [| discriminate].
    apply asFloat64_Some in Hp.
    destruct (isZero price) eqn:Hz.
    + intros H. constructor; eauto.
    + destruct (row !! ai ≫= asFloat64); [| discriminate].
      intros H. apply levelsLoop_inr in H as (kept & H & _).
      destruct kept; discriminate.
  - induction 1 as [| row rest (Hw & p & Hp & Hz) _ IH]; [done |].
    simpl. rewrite Hw, Nat.eqb_refl, Hp. simpl. by rewrite Hz.
Qed.

Lemma bookAsks_nil rows : bookAsks rows = inr [] <-> rows = [].
Proof.
  split; [| by intros ->].
  intros H. apply bookAsks_length in H. by destruct rows.
Qed.

(** C5, as amended. When no row of the message is malformed and the two
    sides the code builds are both empty (on the bid side, and on the ask
    side of a channel of five segments, the rows left once the zero-price
    ones are skipped; on the ask side of a channel of three segments, all
    the rows), [processOrderbook] leaves the state as it was, calling
    neither [LoadSnapshot] nor [Update], and returns nil as soon as the
    instrument resolves. *)
Theorem empty_sides_are_a_no_op raw channels e ob :
  json_Unmarshal_wsOrderbook env raw = inr ob ->
  (length channels = 3%nat /\
   bookAsks (wsOrderbook.Asks ob) = inr [] /\
   bookBids (wsOrderbook.Bids ob) = inr []
   \/
   length channels = 5%nat /\
   depthAsks (wsOrderbook.Asks ob) = inr [] /\
   depthBids (wsOrderbook.Bids ob) = inr []) ->
  fst (processOrderbook env raw channels e) = e /\
  (forall cp a,
     getAssetPairByInstrument env (wsOrderbook.InstrumentName ob) = inr (cp, a) ->
     processOrderbook env raw channels e = (e, Return [])).
Proof.
  intros Hdec Hpath. unfold processOrderbook. rewrite Hdec.
  destruct Hpath as [(Hlen & Ha & Hb) | (Hlen & Ha & Hb)]; rewrite Hlen; simpl.
  - destruct (getAssetPairByInstrument env _) as [err | [cp a]];
      [split; [done | intros; discriminate] |].
    rewrite Ha, Hb. simpl. done.
  - destruct (getAssetPairByInstrument env _) as [err | [cp a]];
      [split; [done | intros; discriminate] |].
    rewrite Ha, Hb. simpl. done.
Qed.

End OrderbookProperties.

Section OrderbookExamples.

Import deribit fixtures.

Lemma snapshot_drops_zero_price_bids_witness :
  processOrderbook demoEnv "book" bookChannel e0
    = (emit (EvLoadSnapshot loadedBook) e0, Return []) /\
  Forall pricedLevel (orderbook.Book.Bids loadedBook) /\
  orderbook.Book.Bids loadedBook
    = [orderbook.mkLevel (S754_finite false 100 0) (S754_finite false 2 0)].
Proof.
  assert (processOrderbook demoEnv "book" bookChannel e0
          = (emit (EvLoadSnapshot loadedBook) e0, Return [])) as Hrun
    by (vm_compute; reflexivity).
  split; [exact Hrun |].
  split; [| reflexivity].
  apply (snapshot_drops_zero_price_bids demoEnv "book" bookChannel e0 _ _
           loadedBook snapshotMessage Hrun); reflexivity.
Defined.

Lemma zero_price_filter_is_asymmetric_witness :
  processOrderbook demoEnv "zeroAsk" bookChannel e0
    = (emit (EvLoadSnapshot zeroAskBook) e0, Return []) /\
  orderbook.mkLevel zero (S754_finite false 5 0)
    ∈ orderbook.Book.Asks zeroAskBook.
Proof.
  assert (processOrderbook demoEnv "zeroAsk" bookChannel e0
          = (emit (EvLoadSnapshot zeroAskBook) e0, Return [])) as Hrun
    by (vm_compute; reflexivity).
  split; [exact Hrun |].
  destruct (zero_price_filter_is_asymmetric demoEnv "zeroAsk" bookChannel e0 _ _
              (EvLoadSnapshot zeroAskBook) zeroAskMessage
              (orderbook.Book.Asks zeroAskBook) (orderbook.Book.Bids zeroAskBook)
              Hrun eq_refl eq_refl eq_refl) as [H3 _].
  destruct (H3 eq_refl) as (_ & _ & Hkeep).
  apply (Hkeep [AnyString "new"; nought; num 5]); [| reflexivity | reflexivity].
  apply list_elem_of_In. simpl. auto.
Defined.

Lemma empty_sides_are_a_no_op_witness :
  processOrderbook demoEnv "zeroBid" bookChannel e0 = (e0, Return []).
Proof.
  apply (proj2 (empty_sides_are_a_no_op demoEnv "zeroBid" bookChannel e0
                  zeroBidMessage eq_refl
                  (or_introl (conj eq_refl (conj eq_refl eq_refl))))
           "BTC-PERPETUAL" "futures" eq_refl).
Defined.

(** C5, as stated, fails.  A snapshot whose only row is a zero-price ask has
    nothing left on either side once zero-price and invalid rows are
    filtered out, yet on a channel of three segments the ask is handed to
    [LoadSnapshot]; and a message whose only row is too short has nothing
    left either, yet the call returns an error. *)
Lemma zero_price_ask_is_loaded :
  (json_Unmarshal_wsOrderbook demoEnv "zeroAsk" = inr zeroAskMessage /\
   levelsAfterFiltering bookChannel (wsOrderbook.Asks zeroAskMessage) = [] /\
   levelsAfterFiltering bookChannel (wsOrderbook.Bids zeroAskMessage) = [] /\
   processOrderbook demoEnv "zeroAsk" bookChannel e0
     = (emit (EvLoadSnapshot zeroAskBook) e0, Return []) /\
   processOrderbook demoEnv "zeroAsk" bookChannel e0 <> (e0, Return [])) /\
  (json_Unmarshal_wsOrderbook demoEnv "shortRow" = inr shortRowMessage /\
   levelsAfterFiltering depthChannel (wsOrderbook.Asks shortRowMessage) = [] /\
   levelsAfterFiltering depthChannel (wsOrderbook.Bids shortRowMessage) = [] /\
   processOrderbook demoEnv "shortRow" depthChannel e0
     = (e0, Return [errMalformedData ""])).
Proof.
  repeat split; try (vm_compute; reflexivity).
  vm_compute. discriminate.
Qed.

End OrderbookExamples.

(** * Properties of the read loop *)

Section ReadLoopProperties.

Import deribit.

Variable env : Env.

Implicit Types (e : Exchange) (raw : bytes) (response : WsResponse.t).

Lemma extends_refl e : extends e e.
Proof. exists []. by rewrite app_nil_r. Qed.

Lemma extends_trans e1 e2 e3 : extends e1 e2 -> extends e2 e3 -> extends e1 e3.
Proof.
  intros [t1 H1] [t2 H2]. exists (t1 ++ t2). by rewrite H2, H1, app_assoc.
Qed.

Lemma extends_emit ev e : extends e (emit ev e).
Proof. by exists [ev]. Qed.

Lemma extends_Wg_Add n e : extends e (Wg_Add n e).
Proof. exists []. simpl. by rewrite app_nil_r. Qed.

Lemma extends_sends ds e :
  extends e (fold_left (fun e d => DataHandler_send d e) ds e).
Proof.
  revert e. induction ds as [| d ds IH]; intros e; simpl; [apply extends_refl |].
  eapply extends_trans; [| apply IH]. apply extends_emit.
Qed.

Lemma extends_processData raw result e :
  extends e (fst (processData env raw result e)).
Proof.
  unfold processData. destruct (json_Unmarshal_Data env result raw); simpl;
    [apply extends_emit | apply extends_refl].
Qed.

Lemma extends_runHandler h raw channels e :
  extends e (fst (runHandler env h raw channels e)).
Proof.
  unfold runHandler. destruct (typedHandler env h raw channels) as [ds out].
  simpl. apply extends_sends.
Qed.

Lemma extends_processOrderbook raw channels e :
  extends e (fst (processOrderbook env raw channels e)).
Proof.
  destruct (processOrderbook_handoff env raw channels e)
    as [-> | (ob & asks & bids & ev & -> & _)];
    [apply extends_refl | apply extends_emit].
Qed.

Create HintDb extends.

#[local] Hint Resolve extends_refl extends_emit extends_processData extends_runHandler
  extends_processOrderbook : extends.

Lemma extends_routeUser raw channels e :
  extends e (fst (routeUser env raw channels e)).
Proof.
  unfold routeUser, warnUnhandled, DataHandler_send.
  repeat (case_match; simpl; auto with extends).
Qed.

Lemma extends_routeChannel response raw channels e :
  extends e (fst (routeChannel env response raw channels e)).
Proof.
  unfold routeChannel, warnUnhandled, DataHandler_send.
  repeat (case_match; simpl; auto using extends_routeUser with extends).
Qed.

Lemma extends_wsHandleData raw e : extends e (fst (wsHandleData env raw e)).
Proof.
  unfold wsHandleData, SendJSONMessage, Match_IncomingWithData.
  repeat (case_match; simpl; auto using extends_routeChannel with extends).
  all: simplify_eq; simpl; by eexists [_].
Qed.

Lemma extends_wsReadData frames : forall e,
  extends e (fst (wsReadData env frames e)).
Proof.
  induction frames as [| [raw |] rest IH]; intros e; simpl;
    [apply extends_refl | | apply extends_Wg_Add].
  - pose proof (extends_wsHandleData raw e) as H.
    destruct (wsHandleData env raw e) as [e1 [[| err errs] | msg]]; simpl in *.
    + eapply extends_trans; [exact H | apply IH].
    + eapply extends_trans; [exact H |].
      eapply extends_trans; [| apply IH]. apply extends_emit.
    + eapply extends_trans; [exact H | apply extends_Wg_Add].
Qed.


Lemma wsReadData_step raw rest e :
  wsReadData env (Some raw :: rest) e =
    match wsHandleData env raw e with
    | (e1, Panic msg) => (Wg_Add (-1) e1, LoopPanicked msg)
    | (e1, Return []) => wsReadData env rest e1
    | (e1, Return err) => wsReadData env rest (DataHandler_send (DataError err) e1)
    end.
Proof. done. Qed.

(** C3. A frame whose parsed method is "heartbeat" makes the handler send
    the ping and return the result of that send: the ping is the only
    effect of the frame, the correlator is left untouched and no channel
    is routed.  The read loop goes on to the frames that follow from the
    state in which the ping has been sent (after reporting the error of
    the send, if there is one), so that in the trace of the whole run the
    ping comes before every effect of a later frame. *)
Theorem heartbeat_is_acknowledged_inline raw response e rest :
  json_Unmarshal_WsResponse env raw = inr response ->
  WsResponse.Method response = "heartbeat" ->
  let acked := emit (EvSendJSONMessage pingMessage) e in
  let sent := Conn_SendJSONMessage env (trace e) pingMessage in
  wsHandleData env raw e = (acked, Return sent) /\
  Match acked = Match e /\
  wsReadData env (Some raw :: rest) e =
    wsReadData env rest
      (match sent with
       | [] => acked
       | _ :: _ => DataHandler_send (DataError sent) acked
       end) /\
  exists later,
    trace (fst (wsReadData env (Some raw :: rest) e)) =
      trace e ++ EvSendJSONMessage pingMessage :: later.
Proof.
  intros Hdec Hm acked sent.
  assert (wsHandleData env raw e = (acked, Return sent)) as Hrun.
  { unfold wsHandleData. rewrite Hdec, Hm. done. }
  assert (wsReadData env (Some raw :: rest) e =
          wsReadData env rest
            (match sent with
             | [] => acked
             | _ :: _ => DataHandler_send (DataError sent) acked
             end)) as Hloop.
  { rewrite wsReadData_step, Hrun. by destruct sent. }
  repeat split; try done.
  rewrite Hloop.
  destruct (extends_wsReadData rest
              (match sent with
               | [] => acked
               | _ :: _ => DataHandler_send (DataError sent) acked
               end)) as [tr Htr].
  rewrite Htr. destruct sent; simpl; rewrite <- !app_assoc; simpl; eauto.
Qed.

(** C4, as amended. For a frame that parses and whose method is not
    "heartbeat": if its identifier is above 2 the handler attempts the
    delivery to the correlator and routes nothing; when no waiter is
    registered for the identifier the delivery fails, the handler returns
    the routing error, and the read loop reports it on the event sink and
    goes on with the frames that follow.  If its identifier is 1 or 2 the
    handler returns nil and has no effect at all: no delivery is
    attempted and no channel is routed. *)
Theorem correlated_frames_are_delivered raw response e rest :
  json_Unmarshal_WsResponse env raw = inr response ->
  WsResponse.Method response <> "heartbeat" ->
  let id := WsResponse.ID response in
  (2 < id ->
   exists mt ok,
     stream.IncomingWithData (inl id) (Some raw) (Match e) = (mt, ok) /\
     let e1 := emit (EvMatchIncoming id ok) (setMatch mt e) in
     wsHandleData env raw e =
       (e1, Return (if ok then [] else [ErrMatchedChannel id])) /\
     (stream.m (Match e) !! inl id = None ->
      ok = false /\
      wsReadData env (Some raw :: rest) e =
        wsReadData env rest
          (DataHandler_send (DataError [ErrMatchedChannel id]) e1))) /\
  (0 < id <= 2 ->
   wsHandleData env raw e = (e, Return []) /\
   wsReadData env (Some raw :: rest) e = wsReadData env rest e).
Proof.
  intros Hdec Hm id. apply String.eqb_neq in Hm.
  split.
  - intros Hid.
    destruct (stream.IncomingWithData (inl id) (Some raw) (Match e))
      as [mt ok] eqn:Hdel.
    exists mt, ok. split; [done |].
    assert (wsHandleData env raw e =
            (emit (EvMatchIncoming id ok) (setMatch mt e),
             Return (if ok then [] else [ErrMatchedChannel id]))) as Hrun.
    { unfold wsHandleData. rewrite Hdec, Hm.
      apply Z.ltb_lt in Hid. fold id. rewrite Hid.
      unfold Match_IncomingWithData. rewrite Hdel. by destruct ok. }
    split; [exact Hrun |].
    intros Hnone.
    assert (ok = false) as ->.
    { rewrite (Incoming_absent _ _ _ Hnone) in Hdel. by injection Hdel. }
    split; [done |]. by rewrite wsReadData_step, Hrun.
  - intros [Hlo Hhi].
    assert (wsHandleData env raw e = (e, Return [])) as Hrun.
    { unfold wsHandleData. rewrite Hdec, Hm. fold id.
      assert ((2 <? id) = false) as -> by (apply Z.ltb_ge; lia).
      assert ((0 <? id) = true) as -> by (apply Z.ltb_lt; lia).
      done. }
    split; [exact Hrun |]. by rewrite wsReadData_step, Hrun.
Qed.

Lemma eqb_unknown (c : string) (known : list string) k :
  c ∉ known -> k ∈ known -> String.eqb c k = false.
Proof. intros Hc Hk. apply String.eqb_neq. intros ->. done. Qed.

Lemma wsHandleData_routes raw response e :
  json_Unmarshal_WsResponse env raw = inr response ->
  WsResponse.Method response <> "heartbeat" ->
  WsResponse.ID response <= 0 ->
  wsHandleData env raw e =
    routeChannel env response raw
      (strings.Split (WsResponse.Params_Channel response) "."%char) e.
Proof.
  intros Hdec Hm Hid. apply String.eqb_neq in Hm.
  unfold wsHandleData. rewrite Hdec, Hm.
  assert ((2 <? WsResponse.ID response) = false) as -> by (apply Z.ltb_ge; lia).
  assert ((0 <? WsResponse.ID response) = false) as -> by (apply Z.ltb_ge; lia).
  done.
Qed.

(** C9, as amended. For a frame that parses, is not a heartbeat and has no
    positive identifier: when the first segment of its channel is none of
    the known ones the handler returns nil, never an error or a panic; it
    pushes the unhandled-message warning on the event sink when the
    [result] of the frame is not a string, and has no effect when the
    [result] is the string "ok".  When the first segment is "user" and
    the second one is none of the known ones, the handler pushes the
    warning and returns nil. *)
Theorem unrecognised_channels_are_tolerated raw response e c0 segments :
  json_Unmarshal_WsResponse env raw = inr response ->
  WsResponse.Method response <> "heartbeat" ->
  WsResponse.ID response <= 0 ->
  strings.Split (WsResponse.Params_Channel response) "."%char = c0 :: segments ->
  (c0 ∉ knownChannels ->
   snd (wsHandleData env raw e) = Return [] /\
   (WsResponse.Result response = AnyString "ok" ->
    wsHandleData env raw e = (e, Return [])) /\
   ((forall s, WsResponse.Result response <> AnyString s) ->
    wsHandleData env raw e = (warnUnhandled raw e, Return []))) /\
  (c0 = "user" ->
   forall c1 segments', segments = c1 :: segments' ->
   c1 ∉ knownUserChannels ->
   wsHandleData env raw e = (warnUnhandled raw e, Return [])).
Proof.
  intros Hdec Hm Hid Hsplit.
  rewrite (wsHandleData_routes _ _ _ Hdec Hm Hid), Hsplit.
  split.
  - intros Hc0. unfold routeChannel. simpl.
    repeat match goal with
    | |- context [String.eqb c0 ?k] =>
        rewrite (eqb_unknown c0 knownChannels k Hc0)
          by (unfold knownChannels; set_solver)
    end.
    simpl. destruct (WsResponse.Result response) as [| | | | s |] eqn:Hres;
      try (split; [done |]; split; [intros; discriminate | done]).
    split; [by destruct (String.eqb s "ok") |].
    split; [intros [= ->]; done | intros Hns; by destruct (Hns s)].
  - intros -> c1 segments' -> Hc1. unfold routeChannel, routeUser. simpl.
    repeat match goal with
    | |- context [String.eqb c1 ?k] =>
        rewrite (eqb_unknown c1 knownUserChannels k Hc1)
          by (unfold knownUserChannels; set_solver)
    end.
    done.
Qed.

End ReadLoopProperties.

Section ReadLoopExamples.

Import deribit fixtures.

Lemma heartbeat_is_acknowledged_inline_witness :
  wsHandleData demoEnv "heartbeat" e0
    = (emit (EvSendJSONMessage pingMessage) e0, Return []) /\
  exists later,
    trace (fst (wsReadData demoEnv [Some "heartbeat"; Some "newfeed"] e0))
      = EvSendJSONMessage pingMessage :: later.
Proof.
  destruct (heartbeat_is_acknowledged_inline demoEnv "heartbeat"
              (envelope 0 "heartbeat" AnyNil "") e0 [Some "newfeed"]
              eq_refl eq_refl) as (Hrun & _ & _ & Hlater).
  split; [exact Hrun | exact Hlater].
Defined.

Lemma correlated_frames_are_delivered_witness :
  (exists mt,
     wsHandleData demoEnv "reply7" e0
       = (emit (EvMatchIncoming 7 false) (setMatch mt e0),
          Return [ErrMatchedChannel 7])) /\
  wsHandleData demoEnv "reply2" e0 = (e0, Return []).
Proof.
  destruct (correlated_frames_are_delivered demoEnv "reply7"
              (envelope 7 "" (AnyComposite "[]") "") e0 []
              eq_refl ltac:(discriminate)) as [Hhigh _].
  destruct (correlated_frames_are_delivered demoEnv "reply2"
              (envelope 2 "" (AnyString "ok") "") e0 []
              eq_refl ltac:(discriminate)) as [_ Hlow].
  split.
  - destruct (Hhigh eq_refl) as (mt & ok & _ & Hrun & Habsent).
    destruct (Habsent eq_refl) as [-> _]. exists mt. exact Hrun.
  - apply Hlow. split; [reflexivity | discriminate].
Defined.

(** C4, as stated, fails.  A frame whose identifier is 3 and whose method is
    "heartbeat" is answered with the ping and is not delivered to the
    correlator. *)
Lemma heartbeat_with_identifier_is_not_delivered :
  json_Unmarshal_WsResponse demoEnv "heartbeat3"
    = inr (envelope 3 "heartbeat" AnyNil "") /\
  2 < WsResponse.ID (envelope 3 "heartbeat" AnyNil "") /\
  wsHandleData demoEnv "heartbeat3" e0
    = (emit (EvSendJSONMessage pingMessage) e0, Return []) /\
  forall ok,
    EvMatchIncoming 3 ok ∉ trace (fst (wsHandleData demoEnv "heartbeat3" e0)).
Proof.
  repeat split.
  intros ok Hin. simpl in Hin.
  apply list_elem_of_singleton in Hin. discriminate.
Qed.

Lemma newfeed_unknown : "newfeed" ∉ knownChannels.
Proof. apply (bool_decide_unpack _). by vm_compute. Qed.

Lemma newfeed_unknown_to_user : "newfeed" ∉ knownUserChannels.
Proof. apply (bool_decide_unpack _). by vm_compute. Qed.

Lemma unrecognised_channels_are_tolerated_witness :
  wsHandleData demoEnv "newfeed" e0 = (warnUnhandled "newfeed" e0, Return []) /\
  wsHandleData demoEnv "userNew" e0 = (warnUnhandled "userNew" e0, Return []).
Proof.
  split.
  - destruct (unrecognised_channels_are_tolerated demoEnv "newfeed"
                (envelope 0 "subscription" AnyNil "newfeed.BTC") e0
                "newfeed" ["BTC"] eq_refl ltac:(discriminate)
                ltac:(discriminate) eq_refl) as [Hfirst _].
    destruct (Hfirst newfeed_unknown) as (_ & _ & Hwarn).
    apply Hwarn. intros s. discriminate.
  - destruct (unrecognised_channels_are_tolerated demoEnv "userNew"
                (envelope 0 "subscription" AnyNil "user.newfeed.BTC") e0
                "user" ["newfeed"; "BTC"] eq_refl ltac:(discriminate)
                ltac:(discriminate) eq_refl) as [_ Huser].
    apply (Huser eq_refl "newfeed" ["BTC"] eq_refl newfeed_unknown_to_user).
Defined.

(** C9, as stated, fails.  A frame on a channel no route knows whose
    [result] is the string "ok" is dropped without a warning: the handler
    returns nil and pushes nothing on the event sink. *)
Lemma ok_result_is_dropped_without_warning :
  json_Unmarshal_WsResponse demoEnv "newfeedOk"
    = inr (envelope 0 "subscription" (AnyString "ok") "newfeed.BTC") /\
  strings.Split "newfeed.BTC" "."%char = ["newfeed"; "BTC"] /\
  ("newfeed" ∉ knownChannels) /\
  wsHandleData demoEnv "newfeedOk" e0 = (e0, Return []) /\
  wsHandleData demoEnv "newfeedOk" e0
    <> (warnUnhandled "newfeedOk" e0, Return []).
Proof.
  repeat split; [apply newfeed_unknown | discriminate].
Qed.

(** The channel "user", with no second segment, is indexed past its end. *)
Example bare_user_channel_panics :
  wsHandleData demoEnv "userBare" e0 = (e0, Panic "index out of range [1]").
Proof. reflexivity. Qed.

End ReadLoopExamples.

(** * Properties of the connection *)

Section ConnectProperties.

Import deribit.

Variable env : Env.

Implicit Types (e : Exchange).

Lemma wsLogin_effects e e' err :
  wsLogin env e = (e', err) ->
  Wg e' = Wg e /\
  exists login,
    trace e' = trace e ++ login /\
    (length login <= 1)%nat /\
    Forall isAuthRequest login.
Proof.
  unfold wsLogin, SendMessageReturnResponse.
  assert (forall x : Exchange,
            Wg x = Wg e -> trace x = trace e ->
            Wg x = Wg e /\
            exists login, trace x = trace e ++ login /\
              (length login <= 1)%nat /\ Forall isAuthRequest login) as Hsame.
  { intros x Hw Ht. split; [done |]. exists []. rewrite app_nil_r.
    split; [done |]. split; [simpl; lia | constructor]. }
  assert (forall (x : Exchange) id version params,
            Wg x = Wg e ->
            trace x = trace e ++
              [EvSendMessageReturnResponse id (wsInput id version "public/auth" params)] ->
            Wg x = Wg e /\
            exists login, trace x = trace e ++ login /\
              (length login <= 1)%nat /\ Forall isAuthRequest login) as Hone.
  { intros x id version params Hw Ht. split; [done |]. eexists. split; [exact Ht |].
    split; [simpl; lia |]. constructor; [| constructor].
    by exists id, version, params. }
  repeat case_match; intros [= <- <-]; simplify_eq;
    first [ by apply Hsame | by eapply Hone ].
Qed.

(** C8. When [WsConnect] gets as far as the login and the login fails, it
    logs the failure, switches the authenticated endpoints off, sends the
    heartbeat set-up message and returns the result of that send, not the
    error of the login.  The read loop started before the login is still
    accounted for in the wait group, and between its start and the log
    entry at most one login request has been sent: the login is not
    tried again. *)
Theorem login_failure_does_not_abort_connect e e' err :
  Websocket_IsEnabled e = true ->
  IsEnabled e = true ->
  Conn_Dial env (trace e) = [] ->
  CanUseAuthenticatedEndpoints e = true ->
  wsLogin env (emit EvGoReadData (Wg_Add 1 (emit EvDial e))) = (e', err) ->
  err <> [] ->
  let degraded :=
    SetCanUseAuthenticatedEndpoints false
      (emit (EvLogError "authentication failed") e') in
  WsConnect env e =
    (emit (EvSendJSONMessage setHeartBeatMessage) degraded,
     Return (Conn_SendJSONMessage env (trace degraded) setHeartBeatMessage)) /\
  CanUseAuthenticatedEndpoints (fst (WsConnect env e)) = false /\
  Wg (fst (WsConnect env e)) = Wg e + 1 /\
  exists login,
    trace (fst (WsConnect env e)) =
      trace e ++ [EvDial; EvGoReadData] ++ login ++
      [EvLogError "authentication failed"; EvSendJSONMessage setHeartBeatMessage] /\
    (length login <= 1)%nat /\
    Forall isAuthRequest login.
Proof.
  intros Hws Hen Hdial Hauth Hlogin Herr degraded.
  assert (WsConnect env e =
          (emit (EvSendJSONMessage setHeartBeatMessage) degraded,
           Return (Conn_SendJSONMessage env (trace degraded) setHeartBeatMessage)))
    as Hrun.
  { unfold WsConnect. rewrite Hws, Hen, Hdial. simpl.
    rewrite Hauth, Hlogin. by destruct err. }
  split; [exact Hrun |]. rewrite Hrun. simpl.
  apply wsLogin_effects in Hlogin as (Hwg & login & Htr & Hlen & Hall).
  split; [done |]. split; [by rewrite Hwg |].
  exists login. split; [| done].
  rewrite Htr. simpl. by rewrite <- !app_assoc.
Qed.

End ConnectProperties.

Section ConnectExamples.

Import deribit fixtures.

Lemma login_failure_does_not_abort_connect_witness :
  snd (WsConnect demoEnv e0) = Return [] /\
  CanUseAuthenticatedEndpoints (fst (WsConnect demoEnv e0)) = false /\
  Wg (fst (WsConnect demoEnv e0)) = 1.
Proof.
  destruct (login_failure_does_not_abort_connect demoEnv e0
              (fst (wsLogin demoEnv (emit EvGoReadData (Wg_Add 1 (emit EvDial e0)))))
              [ErrExternal "timeout"]
              eq_refl eq_refl eq_refl eq_refl eq_refl ltac:(discriminate))
    as (Hrun & Hauth & Hwg & _).
  split; [by rewrite Hrun |]. split; [exact Hauth | exact Hwg].
Defined.

End ConnectExamples.

(** * Properties of the subscription reconciliation *)

Section SubscriptionProperties.

Import deribit.

Variable env : Env.

#[local] Abbreviation qc := subscription.QualifiedChannel.

Implicit Types (e : Exchange) (s : subscription.Subscription)
  (subs regs : subscription.List) (A : gset string) (err errs : error).

Lemma ackSet_fold (result : list string) : forall A,
  fold_left (fun subAck c => {[c]} ∪ subAck) result A = list_to_set result ∪ A.
Proof.
  induction result as [| c rest IH]; intros A; simpl.
  - set_solver.
  - rewrite IH. set_solver.
Qed.

Lemma ackSet_elem (result : list string) c : c ∈ ackSet result <-> c ∈ result.
Proof. unfold ackSet. rewrite ackSet_fold. set_solver. Qed.

Lemma unexpectedLoop_spec A err :
  unexpectedLoop A err = err ++ map ErrUnexpectedChannel (elements A).
Proof.
  unfold unexpectedLoop. generalize (elements A) as keys. intros keys.
  revert err. induction keys as [| k keys IH]; intros err; simpl.
  - by rewrite app_nil_r.
  - rewrite IH. unfold AppendError. by rewrite <- app_assoc.
Qed.

Lemma trace_registered method s e :
  trace (if negb (strings.Contains method "unsubscribe")
         then emit (EvAddSuccessfulSubscriptions s) e
         else emit (EvRemoveSubscriptions s) e)
  = trace e ++ [registered method s].
Proof. unfold registered. by destruct (strings.Contains _ _). Qed.

Lemma reconcileLoop_spec method subs : forall A err e e' A' err',
  reconcileLoop env method subs A err e = (e', A', err') ->
  exists regs errs,
    trace e' = trace e ++ map (registered method) regs /\
    err' = err ++ errs /\
    A' = A ∖ list_to_set (map qc subs) /\
    (forall s, s ∈ regs -> s ∈ subs /\ qc s ∈ A) /\
    (forall s, s ∈ subs -> qc s ∉ A ->
       ErrFailedTo (subscription.String_ s) method ∈ errs) /\
    (errs = [] -> forall s, s ∈ subs -> qc s ∈ A) /\
    (NoDup (map qc subs) ->
     (forall s, s ∈ subs -> qc s ∈ A -> s ∈ regs) /\
     (registryQuiet env -> (forall s, s ∈ subs -> qc s ∈ A) -> errs = [])).
Proof.
  induction subs as [| s rest IH]; intros A err e e' A' err' H; simpl in H.
  - injection H as <- <- <-. exists [], []. simpl. rewrite !app_nil_r.
    repeat split; try done; try set_solver.
  - case_bool_decide as Hin.
    + set (e1 := if negb (strings.Contains method "unsubscribe")
                 then emit (EvAddSuccessfulSubscriptions s) e
                 else emit (EvRemoveSubscriptions s) e).
      set (reg := if negb (strings.Contains method "unsubscribe")
                  then AddSuccessfulSubscriptions env (trace e) s
                  else RemoveSubscriptions env (trace e) s).
      assert (reconcileLoop env method rest (A ∖ {[qc s]})
                (AppendError err reg) e1 = (e', A', err')) as H'.
      { subst e1 reg. by destruct (strings.Contains method "unsubscribe"). }
      clear H. apply IH in H' as (regs & errs & Htr & -> & -> & Hregs & Hfail & Hnil & Hnd).
      exists (s :: regs), (reg ++ errs).
      split.
      { rewrite Htr. subst e1. rewrite trace_registered.
        simpl. by rewrite <- app_assoc. }
      split; [unfold AppendError; by rewrite app_assoc |].
      split; [set_solver |].
      split.
      { intros s' Hs'. apply elem_of_cons in Hs' as [-> | Hs']; [set_solver |].
        destruct (Hregs s' Hs'). set_solver. }
      split.
      { intros s' Hs' Hout. apply elem_of_cons in Hs' as [-> | Hs']; [done |].
        apply elem_of_app. right. apply Hfail; [done | set_solver]. }
      split.
      { intros Hnone s' Hs'. apply app_eq_nil in Hnone as [_ Hnone].
        apply elem_of_cons in Hs' as [-> | Hs']; [done |].
        specialize (Hnil Hnone s' Hs'). set_solver. }
      intros Hdup. simpl in Hdup. apply NoDup_cons in Hdup as [Hfresh Hdup].
      destruct (Hnd Hdup) as [Hall Hquiet].
      assert (forall s', s' ∈ rest -> qc s' ∈ A -> qc s' ∈ A ∖ {[qc s]}) as Hstay.
      { intros s' Hs' HA. apply elem_of_difference. split; [done |].
        intros Heq%elem_of_singleton. apply Hfresh. rewrite <- Heq.
        apply list_elem_of_fmap. eauto. }
      split.
      { intros s' Hs' HA. apply elem_of_cons in Hs' as [-> | Hs']; [by left |].
        right. apply Hall; auto. }
      intros Hq Hacked.
      assert (reg = []) as ->.
      { subst reg. destruct (Hq (trace e) s) as [-> ->]. by destruct (negb _). }
      simpl. apply Hquiet; [done |].
      intros s' Hs'. apply Hstay; [done |]. apply Hacked. by right.
    + apply IH in H as (regs & errs & Htr & -> & -> & Hregs & Hfail & Hnil & Hnd).
      exists regs, (ErrFailedTo (subscription.String_ s) method :: errs).
      split; [done |].
      split; [unfold AppendError; by rewrite <- app_assoc |].
      split; [set_solver |].
      split.
      { intros s' Hs'. destruct (Hregs s' Hs'). set_solver. }
      split.
      { intros s' Hs' Hout. apply elem_of_cons in Hs' as [-> | Hs']; [by left |].
        right. by apply Hfail. }
      split; [done |].
      intros Hdup. simpl in Hdup. apply NoDup_cons in Hdup as [Hfresh Hdup].
      destruct (Hnd Hdup) as [Hall Hquiet].
      split.
      { intros s' Hs' HA. apply elem_of_cons in Hs' as [-> | Hs']; [done |].
        by apply Hall. }
      intros _ Hacked. destruct Hin. apply Hacked. by left.
Qed.


(** C1, as amended. When the batch is not empty after expansion and the
    venue's reply decodes to an acknowledgement list, [handleSubscription]
    sends one request and then calls the subscription store (addition for a
    subscribe, removal for an unsubscribe) only for requested
    subscriptions whose qualified channel is acknowledged; every requested
    subscription whose channel is not acknowledged puts its own failure in
    the returned aggregate, and every acknowledged channel that was not
    requested puts an unexpected-channel error in it, the rest of the
    batch being processed all the same.  A nil aggregate means that every
    requested channel was acknowledged and nothing else was.  When the
    requested qualified channels are pairwise distinct, the store is
    called for every acknowledged subscription, and, if the store reports
    no error, the aggregate is nil as soon as every requested channel was
    acknowledged and nothing else was. *)
Theorem handleSubscription_reconciles method subs expanded data Result e :
  let id := Conn_GenerateMessageID env (trace e) in
  let r :=
    WsSubscriptionInput id rpcVersion method
      {[ "channels" := subscription.QualifiedChannels expanded ]} in
  ExpandTemplates env subs = inr expanded ->
  expanded <> [] ->
  Conn_SendMessageReturnResponse env (trace e) id r = inr data ->
  json_Unmarshal_wsSubscriptionResponse env data = inr Result ->
  exists e' err regs,
    handleSubscription env method subs e = (e', err) /\
    trace e' =
      trace e ++ EvSendMessageReturnResponse id r :: map (registered method) regs /\
    (forall s, s ∈ regs -> s ∈ expanded /\ qc s ∈ Result) /\
    (forall s, s ∈ expanded -> qc s ∉ Result ->
       ErrFailedTo (subscription.String_ s) method ∈ err) /\
    (forall c, c ∈ Result -> c ∉ map qc expanded ->
       ErrUnexpectedChannel c ∈ err) /\
    (err = [] ->
     (forall s, s ∈ expanded -> qc s ∈ Result) /\
     (forall c, c ∈ Result -> c ∈ map qc expanded)) /\
    (NoDup (map qc expanded) ->
     (forall s, s ∈ expanded -> qc s ∈ Result -> s ∈ regs) /\
     (registryQuiet env ->
      (forall s, s ∈ expanded -> qc s ∈ Result) ->
      (forall c, c ∈ Result -> c ∈ map qc expanded) ->
      err = [])).
Proof.
  intros id r Hexp Hne Hsend Hdec. subst id r.
  set (id := Conn_GenerateMessageID env (trace e)) in *.
  set (r := WsSubscriptionInput id rpcVersion method
              {[ "channels" := subscription.QualifiedChannels expanded ]}) in *.
  set (loop :=
         reconcileLoop env method expanded (ackSet Result)
           (if negb (size (ackSet Result) =? length expanded)%nat
            then [ErrSubscriptionFailure] else [])
           (emit (EvSendMessageReturnResponse id r) e)).
  assert (handleSubscription env method subs e
          = (loop.1.1, unexpectedLoop loop.1.2 loop.2)) as Hrun.
  { unfold handleSubscription. rewrite Hexp.
    assert ((length expanded =? 0)%nat = false) as ->
      by (by destruct expanded).
    cbv zeta. unfold SendMessageReturnResponse. fold id. fold r.
    rewrite Hsend, Hdec.
    change ((let '(e2, subAck', err') := loop in
             (e2, unexpectedLoop subAck' err'))
            = (loop.1.1, unexpectedLoop loop.1.2 loop.2)).
    by destruct loop as [[? ?] ?]. }
  assert (reconcileLoop env method expanded (ackSet Result)
            (if negb (size (ackSet Result) =? length expanded)%nat
             then [ErrSubscriptionFailure] else [])
            (emit (EvSendMessageReturnResponse id r) e) = loop) as Hloop
    by reflexivity.
  clearbody loop. destruct loop as [[e' A'] err']. simpl in Hrun.
  apply reconcileLoop_spec in Hloop
    as (regs & errs & Htr & -> & -> & Hregs & Hfail & Hnil & Hnd).
  exists e', (unexpectedLoop (ackSet Result ∖ list_to_set (map qc expanded))
               ((if negb (size (ackSet Result) =? length expanded)%nat
                 then [ErrSubscriptionFailure] else []) ++ errs)), regs.
  split; [exact Hrun |]. rewrite unexpectedLoop_spec.
  split; [rewrite Htr; simpl; by rewrite <- app_assoc |].
  split.
  { intros s Hs. destruct (Hregs s Hs) as [? HA]. by apply ackSet_elem in HA. }
  split.
  { intros s Hs Hout. apply elem_of_app. left. apply elem_of_app. right.
    apply Hfail; [done |]. by rewrite ackSet_elem. }
  split.
  { intros c Hc Hout. apply elem_of_app. right.
    apply list_elem_of_fmap. exists c. split; [done |].
    apply elem_of_elements, elem_of_difference. split; [by apply ackSet_elem |].
    by rewrite elem_of_list_to_set. }
  split.
  { intros Hnone. apply app_eq_nil in Hnone as [Hnone Hextra].
    apply app_eq_nil in Hnone as [_ Hnone].
    split.
    - intros s Hs. apply ackSet_elem. by apply Hnil.
    - intros c Hc. apply fmap_nil_inv in Hextra.
      apply elements_empty_inv in Hextra.
      destruct (decide (c ∈ map qc expanded)) as [| Hout]; [done |].
      exfalso. apply (not_elem_of_empty (C := gset string) c).
      rewrite <- (leibniz_equiv _ _ Hextra).
      apply elem_of_difference. split; [by apply ackSet_elem |].
      by rewrite elem_of_list_to_set. }
  intros Hdup. destruct (Hnd Hdup) as [Hall Hquiet].
  split.
  { intros s Hs HA. apply Hall; [done |]. by apply ackSet_elem. }
  intros Hq Hacked Hnoextra.
  assert (ackSet Result = list_to_set (map qc expanded)) as Hsame.
  { apply set_eq. intros c. rewrite ackSet_elem, elem_of_list_to_set.
    split; [by apply Hnoextra |].
    intros (s & -> & Hs)%list_elem_of_fmap. by apply Hacked. }
  rewrite Hsame, size_list_to_set, length_map, Nat.eqb_refl by done. simpl.
  rewrite Hquiet; [| done | intros s Hs; rewrite Hsame, elem_of_list_to_set;
                              apply list_elem_of_fmap; eauto].
  simpl.
  assert (list_to_set (map qc expanded) ∖ list_to_set (map qc expanded)
          = (∅ : gset string)) as -> by set_solver.
  by rewrite elements_empty.
Qed.

Lemma Subscribe_aggregate subs e e1 e2 errs errs' :
  handleSubscription env "public/subscribe" (subscription.Public subs) e
    = (e1, errs) ->
  handleSubscription env "private/subscribe" (subscription.Private subs) e1
    = (e2, errs') ->
  Subscribe env subs e = (e2, errs ++ errs') /\
  (errs ++ errs' = [] <-> errs = [] /\ errs' = []).
Proof.
  intros H1 H2. unfold Subscribe. rewrite H1, H2.
  split; [done |]. split; [apply app_eq_nil | by intros [-> ->]].
Qed.

Lemma Unsubscribe_aggregate subs e e1 e2 errs errs' :
  handleSubscription env "public/unsubscribe" (subscription.Public subs) e
    = (e1, errs) ->
  handleSubscription env "private/unsubscribe" (subscription.Private subs) e1
    = (e2, errs') ->
  Unsubscribe env subs e = (e2, errs ++ errs') /\
  (errs ++ errs' = [] <-> errs = [] /\ errs' = []).
Proof.
  intros H1 H2. unfold Unsubscribe. rewrite H1, H2.
  split; [done |]. split; [apply app_eq_nil | by intros [-> ->]].
Qed.

End SubscriptionProperties.

Section SubscriptionExamples.

Import deribit fixtures.

Lemma handleSubscription_reconciles_witness :
  ErrFailedTo (subscription.String_ tradesSub) "public/subscribe"
    ∈ snd (handleSubscription demoEnv "public/subscribe"
             [tickerSub; bookSub; tradesSub] e0).
Proof.
  destruct (handleSubscription_reconciles demoEnv "public/subscribe"
              [tickerSub; bookSub; tradesSub] [tickerSub; bookSub; tradesSub]
              "ticker.BTC-PERPETUAL.100ms,book.BTC-PERPETUAL.100ms"
              ["ticker.BTC-PERPETUAL.100ms"; "book.BTC-PERPETUAL.100ms"] e0
              eq_refl ltac:(discriminate) eq_refl eq_refl)
    as (e' & err & regs & Hrun & _ & _ & Hfail & _).
  rewrite Hrun. apply Hfail.
  - apply list_elem_of_In. simpl. auto.
  - apply (bool_decide_unpack _). by vm_compute.
Defined.

(** Three channels requested, two acknowledged: the aggregate names the
    one missing channel and the store is called for the two others. *)
Example three_requested_two_acknowledged :
  snd (handleSubscription demoEnv "public/subscribe"
         [tickerSub; bookSub; tradesSub] e0)
    = [ErrSubscriptionFailure;
       ErrFailedTo "allTrades trades.BTC-PERPETUAL.100ms" "public/subscribe"] /\
  trace (fst (handleSubscription demoEnv "public/subscribe"
                [tickerSub; bookSub; tradesSub] e0))
    = [EvSendMessageReturnResponse 3
         (WsSubscriptionInput 3 rpcVersion "public/subscribe"
            {[ "channels" := subscription.QualifiedChannels
                               [tickerSub; bookSub; tradesSub] ]});
       EvAddSuccessfulSubscriptions tickerSub;
       EvAddSuccessfulSubscriptions bookSub].
Proof. split; vm_compute; reflexivity. Qed.

(** C1, as stated, fails.  A batch that names the same qualified channel
    twice, all of whose channels are acknowledged and for which nothing
    else is acknowledged, gets a non-nil aggregate. *)
Lemma duplicate_request_is_reported_as_failure :
  ExpandTemplates demoEnv [tickerSub; tickerSub] = inr [tickerSub; tickerSub] /\
  Conn_SendMessageReturnResponse demoEnv (trace e0) 3
    (WsSubscriptionInput 3 rpcVersion "public/subscribe"
       {[ "channels" := subscription.QualifiedChannels [tickerSub; tickerSub] ]})
    = inr "ticker.BTC-PERPETUAL.100ms" /\
  json_Unmarshal_wsSubscriptionResponse demoEnv "ticker.BTC-PERPETUAL.100ms"
    = inr ["ticker.BTC-PERPETUAL.100ms"] /\
  (forall s, s ∈ [tickerSub; tickerSub] ->
     subscription.QualifiedChannel s ∈ ["ticker.BTC-PERPETUAL.100ms"]) /\
  (forall c, c ∈ ["ticker.BTC-PERPETUAL.100ms"] ->
     c ∈ map subscription.QualifiedChannel [tickerSub; tickerSub]) /\
  snd (handleSubscription demoEnv "public/subscribe" [tickerSub; tickerSub] e0)
    = [ErrSubscriptionFailure;
       ErrFailedTo "ticker ticker.BTC-PERPETUAL.100ms" "public/subscribe"].
Proof.
  split; [reflexivity |]. split; [by vm_compute |]. split; [by vm_compute |].
  split.
  { intros s Hs. apply elem_of_cons in Hs as [-> | Hs]; [by left |].
    apply list_elem_of_singleton in Hs as ->. by left. }
  split.
  { intros c Hc. apply list_elem_of_singleton in Hc as ->. by left. }
  by vm_compute.
Qed.

End SubscriptionExamples.


(** * Further properties of the read loop *)

Section ReadLoopFrame.

Import deribit helpers.

Variable env : Env.

Implicit Types (e : Exchange) (raw : bytes) (tr : list Event).

Lemma emits_nil e : emits [] e = e.
Proof. destruct e. unfold emits. simpl. by rewrite app_nil_r. Qed.

Lemma emits_emits tr1 tr2 e : emits tr2 (emits tr1 e) = emits (tr1 ++ tr2) e.
Proof. unfold emits. simpl. by rewrite app_assoc. Qed.

Lemma emit_emits ev e : emit ev e = emits [ev] e.
Proof. done. Qed.

Lemma traced_refl e : traced e e.
Proof. exists []. by rewrite emits_nil. Qed.

Lemma traced_emit ev e : traced e (emit ev e).
Proof. by exists [ev]. Qed.

Lemma traced_trans e1 e2 e3 : traced e1 e2 -> traced e2 e3 -> traced e1 e3.
Proof. intros [t1 ->] [t2 ->]. exists (t1 ++ t2). by rewrite emits_emits. Qed.

Lemma traced_sends ds e :
  traced e (fold_left (fun e d => DataHandler_send d e) ds e).
Proof.
  revert e. induction ds as [| d ds IH]; intros e; simpl; [apply traced_refl |].
  eapply traced_trans; [| apply IH]. apply traced_emit.
Qed.

Lemma traced_processData raw result e :
  traced e (fst (processData env raw result e)).
Proof.
  unfold processData. destruct (json_Unmarshal_Data env result raw); simpl;
    [apply traced_emit | apply traced_refl].
Qed.

Lemma traced_runHandler h raw channels e :
  traced e (fst (runHandler env h raw channels e)).
Proof.
  unfold runHandler. destruct (typedHandler env h raw channels) as [ds out].
  simpl. apply traced_sends.
Qed.

Lemma traced_processOrderbook raw channels e :
  traced e (fst (processOrderbook env raw channels e)).
Proof.
  destruct (processOrderbook_handoff env raw channels e)
    as [-> | (ob & asks & bids & ev & -> & _)];
    [apply traced_refl | apply traced_emit].
Qed.

Create HintDb traced.

#[local] Hint Resolve traced_refl traced_emit traced_processData
  traced_runHandler traced_processOrderbook : traced.

Lemma traced_routeUser raw channels e :
  traced e (fst (routeUser env raw channels e)).
Proof.
  unfold routeUser, warnUnhandled, DataHandler_send.
  repeat (case_match; simpl; auto with traced).
Qed.

Lemma traced_routeChannel response raw channels e :
  traced e (fst (routeChannel env response raw channels e)).
Proof.
  unfold routeChannel, warnUnhandled, DataHandler_send.
  repeat (case_match; simpl; auto using traced_routeUser with traced).
Qed.

Lemma setMatch_same e : setMatch (Match e) e = e.
Proof. by destruct e. Qed.

Lemma wsHandleData_emits raw e :
  exists tr,
    fst (wsHandleData env raw e) = emits tr (setMatch (correlatorAfter env raw e) e).
Proof.
  unfold wsHandleData, correlatorAfter.
  destruct (json_Unmarshal_WsResponse env raw) as [err | response];
    [exists []; by rewrite emits_nil, setMatch_same |].
  destruct (String.eqb _ "heartbeat");
    [exists [EvSendJSONMessage pingMessage]; by rewrite setMatch_same |].
  destruct (2 <? WsResponse.ID response).
  - unfold Match_IncomingWithData.
    destruct (stream.IncomingWithData _ _ _) as [mt ok]. simpl.
    exists [EvMatchIncoming (WsResponse.ID response) ok]. by destruct ok.
  - rewrite setMatch_same.
    destruct (0 <? WsResponse.ID response);
      [exists []; by rewrite emits_nil |].
    apply traced_routeChannel.
Qed.

(** X7. Handling a frame changes nothing of the exchange state but the trace,
    to which it only appends, and the correlator; and the correlator is
    only changed by a delivery, which takes place for a frame that parses,
    is not a heartbeat and carries an identifier above 2, and for no other
    frame. *)
Theorem wsHandleData_touches_only_trace_and_correlator raw e :
  Name (fst (wsHandleData env raw e)) = Name e /\
  IsEnabled (fst (wsHandleData env raw e)) = IsEnabled e /\
  Websocket_IsEnabled (fst (wsHandleData env raw e)) = Websocket_IsEnabled e /\
  ValidateOrderbook (fst (wsHandleData env raw e)) = ValidateOrderbook e /\
  IsWebsocketAuthenticationSupported (fst (wsHandleData env raw e))
    = IsWebsocketAuthenticationSupported e /\
  CanUseAuthenticatedEndpoints (fst (wsHandleData env raw e))
    = CanUseAuthenticatedEndpoints e /\
  Wg (fst (wsHandleData env raw e)) = Wg e /\
  extends e (fst (wsHandleData env raw e)) /\
  Match (fst (wsHandleData env raw e)) = correlatorAfter env raw e.
Proof.
  destruct (wsHandleData_emits raw e) as [tr ->]. simpl.
  repeat split. by exists tr.
Qed.

(** X5. The read loop takes the frames strictly in their order and stops for
    good: reading a sequence of frames followed by another is reading the
    second from the state the first has led to, unless the first has ended
    the loop, by a frame with a nil [Raw] or by a panic, in which case the
    second is not looked at. *)
Theorem wsReadData_sequential frames1 frames2 : forall e,
  wsReadData env (frames1 ++ frames2) e =
    match wsReadData env frames1 e with
    | (e1, LoopWaiting) => wsReadData env frames2 e1
    | stopped => stopped
    end.
Proof.
  induction frames1 as [| [raw |] rest IH]; intros e; simpl; [done | | done].
  destruct (wsHandleData env raw e) as [e1 [[| err errs] | msg]];
    [apply IH | apply IH | done].
Qed.

Lemma wsHandleData_Wg raw e : Wg (fst (wsHandleData env raw e)) = Wg e.
Proof. apply wsHandleData_touches_only_trace_and_correlator. Qed.

(** X6. The wait group is released exactly once, when the loop ends: after a
    frame with a nil [Raw] or a panic of the handler its counter is one
    below where it was, and as long as the loop waits for a frame it is
    where it was; no frame handled in between moves it. *)
Theorem wsReadData_releases_wait_group_once frames : forall e,
  Wg (fst (wsReadData env frames e)) =
    match snd (wsReadData env frames e) with
    | LoopWaiting => Wg e
    | LoopReturned | LoopPanicked _ => Wg e - 1
    end.
Proof.
  induction frames as [| [raw |] rest IH]; intros e; simpl; [done | | done].
  pose proof (wsHandleData_Wg raw e) as Hwg.
  destruct (wsHandleData env raw e) as [e1 [[| err errs] | msg]]; simpl in *.
  - rewrite IH, Hwg. done.
  - rewrite IH. simpl. rewrite Hwg. done.
  - by rewrite Hwg.
Qed.

(** X8. A frame that does not parse has no effect: the handler returns the
    could-not-parse error, which names the exchange, the cause and the raw
    frame; the read loop pushes that error on the event sink and goes on
    with the frames that follow. *)
Theorem unparsable_frame_is_reported raw cause e rest :
  json_Unmarshal_WsResponse env raw = inl cause ->
  wsHandleData env raw e = (e, Return [ErrCouldNotParse (Name e) cause raw]) /\
  wsReadData env (Some raw :: rest) e =
    wsReadData env rest
      (DataHandler_send (DataError [ErrCouldNotParse (Name e) cause raw]) e).
Proof.
  intros Hdec.
  assert (wsHandleData env raw e
          = (e, Return [ErrCouldNotParse (Name e) cause raw])) as Hrun.
  { unfold wsHandleData. by rewrite Hdec. }
  split; [exact Hrun |]. by rewrite wsReadData_step, Hrun.
Qed.

(** X25. A correlated response reaches its waiter.  When a waiter is
    registered with the correlator under an identifier above 2 and a frame
    arrives that parses, is not a heartbeat and carries that identifier,
    the handler returns nil, the waiter finds the raw frame in its slot, and
    the registration is gone, so that a second frame with the same
    identifier is answered with the routing error. *)
Theorem correlated_response_reaches_its_waiter raw response e mt w :
  json_Unmarshal_WsResponse env raw = inr response ->
  WsResponse.Method response <> "heartbeat" ->
  2 < WsResponse.ID response ->
  stream.Set_ (inl (WsResponse.ID response)) (Match e) = (mt, inr w) ->
  exists e1,
    wsHandleData env raw (setMatch mt e) = (e1, Return []) /\
    stream.receive w (Match e1) = Some (stream.SlotFull (Some raw)) /\
    stream.m (Match e1) !! inl (WsResponse.ID response) = None /\
    snd (wsHandleData env raw e1)
      = Return [ErrMatchedChannel (WsResponse.ID response)].
Proof.
  intros Hdec Hm Hid Hset.
  apply Set_inv in Hset as (Hnone & Hsig & HC & Hmap & Hch).
  assert (stream.m mt !! inl (WsResponse.ID response) = Some (stream.C w)) as Hreg.
  { rewrite Hmap. apply lookup_insert_eq. }
  assert (forall e', wsHandleData env raw e' =
            (fst (Match_IncomingWithData (WsResponse.ID response) raw e'),
             Return (if snd (Match_IncomingWithData (WsResponse.ID response) raw e')
                     then [] else [ErrMatchedChannel (WsResponse.ID response)])))
    as Hrun.
  { intros e'. unfold wsHandleData. rewrite Hdec.
    apply String.eqb_neq in Hm. rewrite Hm.
    apply Z.ltb_lt in Hid. rewrite Hid.
    destruct (Match_IncomingWithData _ raw e') as [e2 ok]. by destruct ok. }
  rewrite Hrun. unfold Match_IncomingWithData. simpl.
  rewrite (Incoming_present _ _ _ _ Hreg). simpl.
  eexists. split; [reflexivity |]. simpl.
  split.
  { unfold stream.receive. simpl. rewrite Hch, HC.
    apply list_lookup_insert_eq. rewrite length_app. simpl. lia. }
  split; [apply lookup_delete_eq |].
  rewrite Hrun. unfold Match_IncomingWithData. simpl.
  rewrite Incoming_absent; [done | apply lookup_delete_eq].
Qed.

End ReadLoopFrame.


(** * Further properties of the connection *)

Section ConnectOutcome.

Import deribit helpers.

Variable env : Env.

Implicit Types (e : Exchange).

Lemma wsLogin_nil_flag e e' :
  wsLogin env e = (e', []) -> CanUseAuthenticatedEndpoints e' = true.
Proof.
  unfold wsLogin, SendMessageReturnResponse.
  repeat case_match; intros [= <-]; simplify_eq; done.
Qed.


(** X2. After a [WsConnect] that got its connection, the authenticated
    endpoints are usable exactly when they were usable before and the login
    returned nil: a login that fails in any way leaves them off, and they
    are never switched on for an exchange that had them off. *)
Theorem WsConnect_authentication e :
  Websocket_IsEnabled e = true ->
  IsEnabled e = true ->
  Conn_Dial env (trace e) = [] ->
  CanUseAuthenticatedEndpoints (fst (WsConnect env e)) =
    CanUseAuthenticatedEndpoints e &&
    is_nil (snd (wsLogin env (emit EvGoReadData (Wg_Add 1 (emit EvDial e))))).
Proof.
  intros Hws Hen Hdial. unfold WsConnect. rewrite Hws, Hen, Hdial. simpl.
  destruct (CanUseAuthenticatedEndpoints e) eqn:Hauth; simpl; [| done].
  destruct (wsLogin env _) as [e' [| x xs]] eqn:Hlogin; simpl; [| done].
  by apply wsLogin_nil_flag in Hlogin.
Qed.

(** X3. When authentication is supported, the credentials are there, the
    signature is computed, the login request is answered and the answer
    decodes, [wsLogin] has sent exactly that one request and leaves the
    authenticated endpoints switched on; it returns nil when the answer has
    no error object, and also when it has one whose code is not positive and
    whose message is empty; otherwise it returns the login error with that
    code and message. *)
Theorem wsLogin_verdict e Key Secret hmac resp response :
  let strTS := time_Now_UnixMilli env (trace e) in
  let n := GetNonce env (trace e) in
  let id := Conn_GenerateMessageID env (trace e) in
  let req :=
    wsInput id rpcVersion "public/auth"
      (<["grant_type" := AnyString "client_signature"]>
       (<["client_id" := AnyString Key]>
        (<["timestamp" := AnyString strTS]>
         (<["nonce" := AnyString n]>
          (<["signature" := AnyString hmac]> ∅))))) in
  IsWebsocketAuthenticationSupported e = true ->
  GetCredentials env = inr (Key, Secret) ->
  crypto_GetHMAC env (strTS +:+ LF +:+ n +:+ LF) Secret = inr hmac ->
  Conn_SendMessageReturnResponse env (trace e) id req = inr resp ->
  json_Unmarshal_wsLoginResponse env resp = inr response ->
  wsLogin env e =
    (emit (EvSendMessageReturnResponse id req)
       (SetCanUseAuthenticatedEndpoints true e),
     match wsLoginResponse.Error response with
     | Some (Code, Message) =>
         if accepted response then [] else [ErrLoginResponse (Name e) Code Message]
     | None => []
     end).
Proof.
  intros strTS n id req Hsup Hcred Hmac Hsend Hdec.
  unfold wsLogin, SendMessageReturnResponse. rewrite Hsup, Hcred. simpl.
  fold strTS n. rewrite Hmac. fold id. fold req. rewrite Hsend, Hdec.
  unfold accepted. destruct (wsLoginResponse.Error response) as [[c m] |]; [| done].
  by destruct ((0 <? c) || negb (String.eqb m "")).
Qed.

(** X4. [wsLogin] sends a signed request or nothing.  Either it returns an
    error without having sent anything; or authentication is supported,
    the credentials are there, and the one request it has sent is a
    "public/auth" with the client-signature grant, the key of the
    credentials, a timestamp, a nonce, and for signature the HMAC, under
    the secret of the credentials, of that same timestamp and that same
    nonce, each followed by a line feed. *)
Theorem wsLogin_sends_signed_request_or_nothing e :
  (trace (fst (wsLogin env e)) = trace e /\ snd (wsLogin env e) <> []) \/
  exists Key Secret hmac,
    IsWebsocketAuthenticationSupported e = true /\
    GetCredentials env = inr (Key, Secret) /\
    crypto_GetHMAC env
      (time_Now_UnixMilli env (trace e) +:+ LF +:+ GetNonce env (trace e) +:+ LF)
      Secret = inr hmac /\
    trace (fst (wsLogin env e)) =
      trace e ++
      [EvSendMessageReturnResponse (Conn_GenerateMessageID env (trace e))
         (wsInput (Conn_GenerateMessageID env (trace e)) rpcVersion "public/auth"
            (<["grant_type" := AnyString "client_signature"]>
             (<["client_id" := AnyString Key]>
              (<["timestamp" := AnyString (time_Now_UnixMilli env (trace e))]>
               (<["nonce" := AnyString (GetNonce env (trace e))]>
                (<["signature" := AnyString hmac]> ∅))))))].
Proof.
  unfold wsLogin, SendMessageReturnResponse.
  destruct (IsWebsocketAuthenticationSupported e); simpl; [| by left].
  destruct (GetCredentials env) as [err | [Key Secret]]; [by left |].
  destruct (crypto_GetHMAC env _ Secret) as [err | hmac] eqn:Hmac; [by left |].
  right. exists Key, Secret, hmac. split; [done |]. split; [done |].
  split; [exact Hmac |]. by repeat case_match.
Qed.

End ConnectOutcome.

Section ConnectOutcomeExamples.

Import deribit helpers fixtures fixtures2.

Lemma WsConnect_authentication_witness :
  CanUseAuthenticatedEndpoints (fst (WsConnect demoEnv e0)) = false /\
  CanUseAuthenticatedEndpoints (fst (WsConnect (loginEnv oddResponse) e0)) = true.
Proof.
  split.
  - exact (WsConnect_authentication demoEnv e0 eq_refl eq_refl eq_refl).
  - exact (WsConnect_authentication (loginEnv oddResponse) e0
             eq_refl eq_refl eq_refl).
Defined.

Lemma wsLogin_verdict_witness :
  wsLogin (loginEnv oddResponse) e0 =
    (emit (EvSendMessageReturnResponse 3 loginRequest)
       (SetCanUseAuthenticatedEndpoints true e0), []).
Proof.
  exact (wsLogin_verdict (loginEnv oddResponse) e0 "key" "secret" "c0ffee"
           "login" oddResponse eq_refl eq_refl eq_refl eq_refl eq_refl).
Defined.

End ConnectOutcomeExamples.


(** * Properties of the typed handlers *)

Section TypedHandlers.

Import deribit handlers helpers.

Variable env : Env.
Variable henv : HandlerEnv.

Implicit Types (raw : bytes) (channels : list string) (h : Handler).

Lemma lookup_in_range channels (i : nat) :
  (i < length channels)%nat -> exists c, channels !! i = Some c.
Proof. intros H. by apply lookup_lt_is_Some in H as [c ->]; eauto. Qed.

Lemma processTicker_run raw channels msg :
  (1 < length channels)%nat ->
  snd (processTicker env henv raw channels) <> Panic msg.
Proof.
  intros Hlen. unfold processTicker, fails.
  destruct (lookup_in_range channels 1 Hlen) as [c ->].
  by repeat case_match.
Qed.

(** X17. Of the typed handlers, only [processQuoteTicker] can panic, and it
    does exactly when the channel has a single segment (or none): the six
    others check the number of segments before they index the channel. *)
Theorem typed_handlers_panic_only_on_bare_quote h raw channels :
  (exists msg, snd (typed env henv h raw channels) = Panic msg) <->
  h = deribit.processQuoteTicker /\ (length channels < 2)%nat.
Proof.
  split.
  - intros [msg Hp]. destruct h; simpl in Hp.
    + exfalso. revert Hp. unfold processCandleChart, fails.
      destruct (length channels =? 4)%nat eqn:Hlen; simpl; [| done].
      apply Nat.eqb_eq in Hlen.
      destruct (lookup_in_range channels 2 ltac:(lia)) as [c ->].
      by repeat case_match.
    + exfalso. revert Hp. unfold processIncrementalTicker, fails.
      destruct (length channels =? 2)%nat eqn:Hlen; simpl; [| done].
      apply Nat.eqb_eq in Hlen.
      destruct (lookup_in_range channels 1 ltac:(lia)) as [c ->].
      by repeat case_match.
    + split; [done |]. revert Hp. unfold processQuoteTicker, fails.
      destruct (channels !! 1%nat) eqn:Hc.
      * by repeat case_match.
      * intros _. apply lookup_ge_None in Hc. lia.
    + exfalso. revert Hp. unfold processInstrumentTicker, fails.
      destruct (length channels =? 3)%nat eqn:Hlen; simpl; [| done].
      apply Nat.eqb_eq in Hlen. apply processTicker_run. lia.
    + exfalso. revert Hp. unfold processTrades, fails. by repeat case_match.
    + exfalso. revert Hp. unfold processUserOrderChanges, fails.
      by repeat case_match.
    + exfalso. revert Hp. unfold processUserOrders, fails. by repeat case_match.
  - intros [-> Hlen]. simpl. unfold processQuoteTicker.
    assert (channels !! 1%nat = None) as -> by (apply lookup_ge_None; lia).
    eauto.
Qed.

Lemma range_rejected (lo hi n : nat) :
  (lo <=? n)%nat && (n <=? hi)%nat = false ->
  (n <? lo)%nat || (hi <? n)%nat = true.
Proof.
  destruct (Nat.leb_spec lo n), (Nat.leb_spec n hi),
    (Nat.ltb_spec n lo), (Nat.ltb_spec hi n); simpl; try done; lia.
Qed.

(** X18. A typed handler given a channel whose number of segments its check
    does not accept returns the malformed-data error, naming the channel,
    and has no effect: nothing is looked up, decoded, pushed or buffered.
    For [processTrades] this holds when the trade feed or the saving of
    trades is enabled; with both disabled it returns nil at once. *)
Theorem typed_handlers_reject_wrong_arity h raw channels :
  arityAccepted h (length channels) = false ->
  (h = deribit.processTrades ->
   IsTradeFeedEnabled henv || IsSaveTradeDataEnabled henv = true) ->
  exists detail,
    typed env henv h raw channels =
      ([], Return [errMalformedData (detail +:+ joined channels)]).
Proof.
  intros Harity Hfeed. destruct h; cbn [typed arityAccepted] in *.
  - unfold processCandleChart. rewrite Harity. simpl. eauto.
  - unfold processIncrementalTicker. rewrite Harity. simpl. eauto.
  - discriminate.
  - unfold processInstrumentTicker. rewrite Harity. simpl. eauto.
  - unfold processTrades. apply range_rejected in Harity. rewrite Harity.
    specialize (Hfeed eq_refl).
    destruct (IsTradeFeedEnabled henv), (IsSaveTradeDataEnabled henv);
      try discriminate; simpl; eauto.
  - unfold processUserOrderChanges. apply range_rejected in Harity.
    rewrite Harity. eauto.
  - unfold processUserOrders.
    apply orb_false_iff in Harity as [-> ->]. simpl. eauto.
Qed.


Lemma tradesData_inr (tradeList : list wsTrade.t) : forall ds,
  tradesData env henv tradeList = inr ds ->
  Forall2 (fun t d => tradeOf env henv t d /\ trade.Side d = wsTrade.Direction t)
    tradeList ds.
Proof.
  induction tradeList as [| t rest IH]; intros ds H; simpl in H.
  - injection H as <-. constructor.
  - destruct (getAssetPairByInstrument env _) as [err | [cp a]] eqn:Hl;
      [discriminate |].
    destruct (tradesData env henv rest) as [err | ds']; [discriminate |].
    injection H as <-. constructor; [| by apply IH].
    unfold tradeOf. simpl. by rewrite Hl.
Qed.

Lemma changeTrades_inr (trades : list wsTrade.t) : forall ds,
  changeTrades env henv trades = inr ds ->
  Forall2 (fun t d => tradeOf env henv t d /\
             StringToOrderSide henv (wsTrade.Direction t) = inr (trade.Side d))
    trades ds.
Proof.
  induction trades as [| t rest IH]; intros ds H; simpl in H.
  - injection H as <-. constructor.
  - destruct (StringToOrderSide henv _) as [err | side] eqn:Hs; [discriminate |].
    destruct (getAssetPairByInstrument env _) as [err | [cp a]] eqn:Hl;
      [discriminate |].
    destruct (changeTrades env henv rest) as [err | ds']; [discriminate |].
    injection H as <-. constructor; [| by apply IH].
    unfold tradeOf. simpl. by rewrite Hl.
Qed.

Lemma changeOrders_inr (orders : list WsOrder.t) : forall ds,
  changeOrders env henv orders = inr ds ->
  Forall2 (orderOf env henv) orders ds.
Proof.
  induction orders as [| o rest IH]; intros ds H; simpl in H.
  - injection H as <-. constructor.
  - destruct (StringToOrderType henv _) as [err | oType] eqn:Ht; [discriminate |].
    destruct (StringToOrderSide henv _) as [err | side] eqn:Hs; [discriminate |].
    destruct (StringToOrderStatus henv _) as [err | status] eqn:Hst;
      [discriminate |].
    destruct (getAssetPairByInstrument env _) as [err | [cp a]] eqn:Hl;
      [discriminate |].
    destruct (changeOrders env henv rest) as [err | ds']; [discriminate |].
    injection H as <-. constructor; [| by apply IH].
    unfold orderOf. simpl. by rewrite Hl.
Qed.

(** X19. [processTrades] is all or nothing over the trades of a message.
    With the trade feed and the saving of trades both disabled it returns
    nil and does nothing, whatever the frame.  Otherwise, when it has any
    effect, the message decoded to a list that is not empty and every trade
    of it has a known instrument; every trade is then pushed once, in the
    order of the message, when the feed is enabled, and after the pushes
    the whole list is handed once to the trade buffer when saving is
    enabled, the result of the buffer being what is returned. *)
Theorem processTrades_all_or_nothing raw channels :
  (IsTradeFeedEnabled henv = false -> IsSaveTradeDataEnabled henv = false ->
   processTrades env henv raw channels = ([], Return [])) /\
  (fst (processTrades env henv raw channels) = [] \/
   exists tradeList ds,
     json_Unmarshal_wsTrades henv raw = inr tradeList /\
     tradeList <> [] /\
     Forall2 (fun t d => tradeOf env henv t d /\ trade.Side d = wsTrade.Direction t)
       tradeList ds /\
     fst (processTrades env henv raw channels) =
       (if IsTradeFeedEnabled henv
        then map (fun d => Push (PushTrade d)) ds else []) ++
       (if IsSaveTradeDataEnabled henv then [AddTradesToBuffer_call ds] else []) /\
     snd (processTrades env henv raw channels) =
       Return (if IsSaveTradeDataEnabled henv
               then AddTradesToBuffer henv ds else [])).
Proof.
  split.
  { intros Hf Hs. unfold processTrades. by rewrite Hf, Hs. }
  unfold processTrades, fails.
  destruct (negb _ && negb _); [by left |].
  destruct (_ || _); [by left |].
  destruct (json_Unmarshal_wsTrades henv raw) as [err | tradeList]; [by left |].
  destruct (length tradeList =? 0)%nat eqn:Hlen; [by left |].
  destruct (tradesData env henv tradeList) as [err | ds] eqn:Hds; [by left |].
  right. exists tradeList, ds. split; [done |].
  split; [by destruct tradeList |].
  split; [by apply tradesData_inr |].
  destruct (IsSaveTradeDataEnabled henv); simpl; [done |].
  by rewrite app_nil_r.
Qed.

(** X20. [processUserOrders] never reports an order.  Either it returns an
    error and has no effect, or it pushes one empty list of orders and
    returns nil; and it does the latter for every channel of four or five
    segments whose frame decodes, whatever orders the frame holds: the
    slice the loop runs over is empty before the decoding and is not
    reached by it. *)
Theorem processUserOrders_pushes_no_order raw channels :
  ((exists err, processUserOrders env henv raw channels = ([], Return [err])) \/
   processUserOrders env henv raw channels = ([Push (PushOrders [])], Return [])) /\
  (arityAccepted deribit.processUserOrders (length channels) = true ->
   json_Unmarshal_detached henv raw = None ->
   processUserOrders env henv raw channels = ([Push (PushOrders [])], Return [])).
Proof.
  split.
  - unfold processUserOrders, fails.
    destruct (negb _ && negb _); [by eauto |].
    destruct (json_Unmarshal_detached henv raw) as [err |]; [by eauto |].
    by right.
  - cbn [arityAccepted]. intros Harity Hdec. unfold processUserOrders.
    rewrite Hdec. simpl.
    by destruct (length channels =? 4)%nat, (length channels =? 5)%nat.
Qed.

(** X21. [processUserOrderChanges] hands the trades of the message to the
    trade buffer before it converts the orders.  Either it has no effect; or
    the message decoded, every trade of it converted, and the trades were
    buffered, after which, if the buffer failed or an order did not
    convert, the error is returned with the trades already buffered and
    nothing pushed; or else the orders and then the positions are pushed
    and nil is returned. *)
Theorem processUserOrderChanges_buffers_trades_first raw channels :
  fst (processUserOrderChanges env henv raw channels) = [] \/
  exists changeData td,
    json_Unmarshal_wsChanges henv raw = inr changeData /\
    Forall2 (fun t d => tradeOf env henv t d /\
               StringToOrderSide henv (wsTrade.Direction t) = inr (trade.Side d))
      (wsChanges.Trades changeData) td /\
    ((exists err,
        err <> [] /\
        processUserOrderChanges env henv raw channels
          = ([AddTradesToBuffer_call td], Return err) /\
        (AddTradesToBuffer henv td = err \/
         AddTradesToBuffer henv td = [] /\
         exists cause,
           changeOrders env henv (wsChanges.Orders changeData) = inl cause /\
           err = [cause]))
     \/
     (exists orders,
        AddTradesToBuffer henv td = [] /\
        Forall2 (orderOf env henv) (wsChanges.Orders changeData) orders /\
        processUserOrderChanges env henv raw channels
          = ([AddTradesToBuffer_call td;
              Push (PushOrders orders);
              Push (PushPositions (wsChanges.Positions changeData))],
             Return []))).
Proof.
  unfold processUserOrderChanges, fails.
  destruct (_ || _); [by left |].
  destruct (json_Unmarshal_wsChanges henv raw) as [err | changeData]; [by left |].
  destruct (changeTrades env henv _) as [err | td] eqn:Htd; [by left |].
  right. exists changeData, td. split; [done |].
  split; [by apply changeTrades_inr |].
  destruct (AddTradesToBuffer henv td) as [| b bs] eqn:Hbuf.
  - destruct (changeOrders env henv _) as [cause | orders] eqn:Hord.
    + left. exists [cause]. split; [done |]. split; [done |]. right. eauto.
    + right. exists orders. split; [done |].
      split; [by apply changeOrders_inr | done].
  - left. exists (b :: bs). split; [done |]. split; [done |]. by left.
Qed.


(** X22. The three ticker handlers and the candle handler push at most one
    value, and none when they return an error.  When one of them pushes, it
    returns nil, and the value is for the exchange and for the pair and the
    asset class of the instrument named by the channel, in its second
    segment, or its third for candles: the instrument is not read from the
    payload. *)
Theorem price_handlers_push_once h raw channels :
  h = deribit.processQuoteTicker \/ h = deribit.processIncrementalTicker \/
  h = deribit.processInstrumentTicker \/ h = deribit.processCandleChart ->
  fst (typed env henv h raw channels) = [] \/
  exists instrument cp a p,
    channels !! instrumentSegment h = Some instrument /\
    getAssetPairByInstrument env instrument = inr (cp, a) /\
    typed env henv h raw channels = ([Push p], Return []) /\
    pushedFor p = Some (ExchangeName henv, cp, a).
Proof.
  intros [-> | [-> | [-> | ->]]]; cbn [typed instrumentSegment].
  - unfold processQuoteTicker, fails.
    destruct (channels !! 1%nat) as [instrument |]; [| by left].
    destruct (getAssetPairByInstrument env instrument) as [err | [cp a]] eqn:Hl;
      [by left |].
    destruct (json_Unmarshal_wsQuoteTickerInformation henv raw); [by left |].
    right. exists instrument, cp, a. eexists. repeat split; done.
  - unfold processIncrementalTicker, fails.
    destruct (negb _); [by left |].
    destruct (channels !! 1%nat) as [instrument |]; [| by left].
    destruct (getAssetPairByInstrument env instrument) as [err | [cp a]] eqn:Hl;
      [by left |].
    destruct (json_Unmarshal_WsIncrementalTicker henv raw); [by left |].
    right. exists instrument, cp, a. eexists. repeat split; done.
  - unfold processInstrumentTicker, processTicker, fails.
    destruct (negb _); [by left |].
    destruct (channels !! 1%nat) as [instrument |]; [| by left].
    destruct (getAssetPairByInstrument env instrument) as [err | [cp a]] eqn:Hl;
      [by left |].
    destruct (json_Unmarshal_wsTicker henv raw); [by left |].
    right. exists instrument, cp, a. eexists. repeat split; done.
  - unfold processCandleChart, fails.
    destruct (negb _); [by left |].
    destruct (channels !! 2%nat) as [instrument |]; [| by left].
    destruct (getAssetPairByInstrument env instrument) as [err | [cp a]] eqn:Hl;
      [by left |].
    destruct (json_Unmarshal_wsCandlestickData henv raw); [by left |].
    right. exists instrument, cp, a. eexists. repeat split; done.
Qed.

End TypedHandlers.


(** * When the read loop panics *)

Section Panics.

Import deribit handlers helpers.

Variable env : Env.
Variable henv : HandlerEnv.

Implicit Types (e : Exchange) (raw : bytes) (channels : list string).

Lemma Split_cons (s : string) (sep : ascii) :
  exists c0 rest, strings.Split s sep = c0 :: rest.
Proof.
  induction s as [| c s IH]; simpl; [eauto |].
  destruct (Ascii.eqb c sep); [eauto |].
  destruct IH as (c0 & rest & ->). eauto.
Qed.

Lemma processData_returns (env' : Env) raw result e msg :
  snd (processData env' raw result e) <> Panic msg.
Proof. unfold processData. by destruct (json_Unmarshal_Data env' result raw). Qed.

Lemma processOrderbook_returns (env' : Env) raw channels e msg :
  snd (processOrderbook env' raw channels e) <> Panic msg.
Proof. unfold processOrderbook, LoadSnapshot, Update. by repeat case_match. Qed.

Lemma runHandler_withHandlers h raw channels e :
  snd (runHandler (withHandlers env henv) h raw channels e)
  = snd (typed env henv h raw channels).
Proof.
  unfold runHandler. simpl. by destruct (typed env henv h raw channels).
Qed.

Lemma runHandler_panics h raw channels e msg :
  snd (runHandler (withHandlers env henv) h raw channels e) = Panic msg ->
  h = deribit.processQuoteTicker /\ (length channels < 2)%nat.
Proof.
  rewrite runHandler_withHandlers. intros H.
  apply (typed_handlers_panic_only_on_bare_quote env henv h raw channels). eauto.
Qed.

(** Deciding the comparisons of a known segment with the names of the
    routes. *)
Ltac decide_routes c :=
  repeat match goal with
  | |- context [String.eqb c ?k] =>
      let b := eval vm_compute in (String.eqb c k) in
      change (String.eqb c k) with b
  end;
  cbv beta iota.

Ltac no_panic :=
  first [ by intros ?%processData_returns
        | by intros ?%processOrderbook_returns
        | by intros [? ?]%runHandler_panics
        | done ].

Lemma routeUser_panics raw channels e msg :
  snd (routeUser (withHandlers env henv) raw channels e) = Panic msg ->
  channels !! 1%nat = None \/
  channels !! 1%nat = Some "mmp_trigger" /\ channels !! 2%nat = None.
Proof.
  unfold routeUser.
  destruct (channels !! 1%nat) as [c1 |] eqn:H1; [| by left].
  destruct (String.eqb c1 "access_log"); [no_panic |].
  destruct (String.eqb c1 "changes"); [no_panic |].
  destruct (String.eqb c1 "lock"); [no_panic |].
  destruct (String.eqb c1 "mmp_trigger") eqn:Hmmp.
  { apply String.eqb_eq in Hmmp as ->.
    destruct (channels !! 2%nat) eqn:H2; [no_panic |].
    intros _. by right. }
  destruct (String.eqb c1 "orders"); [no_panic |].
  destruct (String.eqb c1 "portfolio"); [no_panic |].
  destruct (String.eqb c1 "trades"); [no_panic |].
  done.
Qed.

Lemma routeChannel_panics response raw channels e msg :
  snd (routeChannel (withHandlers env henv) response raw channels e) = Panic msg ->
  channels <> [] -> panicking channels.
Proof.
  unfold routeChannel, panicking.
  destruct (channels !! 0%nat) as [c0 |] eqn:H0;
    [| by destruct channels].
  intros Hp _. revert Hp.
  destruct (String.eqb c0 "announcements");
    [by destruct (json_Unmarshal_Data _ _ _) |].
  destruct (String.eqb c0 "book"); [no_panic |].
  destruct (String.eqb c0 "chart"); [no_panic |].
  destruct (String.eqb c0 "deribit_price_index"); [no_panic |].
  destruct (String.eqb c0 "deribit_price_ranking"); [no_panic |].
  destruct (String.eqb c0 "deribit_price_statistics"); [no_panic |].
  destruct (String.eqb c0 "deribit_volatility_index"); [no_panic |].
  destruct (String.eqb c0 "estimated_expiration_price"); [no_panic |].
  destruct (String.eqb c0 "incremental_ticker"); [no_panic |].
  destruct (String.eqb c0 "instrument"); [no_panic |].
  destruct (String.eqb c0 "markprice"); [no_panic |].
  destruct (String.eqb c0 "perpetual"); [no_panic |].
  destruct (String.eqb c0 platformStateChannel); [no_panic |].
  destruct (String.eqb c0 "quote") eqn:Hquote.
  { intros [_ Hlen]%runHandler_panics. left.
    apply String.eqb_eq in Hquote as ->.
    destruct channels as [| c [| c' rest]]; simpl in *; [done | | lia].
    by injection H0 as ->. }
  destruct (String.eqb c0 "rfq"); [no_panic |].
  destruct (String.eqb c0 "ticker"); [no_panic |].
  destruct (String.eqb c0 "trades"); [no_panic |].
  destruct (String.eqb c0 "user") eqn:Huser.
  { intros Hp%routeUser_panics. right.
    apply String.eqb_eq in Huser as ->. done. }
  destruct (String.eqb c0 "public/test" || String.eqb c0 "public/set_heartbeat");
    [done |].
  destruct (WsResponse.Result response); try done.
  by destruct (String.eqb _ "ok").
Qed.

(** X9. With the typed handlers in place, handling a frame panics exactly
    when the frame parses, is not a heartbeat, carries no positive
    identifier and its channel is "quote" alone, or is "user" alone, or is
    "user.mmp_trigger" with nothing after it: the three places where the
    channel is indexed without a check of its length. *)
Theorem wsHandleData_panics_exactly raw e :
  (exists msg, snd (wsHandleData (withHandlers env henv) raw e) = Panic msg) <->
  exists response,
    json_Unmarshal_WsResponse env raw = inr response /\
    WsResponse.Method response <> "heartbeat" /\
    WsResponse.ID response <= 0 /\
    panicking (strings.Split (WsResponse.Params_Channel response) "."%char).
Proof.
  split.
  - intros [msg Hp]. revert Hp. unfold wsHandleData.
    change (json_Unmarshal_WsResponse (withHandlers env henv) raw)
      with (json_Unmarshal_WsResponse env raw).
    destruct (json_Unmarshal_WsResponse env raw) as [err | response] eqn:Hdec;
      [done |].
    destruct (String.eqb _ "heartbeat") eqn:Hm; [done |].
    destruct (2 <? WsResponse.ID response) eqn:H2.
    { unfold Match_IncomingWithData.
      destruct (stream.IncomingWithData _ _ _) as [mt ok]. by destruct ok. }
    destruct (0 <? WsResponse.ID response) eqn:H0; [done |].
    intros Hp. exists response. split; [done |].
    split; [by apply String.eqb_neq |].
    split; [apply Z.ltb_ge in H0; lia |].
    eapply routeChannel_panics; [exact Hp |].
    destruct (Split_cons (WsResponse.Params_Channel response) "."%char)
      as (c0 & rest & ->). done.
  - intros (response & Hdec & Hm & Hid & Hpanic).
    apply String.eqb_neq in Hm.
    unfold wsHandleData.
    change (json_Unmarshal_WsResponse (withHandlers env henv) raw)
      with (json_Unmarshal_WsResponse env raw).
    rewrite Hdec, Hm.
    assert ((2 <? WsResponse.ID response) = false) as -> by (apply Z.ltb_ge; lia).
    assert ((0 <? WsResponse.ID response) = false) as -> by (apply Z.ltb_ge; lia).
    destruct Hpanic as [-> | [H0 H1]].
    + unfold routeChannel. cbn [lookup list_lookup]. decide_routes "quote".
      rewrite runHandler_withHandlers. cbn [typed]. unfold processQuoteTicker.
      cbn [lookup list_lookup]. eauto.
    + unfold routeChannel. rewrite H0. decide_routes "user". unfold routeUser.
      destruct H1 as [-> | [-> ->]]; [eauto |].
      decide_routes "mmp_trigger". eauto.
Qed.

End Panics.


(** * Further properties of the order-book path *)

Section OrderbookMore.

Import deribit helpers.

Variable env : Env.

Implicit Types (rows : list (list any)) (row : list any) (e : Exchange).

Lemma levelsLoop_acc width pi ai skipZero rows : forall acc,
  levelsLoop width pi ai skipZero rows acc =
    match levelsLoop width pi ai skipZero rows [] with
    | inl err => inl err
    | inr out => inr (acc ++ out)
    end.
Proof.
  induction rows as [| row rest IH]; intros acc; simpl.
  - by rewrite app_nil_r.
  - destruct (negb _); [done |].
    destruct (row !! pi ≫= asFloat64) as [price |]; [| done].
    destruct (skipZero && isZero price); [apply IH |].
    destruct (row !! ai ≫= asFloat64) as [amount |]; [| done].
    rewrite (IH (acc ++ _)), (IH [_]).
    destruct (levelsLoop width pi ai skipZero rest []); [done |].
    by rewrite <- app_assoc.
Qed.

Lemma keptLevels_cons pi ai skipZero row rows :
  keptLevels pi ai skipZero (row :: rows) =
    if skippedRow pi skipZero row then keptLevels pi ai skipZero rows
    else match rowLevel pi ai row with
         | Some l => l :: keptLevels pi ai skipZero rows
         | None => keptLevels pi ai skipZero rows
         end.
Proof.
  unfold keptLevels. simpl. destruct (skippedRow pi skipZero row); [done |].
  simpl. by destruct (rowLevel pi ai row).
Qed.

(** The loop, as a function of the rows: the malformed-data error as soon as
    a row is malformed, and otherwise the levels of the rows that are not
    passed over, in their order. *)
Lemma levelsLoop_spec width pi ai skipZero rows :
  if existsb (malformedRow width pi ai skipZero) rows
  then exists detail,
         levelsLoop width pi ai skipZero rows [] = inl [errMalformedData detail]
  else levelsLoop width pi ai skipZero rows [] = inr (keptLevels pi ai skipZero rows).
Proof.
  induction rows as [| row rest IH]; [done |].
  cbn [existsb levelsLoop]. rewrite keptLevels_cons.
  unfold malformedRow at 1. unfold skippedRow, rowLevel.
  destruct (length row =? width)%nat; cbn [negb orb]; [| eauto].
  destruct (row !! pi ≫= asFloat64) as [price |]; [| cbn; eauto].
  destruct (skipZero && isZero price) eqn:Hskip; cbn [negb andb orb].
  - exact IH.
  - destruct (row !! ai ≫= asFloat64) as [amount |]; cbn; [| eauto].
    rewrite levelsLoop_acc.
    destruct (existsb _ rest).
    + destruct IH as [detail ->]. eauto.
    + by rewrite IH.
Qed.

Lemma levelsLoop_kept width pi ai skipZero rows out :
  levelsLoop width pi ai skipZero rows [] = inr out ->
  out = keptLevels pi ai skipZero rows.
Proof.
  intros H. pose proof (levelsLoop_spec width pi ai skipZero rows) as Hs.
  destruct (existsb _ rows).
  - destruct Hs as [detail Hs]. congruence.
  - congruence.
Qed.

(** X10. The two sides [processOrderbook] hands to the order-book buffer are
    the levels of the rows of the message, in the order of the message and
    with its repetitions: nothing is sorted or merged on the way, and the
    only rows left out are those with a zero price, on the bid side and, under
    a channel of five segments, on the ask side. *)
Theorem processOrderbook_keeps_the_order raw channels e e' out ev ob asks bids :
  processOrderbook env raw channels e = (e', out) ->
  trace e' = trace e ++ [ev] ->
  sides ev = Some (asks, bids) ->
  json_Unmarshal_wsOrderbook env raw = inr ob ->
  asks = keptLevels (priceIndex channels) (amountIndex channels)
           (asksSkipZero channels) (wsOrderbook.Asks ob) /\
  bids = keptLevels (priceIndex channels) (amountIndex channels) true
           (wsOrderbook.Bids ob).
Proof.
  intros Hrun Htr Hsides Hdec.
  destruct (processOrderbook_handed _ _ _ _ _ _ _ Hrun Htr)
    as (ob' & asks' & bids' & Hdec' & Hsides' & Hpath).
  rewrite Hdec in Hdec'. injection Hdec' as <-.
  rewrite Hsides in Hsides'. injection Hsides' as <- <-.
  destruct (path_indices channels) as [P3 P5]. unfold asksSkipZero.
  destruct Hpath as [(Hlen & Ha & Hb) | (Hlen & Ha & Hb)].
  - destruct (P3 Hlen) as [-> ->]. rewrite Hlen. simpl.
    split; by apply (levelsLoop_kept 3).
  - destruct (P5 Hlen) as [-> ->]. rewrite Hlen. simpl.
    split; by apply (levelsLoop_kept 2).
Qed.

(** X11. When the message decodes, its instrument resolves and the channel
    has three or five segments, a single malformed row on either side (a row
    of the wrong width, a price that is not a number, or an amount that is
    not a number on a row that is not passed over for its zero price) makes
    [processOrderbook] return the malformed-data error and hand nothing to
    the order-book buffer. *)
Theorem malformed_row_rejects_the_message raw channels e ob cp a :
  json_Unmarshal_wsOrderbook env raw = inr ob ->
  getAssetPairByInstrument env (wsOrderbook.InstrumentName ob) = inr (cp, a) ->
  length channels = 3%nat \/ length channels = 5%nat ->
  existsb (malformedRow (rowWidth channels) (priceIndex channels)
             (amountIndex channels) (asksSkipZero channels))
    (wsOrderbook.Asks ob)
  || existsb (malformedRow (rowWidth channels) (priceIndex channels)
                (amountIndex channels) true)
       (wsOrderbook.Bids ob) = true ->
  exists detail,
    processOrderbook env raw channels e = (e, Return [errMalformedData detail]).
Proof.
  intros Hdec Hlook Hlen Hbad. unfold processOrderbook. rewrite Hdec.
  unfold rowWidth, amountIndex, priceIndex, asksSkipZero in Hbad.
  destruct Hlen as [Hlen | Hlen]; rewrite Hlen in *; simpl in Hbad |- *;
    rewrite Hlook.
  - unfold bookAsks, bookBids.
    pose proof (levelsLoop_spec 3 1 2 false (wsOrderbook.Asks ob)) as Ha.
    pose proof (levelsLoop_spec 3 1 2 true (wsOrderbook.Bids ob)) as Hb.
    destruct (existsb _ (wsOrderbook.Asks ob)).
    + destruct Ha as [detail ->]. eauto.
    + rewrite Ha. simpl in Hbad. rewrite Hbad in Hb.
      destruct Hb as [detail ->]. eauto.
  - unfold depthAsks, depthBids.
    pose proof (levelsLoop_spec 2 0 1 true (wsOrderbook.Asks ob)) as Ha.
    pose proof (levelsLoop_spec 2 0 1 true (wsOrderbook.Bids ob)) as Hb.
    destruct (existsb _ (wsOrderbook.Asks ob)).
    + destruct Ha as [detail ->]. eauto.
    + rewrite Ha. simpl in Hbad. rewrite Hbad in Hb.
      destruct Hb as [detail ->]. eauto.
Qed.

(** X12. [processOrderbook] calls the order-book buffer at most once and
    returns what that call returns: either the state is left as it was and an
    error value (possibly nil) is returned; or one book is loaded, which
    carries the name of the exchange, the pair and the asset class of the
    message's instrument, the change identifier and the time of the message,
    and asks for validation as the exchange is set up under a channel of
    three segments but never under a channel of five; or one update is
    applied, under a channel of three segments and for a message of type
    "change", with the same pair, asset class, identifier and time. *)
Theorem processOrderbook_calls_the_buffer_once raw channels e :
  (fst (processOrderbook env raw channels e) = e /\
   exists err, snd (processOrderbook env raw channels e) = Return err) \/
  (exists ob cp a b,
     json_Unmarshal_wsOrderbook env raw = inr ob /\
     getAssetPairByInstrument env (wsOrderbook.InstrumentName ob) = inr (cp, a) /\
     processOrderbook env raw channels e =
       (emit (EvLoadSnapshot b) e, Return (Orderbook_LoadSnapshot env (trace e) b)) /\
     orderbook.Book.Exchange b = Name e /\
     orderbook.Book.Pair b = cp /\
     orderbook.Book.Asset b = a /\
     orderbook.Book.LastUpdateID b = wsOrderbook.ChangeID ob /\
     orderbook.Book.LastUpdated b = wsOrderbook.Timestamp ob /\
     orderbook.Book.ValidateOrderbook b =
       (if (length channels =? 3)%nat then ValidateOrderbook e else false)) \/
  (exists ob cp a u,
     json_Unmarshal_wsOrderbook env raw = inr ob /\
     getAssetPairByInstrument env (wsOrderbook.InstrumentName ob) = inr (cp, a) /\
     length channels = 3%nat /\
     wsOrderbook.Type_ ob = "change" /\
     processOrderbook env raw channels e =
       (emit (EvUpdate u) e, Return (Orderbook_Update env (trace e) u)) /\
     orderbook.Update.Pair u = cp /\
     orderbook.Update.Asset u = a /\
     orderbook.Update.UpdateID u = wsOrderbook.ChangeID ob /\
     orderbook.Update.UpdateTime u = wsOrderbook.Timestamp ob).
Proof.
  unfold processOrderbook.
  destruct (json_Unmarshal_wsOrderbook env raw) as [err | ob] eqn:Hdec;
    [left; eauto |].
  destruct (length channels =? 3)%nat eqn:H3.
  { apply Nat.eqb_eq in H3.
    destruct (getAssetPairByInstrument env _) as [err | [cp a]] eqn:Hl;
      [left; eauto |].
    destruct (bookAsks _) as [err | asks]; [left; eauto |].
    destruct (bookBids _) as [err | bids]; [left; eauto |].
    destruct (_ && _); [left; eauto |].
    destruct (String.eqb _ "snapshot").
    - right. left. do 4 eexists. split; [done |]. split; [exact Hl |].
      split; [reflexivity |]. done.
    - destruct (String.eqb _ "change") eqn:Hc; [| left; eauto].
      apply String.eqb_eq in Hc.
      right. right. do 4 eexists. split; [done |]. split; [exact Hl |].
      split; [done |]. split; [done |]. split; [reflexivity |]. done. }
  destruct (length channels =? 5)%nat eqn:H5; [| left; eauto].
  destruct (getAssetPairByInstrument env _) as [err | [cp a]] eqn:Hl;
    [left; eauto |].
  destruct (depthAsks _) as [err | asks]; [left; eauto |].
  destruct (depthBids _) as [err | bids]; [left; eauto |].
  destruct (_ && _); [left; eauto |].
  right. left. do 4 eexists. split; [done |]. split; [exact Hl |].
  split; [reflexivity |]. done.
Qed.

(** X13. A book message that decodes is dropped without a word, nil being
    returned and nothing handed over, when its channel has neither three
    nor five segments, whatever the message holds; and also, under a
    channel of three segments, when its instrument resolves, no row of it
    is malformed and its type is neither "snapshot" nor "change". *)
Theorem unknown_book_shapes_are_ignored raw channels e ob :
  json_Unmarshal_wsOrderbook env raw = inr ob ->
  (length channels <> 3%nat /\ length channels <> 5%nat
   \/
   length channels = 3%nat /\
   (exists cp a,
      getAssetPairByInstrument env (wsOrderbook.InstrumentName ob) = inr (cp, a)) /\
   existsb (malformedRow 3 1 2 false) (wsOrderbook.Asks ob) = false /\
   existsb (malformedRow 3 1 2 true) (wsOrderbook.Bids ob) = false /\
   wsOrderbook.Type_ ob <> "snapshot" /\
   wsOrderbook.Type_ ob <> "change") ->
  processOrderbook env raw channels e = (e, Return []).
Proof.
  intros Hdec Hshape. unfold processOrderbook. rewrite Hdec.
  destruct Hshape as [[H3 H5] | (H3 & (cp & a & Hl) & Ha & Hb & Hs & Hc)].
  - apply Nat.eqb_neq in H3, H5. by rewrite H3, H5.
  - rewrite H3, Hl. simpl. unfold bookAsks, bookBids.
    pose proof (levelsLoop_spec 3 1 2 false (wsOrderbook.Asks ob)) as Hla.
    pose proof (levelsLoop_spec 3 1 2 true (wsOrderbook.Bids ob)) as Hlb.
    rewrite Ha in Hla. rewrite Hb in Hlb. rewrite Hla, Hlb.
    apply String.eqb_neq in Hs, Hc. rewrite Hs, Hc.
    by destruct (_ && _).
Qed.

End OrderbookMore.


(** * Further properties of the subscription reconciliation *)

Section SubscriptionMore.

Import deribit helpers.

Variable env : Env.

#[local] Abbreviation qc := subscription.QualifiedChannel.

Implicit Types (e : Exchange) (s : subscription.Subscription)
  (subs regs : subscription.List) (A : gset string) (err : error).

Lemma emits_registered method s e :
  (if negb (strings.Contains method "unsubscribe")
   then emit (EvAddSuccessfulSubscriptions s) e
   else emit (EvRemoveSubscriptions s) e)
  = emits [registered method s] e.
Proof. unfold registered. by destruct (strings.Contains _ _). Qed.

Lemma reconcileLoop_calls method subs : forall A err e,
  exists regs,
    fst (fst (reconcileLoop env method subs A err e))
      = emits (map (registered method) regs) e /\
    sublist regs subs /\
    NoDup (map qc regs) /\
    (forall s, s ∈ regs -> qc s ∈ A).
Proof.
  induction subs as [| s rest IH]; intros A err e; simpl.
  - exists []. rewrite emits_nil. repeat split; try done.
    + constructor.
    + intros s Hs. by apply elem_of_nil in Hs.
  - case_bool_decide as Hin.
    + set (e1 := if negb (strings.Contains method "unsubscribe")
                 then emit (EvAddSuccessfulSubscriptions s) e
                 else emit (EvRemoveSubscriptions s) e).
      set (reg := if negb (strings.Contains method "unsubscribe")
                  then AddSuccessfulSubscriptions env (trace e) s
                  else RemoveSubscriptions env (trace e) s).
      destruct (IH (A ∖ {[qc s]}) (AppendError err reg) e1)
        as (regs & Hst & Hsub & Hnd & HA).
      exists (s :: regs).
      split.
      { subst e1 reg. destruct (strings.Contains method "unsubscribe") eqn:Hc;
          simpl in *; rewrite Hst; rewrite emit_emits, emits_emits;
          simpl; unfold registered; by rewrite Hc. }
      split; [by constructor |].
      split.
      { simpl. constructor; [| done].
        intros (s' & Heq & Hs')%list_elem_of_fmap.
        specialize (HA s' Hs'). rewrite <- Heq in HA. set_solver. }
      intros s' Hs'. apply elem_of_cons in Hs' as [-> | Hs']; [done |].
      specialize (HA s' Hs'). set_solver.
    + destruct (IH A (AppendError err
                        [ErrFailedTo (subscription.String_ s) method]) e)
        as (regs & Hst & Hsub & Hnd & HA).
      exists regs. split; [done |]. split; [by constructor |]. done.
Qed.

(** X14. [handleSubscription] sends at most one request, and none when the
    expansion fails or gives an empty batch; the request carries the method
    and the qualified channels of the expanded batch, in their order.  It
    calls the subscription store only after that request was answered and
    the answer decoded; the subscriptions it calls the store for are taken
    from the expanded batch, in the order of the batch, and no qualified
    channel is registered twice, even when the batch or the acknowledgement
    repeats it.  Nothing else of the exchange state changes. *)
Theorem handleSubscription_effects method subs e :
  exists sent regs,
    fst (handleSubscription env method subs e)
      = emits (sent ++ map (registered method) regs) e /\
    (sent = [] /\ regs = [] \/
     exists expanded,
       ExpandTemplates env subs = inr expanded /\
       expanded <> [] /\
       sent =
         [EvSendMessageReturnResponse (Conn_GenerateMessageID env (trace e))
            (WsSubscriptionInput (Conn_GenerateMessageID env (trace e))
               rpcVersion method
               {[ "channels" := subscription.QualifiedChannels expanded ]})] /\
       sublist regs expanded /\
       (regs <> [] ->
        exists data Result,
          Conn_SendMessageReturnResponse env (trace e)
            (Conn_GenerateMessageID env (trace e))
            (WsSubscriptionInput (Conn_GenerateMessageID env (trace e))
               rpcVersion method
               {[ "channels" := subscription.QualifiedChannels expanded ]})
            = inr data /\
          json_Unmarshal_wsSubscriptionResponse env data = inr Result /\
          forall s, s ∈ regs -> qc s ∈ Result)) /\
    NoDup (map qc regs).
Proof.
  unfold handleSubscription.
  destruct (ExpandTemplates env subs) as [err | expanded] eqn:Hexp.
  { exists [], []. rewrite emits_nil. split; [done |].
    split; [by left | constructor]. }
  destruct (length expanded =? 0)%nat eqn:Hlen.
  { exists [], []. rewrite emits_nil. split; [done |].
    split; [by left | constructor]. }
  assert (expanded <> []) as Hne by (by destruct expanded).
  cbv zeta. unfold SendMessageReturnResponse.
  set (id := Conn_GenerateMessageID env (trace e)).
  set (r := WsSubscriptionInput id rpcVersion method
              {[ "channels" := subscription.QualifiedChannels expanded ]}).
  destruct (Conn_SendMessageReturnResponse env (trace e) id r)
    as [err | data] eqn:Hsend.
  { exists [EvSendMessageReturnResponse id r], []. split; [done |].
    split; [| constructor]. right. exists expanded.
    repeat split; try done. apply sublist_nil_l. }
  destruct (json_Unmarshal_wsSubscriptionResponse env data)
    as [err | Result] eqn:Hdec.
  { exists [EvSendMessageReturnResponse id r], []. split; [done |].
    split; [| constructor]. right. exists expanded.
    repeat split; try done. apply sublist_nil_l. }
  match goal with
  | |- context [reconcileLoop ?a ?b ?c ?d ?f ?g] =>
      destruct (reconcileLoop_calls b c d f g) as (regs & Hst & Hsub & Hnd & HA);
      destruct (reconcileLoop a b c d f g) as [[e' A'] err']
  end.
  simpl in Hst. subst e'. simpl.
  exists [EvSendMessageReturnResponse id r], regs.
  split; [by rewrite emit_emits, emits_emits |].
  split; [| done]. right. exists expanded.
  repeat split; try done.
  intros _. exists data, Result. repeat split; try done.
  intros s Hs. apply ackSet_elem. by apply HA.
Qed.


Lemma half_effects method subs e (wrong : Event -> bool) :
  (forall s, wrong (registered method s) = false) ->
  (forall id r, wrong (EvSendMessageReturnResponse id r) = false) ->
  exists tr,
    fst (handleSubscription env method subs e) = emits tr e /\
    Forall (fun ev => wrong ev = false) tr /\
    (length (List.filter isRequest tr) <= 1)%nat.
Proof.
  intros Hreg Hreq.
  destruct (handleSubscription_effects method subs e)
    as (sent & regs & Hst & Hshape & _).
  exists (sent ++ map (registered method) regs). split; [done |].
  assert (List.filter isRequest (map (registered method) regs) = []) as Hnone.
  { clear. induction regs as [| s regs IH]; [done |]. simpl.
    unfold registered at 1. by destruct (strings.Contains _ _). }
  assert (Forall (fun ev => wrong ev = false) (map (registered method) regs))
    as Hregs.
  { apply Forall_fmap, Forall_forall. intros s _. apply Hreg. }
  destruct Hshape as [[-> ->] | (expanded & _ & _ & -> & _)].
  - split; [constructor | simpl; lia].
  - split.
    + constructor; [apply Hreq | exact Hregs].
    + simpl. rewrite Hnone. simpl. lia.
Qed.

(** X15. [Subscribe] never removes from the subscription store and
    [Unsubscribe] never adds to it; each sends at most two requests, and
    changes nothing of the exchange state but the trace. *)
Theorem Subscribe_only_adds_Unsubscribe_only_removes subs e :
  (exists tr,
     fst (Subscribe env subs e) = emits tr e /\
     Forall (fun ev => isRemoval ev = false) tr /\
     (length (List.filter isRequest tr) <= 2)%nat) /\
  (exists tr,
     fst (Unsubscribe env subs e) = emits tr e /\
     Forall (fun ev => isAddition ev = false) tr /\
     (length (List.filter isRequest tr) <= 2)%nat).
Proof.
  split.
  - unfold Subscribe.
    destruct (half_effects "public/subscribe" (subscription.Public subs) e
                isRemoval) as (tr1 & H1 & Hf1 & Hn1); [done | done |].
    destruct (handleSubscription env "public/subscribe" _ e) as [e1 errs].
    simpl in H1. subst e1.
    destruct (half_effects "private/subscribe" (subscription.Private subs)
                (emits tr1 e) isRemoval) as (tr2 & H2 & Hf2 & Hn2);
      [done | done |].
    destruct (handleSubscription env "private/subscribe" _ _) as [e2 errs'].
    simpl in H2. subst e2. simpl.
    exists (tr1 ++ tr2). split; [by rewrite emits_emits |].
    split; [by apply Forall_app |].
    rewrite List.filter_app, length_app. lia.
  - unfold Unsubscribe.
    destruct (half_effects "public/unsubscribe" (subscription.Public subs) e
                isAddition) as (tr1 & H1 & Hf1 & Hn1); [done | done |].
    destruct (handleSubscription env "public/unsubscribe" _ e) as [e1 errs].
    simpl in H1. subst e1.
    destruct (half_effects "private/unsubscribe" (subscription.Private subs)
                (emits tr1 e) isAddition) as (tr2 & H2 & Hf2 & Hn2);
      [done | done |].
    destruct (handleSubscription env "private/unsubscribe" _ _) as [e2 errs'].
    simpl in H2. subst e2. simpl.
    exists (tr1 ++ tr2). split; [by rewrite emits_emits |].
    split; [by apply Forall_app |].
    rewrite List.filter_app, length_app. lia.
Qed.

Lemma filter_difference s0 rest A (keep : bool -> bool) :
  qc s0 ∉ map qc rest ->
  List.filter (fun s => keep (bool_decide (qc s ∈ A ∖ {[qc s0]}))) rest
  = List.filter (fun s => keep (bool_decide (qc s ∈ A))) rest.
Proof.
  intros Hfresh. apply List.filter_ext_in. intros s Hs. f_equal.
  apply bool_decide_ext. rewrite elem_of_difference, elem_of_singleton.
  split; [by intros [? _] |]. intros HA. split; [done |].
  intros Heq. apply Hfresh. rewrite <- Heq.
  apply list_elem_of_fmap. exists s. split; [done |]. by apply list_elem_of_In.
Qed.

Lemma reconcileLoop_exact method subs : forall A err e,
  NoDup (map qc subs) ->
  registryQuiet env ->
  reconcileLoop env method subs A err e =
    (emits (map (registered method)
              (List.filter (fun s => bool_decide (qc s ∈ A)) subs)) e,
     A ∖ list_to_set (map qc subs),
     err ++ map (fun s => ErrFailedTo (subscription.String_ s) method)
              (List.filter (fun s => negb (bool_decide (qc s ∈ A))) subs)).
Proof.
  induction subs as [| s rest IH]; intros A err e Hnd Hq; simpl.
  - rewrite emits_nil, app_nil_r. f_equal. f_equal. set_solver.
  - simpl in Hnd. apply NoDup_cons in Hnd as [Hfresh Hnd].
    case_bool_decide as Hin; simpl.
    + assert (forall e1 err1,
                reconcileLoop env method rest (A ∖ {[qc s]}) err1 e1 =
                  (emits (map (registered method)
                            (List.filter (fun s => bool_decide (qc s ∈ A)) rest)) e1,
                   A ∖ list_to_set (map qc (s :: rest)),
                   err1 ++ map (fun s => ErrFailedTo (subscription.String_ s) method)
                             (List.filter (fun s => negb (bool_decide (qc s ∈ A)))
                                rest))) as Hrest.
      { intros e1 err1. rewrite IH by done.
        rewrite (filter_difference s rest A (fun b => b)) by done.
        rewrite (filter_difference s rest A negb) by done.
        f_equal. f_equal. set_solver. }
      destruct (Hq (trace e) s) as [Hadd Hrem].
      destruct (strings.Contains method "unsubscribe") eqn:Hc; simpl;
        rewrite Hrest; [rewrite Hrem | rewrite Hadd];
        unfold AppendError; rewrite app_nil_r, emit_emits, emits_emits;
        simpl; unfold registered at 2; by rewrite Hc.
    + rewrite IH by done. unfold AppendError. rewrite <- app_assoc. simpl.
      f_equal. f_equal. set_solver.
Qed.

(** X16. When the requested qualified channels are pairwise distinct and the
    subscription store reports no error, the outcome of a reconciliation is
    this: the store is called for exactly the requested subscriptions that
    are acknowledged, in the order of the request; the aggregate holds, in
    this order, the subscription-failure error if the number of distinct
    acknowledged channels differs from the number of requested ones (and
    only then: a reply that swaps one channel for another does not raise
    it), one failure for each requested subscription that is not
    acknowledged, in the order of the request, and one unexpected-channel
    error for each acknowledged channel that was not requested, these
    last as [elements] lists them. *)
Theorem handleSubscription_exact_outcome method subs expanded data Result e :
  let id := Conn_GenerateMessageID env (trace e) in
  let r :=
    WsSubscriptionInput id rpcVersion method
      {[ "channels" := subscription.QualifiedChannels expanded ]} in
  ExpandTemplates env subs = inr expanded ->
  expanded <> [] ->
  Conn_SendMessageReturnResponse env (trace e) id r = inr data ->
  json_Unmarshal_wsSubscriptionResponse env data = inr Result ->
  NoDup (map qc expanded) ->
  registryQuiet env ->
  handleSubscription env method subs e =
    (emits (EvSendMessageReturnResponse id r ::
            map (registered method)
              (List.filter (fun s => bool_decide (qc s ∈ Result)) expanded)) e,
     (if (size (ackSet Result) =? length expanded)%nat
      then [] else [ErrSubscriptionFailure]) ++
     map (fun s => ErrFailedTo (subscription.String_ s) method)
       (List.filter (fun s => negb (bool_decide (qc s ∈ Result))) expanded) ++
     map ErrUnexpectedChannel
       (elements (ackSet Result ∖ list_to_set (map qc expanded)))).
Proof.
  intros id r Hexp Hne Hsend Hdec Hnd Hq. subst id r.
  unfold handleSubscription. rewrite Hexp.
  assert ((length expanded =? 0)%nat = false) as -> by (by destruct expanded).
  cbv zeta. unfold SendMessageReturnResponse. rewrite Hsend, Hdec.
  rewrite reconcileLoop_exact by done. rewrite unexpectedLoop_spec.
  rewrite emit_emits, emits_emits.
  assert (forall keep : bool -> bool,
            List.filter (fun s => keep (bool_decide (qc s ∈ ackSet Result))) expanded
            = List.filter (fun s => keep (bool_decide (qc s ∈ Result))) expanded)
    as Hsame.
  { intros keep. apply List.filter_ext. intros s. f_equal.
    apply bool_decide_ext, ackSet_elem. }
  rewrite (Hsame (fun b => b)), (Hsame negb). simpl.
  rewrite <- app_assoc. by destruct (size _ =? _)%nat.
Qed.

End SubscriptionMore.


(** * Properties of the helpers *)

Section Helpers.

Import deribit handlers helpers.

Lemma concat_cons_piece (sep : string) (c : ascii) (h : string) (t : list string) :
  String.concat sep (String c h :: t) = String c (String.concat sep (h :: t)).
Proof. by destruct t. Qed.

(** X24. Splitting a channel on a separator loses nothing: joining the
    pieces with the separator gives the channel back; no piece holds the
    separator; and there is one piece more than there are separators in the
    channel, so that there is always a first piece. *)
Theorem Split_round_trip (s : string) (sep : ascii) :
  String.concat (String sep "") (strings.Split s sep) = s /\
  Forall (fun piece => occurrences sep piece = 0%nat) (strings.Split s sep) /\
  length (strings.Split s sep) = S (occurrences sep s).
Proof.
  induction s as [| c s (IHjoin & IHfree & IHlen)]; simpl.
  - repeat split. by constructor.
  - destruct (Ascii.eqb c sep) eqn:Hc.
    + apply Ascii.eqb_eq in Hc as ->.
      destruct (strings.Split s sep) as [| h t] eqn:Hs; [discriminate |].
      simpl in *. rewrite IHlen. repeat split; [by rewrite IHjoin |].
      by constructor.
    + destruct (strings.Split s sep) as [| h t] eqn:Hs; [discriminate |].
      rewrite concat_cons_piece, IHjoin.
      apply Forall_cons in IHfree as [Hh Ht].
      repeat split; [| done].
      constructor; [| done]. simpl. by rewrite Hc.
Qed.

Ltac listed_code :=
  simpl; split; [set_solver |];
  split; [done | intros Hout; exfalso; apply Hout; set_solver].

Section CurrencyCodeProperties.

Variable Upper : string -> string.
Variable Pair_String : Pair -> string.
Variables currencyBTC currencyETH currencySOL : string.
Variables currencyUSDT currencyUSDC currencyEURR : string.

(** X23. [getValidatedCurrencyCode] always answers with one of the six
    listed currency codes or with "any".  It answers with the upper-cased
    base of the pair when that is a listed code; otherwise with the
    USDC code when the pair, written out, holds it, and this even when the
    pair holds the USDT code as well; otherwise with the USDT code when
    the pair holds it; and with "any" in the remaining case. *)
Theorem getValidatedCurrencyCode_range (pair : Pair) :
  let code :=
    getValidatedCurrencyCode Upper Pair_String currencyBTC currencyETH
      currencySOL currencyUSDT currencyUSDC currencyEURR pair in
  let listed :=
    [currencyBTC; currencyETH; currencySOL; currencyUSDT; currencyUSDC;
     currencyEURR] in
  code ∈ listed ++ ["any"] /\
  (Upper (Base pair) ∈ listed -> code = Upper (Base pair)) /\
  (Upper (Base pair) ∉ listed ->
   code =
     if strings.Contains (Pair_String pair) currencyUSDC then currencyUSDC
     else if strings.Contains (Pair_String pair) currencyUSDT then currencyUSDT
     else "any").
Proof.
  unfold getValidatedCurrencyCode. cbv zeta.
  destruct (String.eqb_spec (Upper (Base pair)) currencyBTC) as [-> | H1];
    [listed_code |].
  destruct (String.eqb_spec (Upper (Base pair)) currencyETH) as [-> | H2];
    [listed_code |].
  destruct (String.eqb_spec (Upper (Base pair)) currencySOL) as [-> | H3];
    [listed_code |].
  destruct (String.eqb_spec (Upper (Base pair)) currencyUSDT) as [-> | H4];
    [listed_code |].
  destruct (String.eqb_spec (Upper (Base pair)) currencyUSDC) as [-> | H5];
    [listed_code |].
  destruct (String.eqb_spec (Upper (Base pair)) currencyEURR) as [-> | H6];
    [listed_code |].
  simpl. split; [| split; [set_solver | done]].
  destruct (strings.Contains _ currencyUSDC); [set_solver |].
  destruct (strings.Contains _ currencyUSDT); set_solver.
Qed.

End CurrencyCodeProperties.

End Helpers.


(** * The further properties on the fixtures *)

Section FurtherExamples.

Import deribit handlers helpers fixtures fixtures2.

Lemma unparsable_frame_is_reported_witness :
  wsHandleData demoEnv "garbage" e0 =
    (e0, Return [ErrCouldNotParse "Deribit" (ErrExternal "invalid character")
                   "garbage"]).
Proof.
  exact (proj1 (unparsable_frame_is_reported demoEnv "garbage"
                  (ErrExternal "invalid character") e0 [] eq_refl)).
Defined.

Lemma wsHandleData_panics_exactly_witness :
  exists msg,
    snd (wsHandleData (withHandlers demoEnv demoHenv) "userBare" e0) = Panic msg.
Proof.
  apply (proj2 (wsHandleData_panics_exactly demoEnv demoHenv "userBare" e0)).
  exists (envelope 0 "subscription" AnyNil "user").
  split; [reflexivity |]. split; [discriminate |]. split; [discriminate |].
  right. split; [reflexivity |]. left. reflexivity.
Defined.

Lemma typed_handlers_reject_wrong_arity_witness :
  exists detail,
    typed demoEnv demoHenv deribit.processInstrumentTicker "t" ["ticker"; "BTC-PERPETUAL"]
      = ([], Return [errMalformedData (detail +:+ "ticker.BTC-PERPETUAL")]).
Proof.
  apply (typed_handlers_reject_wrong_arity demoEnv demoHenv
           deribit.processInstrumentTicker "t" ["ticker"; "BTC-PERPETUAL"]
           eq_refl).
  discriminate.
Defined.

Lemma price_handlers_push_once_witness :
  exists p,
    typed demoEnv demoHenv deribit.processQuoteTicker "q"
      ["quote"; "BTC-PERPETUAL"; "100ms"] = ([Push p], Return []) /\
    pushedFor p = Some ("Deribit", "BTC-PERPETUAL", "futures").
Proof.
  destruct (price_handlers_push_once demoEnv demoHenv deribit.processQuoteTicker
              "q" ["quote"; "BTC-PERPETUAL"; "100ms"] (or_introl eq_refl))
    as [Hnone | (instrument & cp & a & p & Hseg & Hlook & Hrun & Hfor)].
  - discriminate Hnone.
  - exists p. split; [exact Hrun |].
    injection Hseg as <-. injection Hlook as <- <-. exact Hfor.
Defined.

Lemma processTrades_all_or_nothing_witness :
  exists ds,
    length ds = 2%nat /\
    fst (processTrades demoEnv demoHenv "trades" tradesChannel) =
      map (fun d => Push (PushTrade d)) ds ++ [AddTradesToBuffer_call ds].
Proof.
  destruct (proj2 (processTrades_all_or_nothing demoEnv demoHenv "trades"
                     tradesChannel))
    as [Hnone | (tradeList & ds & Hdec & _ & Hall & Hrun & _)].
  - discriminate Hnone.
  - exists ds. split; [| exact Hrun].
    injection Hdec as <-. apply Forall2_length in Hall. symmetry. exact Hall.
Defined.

Lemma processUserOrders_pushes_no_order_witness :
  processUserOrders demoEnv demoHenv "orders" ordersChannel
    = ([Push (PushOrders [])], Return []).
Proof.
  exact (proj2 (processUserOrders_pushes_no_order demoEnv demoHenv "orders"
                  ordersChannel) eq_refl eq_refl).
Defined.

Lemma processUserOrderChanges_buffers_trades_first_witness :
  processUserOrderChanges demoEnv demoHenv "changes" changesChannel
    = ([AddTradesToBuffer_call [boughtData "t-1"]],
       Return [ErrExternal "not recognised"]).
Proof.
  destruct (processUserOrderChanges_buffers_trades_first demoEnv demoHenv
              "changes" changesChannel)
    as [Hnone | (changeData & td & _ & _ & _)]; reflexivity.
Defined.

Lemma processOrderbook_keeps_the_order_witness :
  orderbook.Book.Asks loadedBook
    = keptLevels 0 1 true (wsOrderbook.Asks depthMessage) /\
  orderbook.Book.Bids loadedBook
    = keptLevels 0 1 true (wsOrderbook.Bids depthMessage).
Proof.
  assert (processOrderbook demoEnv "depth" depthChannel e0
          = (emit (EvLoadSnapshot loadedBook) e0, Return [])) as Hrun
    by (vm_compute; reflexivity).
  exact (processOrderbook_keeps_the_order demoEnv "depth" depthChannel e0 _ _
           (EvLoadSnapshot loadedBook) depthMessage _ _
           Hrun eq_refl eq_refl eq_refl).
Defined.

Lemma malformed_row_rejects_the_message_witness :
  exists detail,
    processOrderbook demoEnv "shortRow" depthChannel e0
      = (e0, Return [errMalformedData detail]).
Proof.
  exact (malformed_row_rejects_the_message demoEnv "shortRow" depthChannel e0
           shortRowMessage "BTC-PERPETUAL" "futures"
           eq_refl eq_refl (or_intror eq_refl) eq_refl).
Defined.

Lemma unknown_book_shapes_are_ignored_witness :
  processOrderbook demoEnv "book" ["book"; "BTC-PERPETUAL"] e0 = (e0, Return []).
Proof.
  apply (unknown_book_shapes_are_ignored demoEnv "book" ["book"; "BTC-PERPETUAL"]
           e0 snapshotMessage eq_refl).
  left. split; discriminate.
Defined.

Lemma demo_channels_distinct :
  NoDup (map subscription.QualifiedChannel [tickerSub; bookSub; tradesSub]).
Proof. apply (bool_decide_unpack _). by vm_compute. Qed.

Lemma demo_registry_quiet : registryQuiet demoEnv.
Proof. intros tr s. split; reflexivity. Qed.

Lemma handleSubscription_exact_outcome_witness :
  handleSubscription demoEnv "public/subscribe" [tickerSub; bookSub; tradesSub] e0
  = (emits [EvSendMessageReturnResponse 3
              (subscribeRequest [tickerSub; bookSub; tradesSub]);
            EvAddSuccessfulSubscriptions tickerSub;
            EvAddSuccessfulSubscriptions bookSub] e0,
     [ErrSubscriptionFailure;
      ErrFailedTo "allTrades trades.BTC-PERPETUAL.100ms" "public/subscribe"]).
Proof.
  rewrite (handleSubscription_exact_outcome demoEnv "public/subscribe"
             [tickerSub; bookSub; tradesSub] [tickerSub; bookSub; tradesSub]
             "ticker.BTC-PERPETUAL.100ms,book.BTC-PERPETUAL.100ms"
             ["ticker.BTC-PERPETUAL.100ms"; "book.BTC-PERPETUAL.100ms"] e0
             eq_refl ltac:(discriminate) eq_refl eq_refl
             demo_channels_distinct demo_registry_quiet).
  vm_compute. reflexivity.
Defined.

Lemma correlated_response_reaches_its_waiter_witness :
  exists e1,
    wsHandleData demoEnv "reply7"
      (setMatch (fst (stream.Set_ (inl 7) stream.NewMatch)) e0) = (e1, Return []) /\
    stream.receive {| stream.sig := inl 7; stream.C := 0 |} (Match e1)
      = Some (stream.SlotFull (Some "reply7")).
Proof.
  destruct (correlated_response_reaches_its_waiter demoEnv "reply7"
              (envelope 7 "" (AnyComposite "[]") "") e0
              (fst (stream.Set_ (inl 7) stream.NewMatch))
              {| stream.sig := inl 7; stream.C := 0 |}
              eq_refl ltac:(discriminate) eq_refl eq_refl)
    as (e1 & Hrun & Hslot & _).
  exists e1. split; [exact Hrun | exact Hslot].
Defined.

End FurtherExamples.
